(** * Calibration subsystem of ai-measurement: a shallow embedding

    The development follows three source files:
    - [src/python/spatiallm_bridge.py]: point-cloud construction, layout
      parsing and the dimension aggregator (module [Bridge]);
    - [src/wrapper.py]: strategy selection with its precedence, and [main]
      up to the calibration (module [Wrapper]);
    - [src/python/wrapper.py]: the spatial strategy with its fallback, and
      [main] up to the calibration: the file checks and the method dispatch
      (module [PyWrapper]).

    Further modules cover the rest of these files: [Pipeline] (reference
    extraction, mock and real processing, [process_lidar_data]),
    [PoseHeight] (height detection and calibration of
    [src/python/wrapper.py]) and [Strategies] (the height, reference and
    spatial strategies of [src/wrapper.py]).  Image decoding, pose
    detection, drawing, model inference and the file system are
    parameters.

    Numbers.  Python floats are modelled by exact rationals [Q]; results are
    compared with [==].  Rounding of binary floating point is outside the
    model.  Division follows Python: a zero divisor raises
    [ZeroDivisionError] ([py_div]).  (With numpy scalars as operands the
    same division yields an infinity instead of raising; the model has no
    infinities and keeps the Python behaviour.)  The square [x ** 2] of a
    float also follows Python: a result out of the range of double
    precision raises [OverflowError] ([py_square]).

    Exceptions.  A computation that may raise returns [result A]: either
    [Ok a] or [Raise e].  [try ... except Exception] is a match on the
    result.

    Builtins.  [float(s)] and [np.sqrt] are library functions; the functions
    that call them take them as parameters ([py_float], [np_sqrt]).  A
    decimal reader [float_of_decimal] and a rational square root [sqrt_q]
    instantiate them where a definition is evaluated on concrete text. *)

From Stdlib Require Import ZArith QArith Qabs Qround List String Ascii Bool Lia.
Import ListNotations.

Local Open Scope Q_scope.
Local Open Scope string_scope.
Local Open Scope list_scope.

(* ================================================================== *)
(** * Exceptions and the error monad *)

Inductive exn : Type :=
| ValueError
| ZeroDivisionError
| KeyError
| IndexError
| OSError
| ImportError
| OverflowError.

Inductive result (A : Type) : Type :=
| Ok (a : A)
| Raise (e : exn).

Arguments Ok {A} a.
Arguments Raise {A} e.

Definition bind {A B : Type} (m : result A) (k : A -> result B) : result B :=
  match m with
  | Ok a => k a
  | Raise e => Raise e
  end.

Notation "x <- m ;; k" := (bind m (fun x => k))
  (at level 61, m at next level, right associativity).

(** A [for] loop whose body may raise: the accumulated state is threaded
    from left to right and the first exception ends the loop. *)
Fixpoint for_each {A S : Type} (body : S -> A -> result S)
         (xs : list A) (s : S) : result S :=
  match xs with
  | [] => Ok s
  | x :: xs' => s' <- body s x ;; for_each body xs' s'
  end.

Definition is_ok {A : Type} (m : result A) : bool :=
  match m with Ok _ => true | Raise _ => false end.

(* ================================================================== *)
(** * Python numbers *)

(** [x > 0] on numbers. *)
Definition gt0 (x : Q) : bool := negb (Qle_bool x 0).

(** [x / y]: raises on a zero divisor. *)
Definition py_div (x y : Q) : result Q :=
  if Qeq_bool y 0 then Raise ZeroDivisionError else Ok (x / y).

(** The bound from which a result rounds to an infinity in double
    precision: half a unit in the last place above the largest double. *)
Definition overflow_bound : Q := inject_Z (2 ^ 1024 - 2 ^ 970).

(** [x ** 2] on floats: a result out of range raises [OverflowError]
    (products, sums and quotients of floats do not: there the code goes on
    with an infinity). *)
Definition py_square (x : Q) : result Q :=
  if Qle_bool overflow_bound (x ^ 2) then Raise OverflowError
  else Ok (x ^ 2).

(** [sum(xs)]: starts from 0 and adds from left to right.  The sum is
    exact here; on floats each addition rounds, so that the last bits of
    the result depend on the order of the terms. *)
Definition py_sum (xs : list Q) : Q := fold_left Qplus xs 0.

(** [len(xs)] as a number. *)
Definition py_len {A : Type} (xs : list A) : Q :=
  inject_Z (Z.of_nat (List.length xs)).

(** Truth value of a list: empty lists are false. *)
Definition truthy_list {A : Type} (xs : list A) : bool :=
  match xs with [] => false | _ :: _ => true end.

(** Truth value of an optional number ([None] and [0.0] are false). *)
Definition truthy_num (x : option Q) : bool :=
  match x with
  | None => false
  | Some q => negb (Qeq_bool q 0)
  end.

(** Truth value of an optional string ([None] and the empty string are
    false). *)
Definition truthy_str (x : option string) : bool :=
  match x with
  | None => false
  | Some EmptyString => false
  | Some (String _ _) => true
  end.

(* ================================================================== *)
(** * Python strings *)

(** Characters are code points below 256.  [str.strip] and [str.split]
    treat these as white space. *)
Definition is_space (c : ascii) : bool :=
  let n := nat_of_ascii c in
  ((9 <=? n) && (n <=? 13) || (28 <=? n) && (n <=? 32)
   || (n =? 133) || (n =? 160))%nat.

Definition newline : ascii := ascii_of_nat 10.

Fixpoint lstrip (s : string) : string :=
  match s with
  | EmptyString => EmptyString
  | String c r => if is_space c then lstrip r else s
  end.

Fixpoint rstrip (s : string) : string :=
  match s with
  | EmptyString => EmptyString
  | String c r =>
      match rstrip r with
      | EmptyString => if is_space c then EmptyString else String c EmptyString
      | r' => String c r'
      end
  end.

(** [s.strip()] *)
Definition strip (s : string) : string := rstrip (lstrip s).

(** [s.split(sep)] for a one-character separator: never the empty list. *)
Fixpoint split_on (sep : ascii) (s : string) : list string :=
  match s with
  | EmptyString => [EmptyString]
  | String c r =>
      if Ascii.eqb c sep then EmptyString :: split_on sep r
      else match split_on sep r with
           | [] => [String c EmptyString]
           | h :: t => String c h :: t
           end
  end.

(** [s.split()]: maximal runs of non-space characters. *)
Fixpoint split_ws (s : string) : list string :=
  match s with
  | EmptyString => []
  | String c r =>
      if is_space c then split_ws r
      else match r with
           | EmptyString => [String c EmptyString]
           | String c' _ =>
               if is_space c' then String c EmptyString :: split_ws r
               else match split_ws r with
                    | [] => [String c EmptyString]
                    | h :: t => String c h :: t
                    end
           end
  end.

(** [s.startswith(p)] *)
Definition startswith (s p : string) : bool := String.prefix p s.

Definition is_slash (c : ascii) : bool := Ascii.eqb c "/"%char.

Fixpoint has_slash (s : string) : bool :=
  match s with
  | EmptyString => false
  | String c r => is_slash c || has_slash r
  end.

(** [p[:p.rfind('/') + 1]]: the path up to its last slash, included. *)
Fixpoint upto_last_slash (p : string) : string :=
  match p with
  | EmptyString => EmptyString
  | String c r =>
      if has_slash r then String c (upto_last_slash r)
      else if is_slash c then String c EmptyString
      else EmptyString
  end.

Fixpoint all_slashes (s : string) : bool :=
  match s with
  | EmptyString => true
  | String c r => is_slash c && all_slashes r
  end.

(** [s.rstrip('/')] *)
Fixpoint rstrip_slashes (s : string) : string :=
  match s with
  | EmptyString => EmptyString
  | String c r =>
      match rstrip_slashes r with
      | EmptyString => if is_slash c then EmptyString else String c EmptyString
      | r' => String c r'
      end
  end.

(** [os.path.dirname(p)] on POSIX paths: the directory part, without its
    trailing slashes unless it consists of slashes only. *)
Definition dirname (p : string) : string :=
  let head := upto_last_slash p in
  if all_slashes head then head else rstrip_slashes head.

Definition lower_char (c : ascii) : ascii :=
  let n := nat_of_ascii c in
  if ((65 <=? n) && (n <=? 90))%nat then ascii_of_nat (n + 32)
  else if ((192 <=? n) && (n <=? 222) && negb (n =? 215))%nat
       then ascii_of_nat (n + 32)
       else c.

(** [s.lower()] *)
Fixpoint lower (s : string) : string :=
  match s with
  | EmptyString => EmptyString
  | String c r => String (lower_char c) (lower r)
  end.

(** [d[k]] and [k in d] on a dict literal kept as an association list. *)
Fixpoint dict_get {V : Type} (d : list (string * V)) (k : string) : option V :=
  match d with
  | [] => None
  | (k', v) :: d' => if String.eqb k k' then Some v else dict_get d' k
  end.

Definition dict_getitem {V : Type} (d : list (string * V)) (k : string)
  : result V :=
  match dict_get d k with
  | Some v => Ok v
  | None => Raise KeyError
  end.


(** [xs[i]] on a list. *)
Definition getitem {A : Type} (xs : list A) (i : nat) : result A :=
  match nth_error xs i with
  | Some x => Ok x
  | None => Raise IndexError
  end.

(* ================================================================== *)
(** * Instances of the library functions *)

Definition digit_of (c : ascii) : option Z :=
  let n := nat_of_ascii c in
  if ((48 <=? n) && (n <=? 57))%nat then Some (Z.of_nat (n - 48)) else None.

(** Reads the leading decimal digits of [s]: the number read so far, how
    many digits were read, and the rest of the text. *)
Fixpoint read_digits (s : string) (acc : Z) (n : nat) : Z * nat * string :=
  match s with
  | EmptyString => (acc, n, s)
  | String c r =>
      match digit_of c with
      | Some d => read_digits r (10 * acc + d)%Z (S n)
      | None => (acc, n, s)
      end
  end.

Definition unsigned_decimal (s : string) : option Q :=
  let '(ip, ni, rest) := read_digits s 0%Z 0%nat in
  match rest with
  | EmptyString => if (0 <? ni)%nat then Some (inject_Z ip) else None
  | String c r =>
      if Ascii.eqb c "."%char then
        let '(fp, nf, rest') := read_digits r 0%Z 0%nat in
        match rest' with
        | EmptyString =>
            if (0 <? ni + nf)%nat
            then Some (Qmake (ip * 10 ^ Z.of_nat nf + fp)
                             (Z.to_pos (10 ^ Z.of_nat nf)))
            else None
        | String _ _ => None
        end
      else None
  end.

(** [float(s)] on plain decimal literals: an optional sign, digits and an
    optional fraction.  [None] stands for [ValueError]. *)
Definition float_of_decimal (s : string) : option Q :=
  match s with
  | EmptyString => None
  | String c r =>
      if Ascii.eqb c "-"%char then option_map Qopp (unsigned_decimal r)
      else if Ascii.eqb c "+"%char then unsigned_decimal r
      else unsigned_decimal s
  end.

(** A square root on rationals, exact on squares of rationals. *)
Definition sqrt_q (q : Q) : Q :=
  let r := Qred q in
  Qmake (Z.sqrt (Qnum r)) (Pos.sqrt (Qden r)).

(* ================================================================== *)
(** * [src/python/spatiallm_bridge.py] *)

Module Bridge.

(** The dicts built by the layout parser. *)
Record DetectedObject : Type := mkObject {
  obj_type : string;
  obj_width : Q;
  obj_height : Q;
  obj_length : Q;
  obj_confidence : Q
}.

Record Wall : Type := mkWall { wall_length : Q }.

(** ** [calculate_calibration_from_objects] *)

(** Standard dimensions for common objects in cm: (width, height). *)
Definition standard_dimensions : list (string * (Q * Q)) :=
  [ ("door", (90, 210));
    ("chair", (45, 85));
    ("table", (120, 75));
    ("sofa", (180, 85));
    ("bed", (160, 50));
    ("desk", (120, 75));
    ("refrigerator", (75, 180));
    ("toilet", (40, 40));
    ("sink", (60, 30));
    ("bathtub", (170, 55)) ].

Definition standard_wall_height : Q := 250.

(** A weighted ratio: [(ratio, confidence)]. *)
Definition ratio : Type := (Q * Q)%type.

(** Body of the loop over [objects]. *)
Definition object_step (ratios : list ratio) (obj : DetectedObject)
  : result (list ratio) :=
  match dict_get standard_dimensions (lower (obj_type obj)) with
  | None => Ok ratios
  | Some (std_width, std_height) =>
      let detected_width := obj_width obj in
      let detected_height := obj_height obj in
      width_ratio <-
        (if gt0 detected_width then py_div std_width detected_width
         else Ok 0) ;;
      height_ratio <-
        (if gt0 detected_height then py_div std_height detected_height
         else Ok 0) ;;
      let ratios :=
        if gt0 width_ratio
        then ratios ++ [(width_ratio, obj_confidence obj)] else ratios in
      let ratios :=
        if gt0 height_ratio
        then ratios ++ [(height_ratio, obj_confidence obj)] else ratios in
      Ok ratios
  end.

Definition object_ratios (objects : list DetectedObject)
  : result (list ratio) :=
  for_each object_step objects [].

(** The wall fallback: taken when no object ratio was found and [walls] is
    non-empty.  The divisions are those of Python numbers: a mean length of
    zero raises.  (The lengths the layout parser stores come from [np.sqrt];
    on such numpy scalars the same division gives an infinity.) *)
Definition wall_ratios (ratios : list ratio) (walls : list Wall)
  : result (list ratio) :=
  if negb (truthy_list ratios) && truthy_list walls then
    avg_wall_length <- py_div (py_sum (map wall_length walls)) (py_len walls) ;;
    height_ratio <- py_div standard_wall_height (avg_wall_length * 100) ;;
    Ok (ratios ++ [(height_ratio, 0.7)])
  else Ok ratios.

Definition weighted_sum (ratios : list ratio) : Q :=
  py_sum (map (fun rc => fst rc * snd rc) ratios).

Definition total_weight (ratios : list ratio) : Q :=
  py_sum (map snd ratios).

(** The weighted average, with its guard on the total weight. *)
Definition weighted_average (ratios : list ratio) : result Q :=
  if gt0 (total_weight ratios)
  then py_div (weighted_sum ratios) (total_weight ratios)
  else Ok 0.1.

Definition default_factor : Q := 0.1.

Definition calculate_calibration_from_objects
           (objects : list DetectedObject) (walls : list Wall) : result Q :=
  ratios <- object_ratios objects ;;
  ratios <- wall_ratios ratios walls ;;
  if truthy_list ratios then weighted_average ratios
  else Ok default_factor.



(** ** [extract_calibration_from_layout] *)

Section Layout.

(** [float(s)]: [None] stands for [ValueError]. *)
Variable py_float : string -> option Q.
Variable np_sqrt : Q -> Q.

Definition float (s : string) : result Q :=
  match py_float s with
  | Some q => Ok q
  | None => Raise ValueError
  end.

(** [float(parts[i])] *)
Definition float_at (parts : list string) (i : nat) : result Q :=
  s <- getitem parts i ;; float s.

(** The branch of a line that starts with [WALL]. *)
Definition parse_wall (line : string) (walls : list Wall)
  : result (list Wall) :=
  let parts := split_ws line in
  if (8 <=? List.length parts)%nat then
    x1 <- float_at parts 1 ;;
    y1 <- float_at parts 2 ;;
    z1 <- float_at parts 3 ;;
    x2 <- float_at parts 4 ;;
    y2 <- float_at parts 5 ;;
    z2 <- float_at parts 6 ;;
    dx <- py_square (x2 - x1) ;;
    dy <- py_square (y2 - y1) ;;
    dz <- py_square (z2 - z1) ;;
    let length := np_sqrt (dx + dy + dz) in
    Ok (walls ++ [mkWall length])
  else Ok walls.

(** The branch of a line that starts with [OBJECT]. *)
Definition parse_object (line : string) (objects : list DetectedObject)
  : result (list DetectedObject) :=
  let parts := split_ws line in
  if (11 <=? List.length parts)%nat then
    obj_type <- getitem parts 1 ;;
    x <- float_at parts 2 ;;
    y <- float_at parts 3 ;;
    z <- float_at parts 4 ;;
    length <- float_at parts 5 ;;
    width <- float_at parts 6 ;;
    height <- float_at parts 7 ;;
    confidence <-
      (if (10 <? List.length parts)%nat then float_at parts 10 else Ok 0.9) ;;
    Ok (objects ++
        [mkObject obj_type (width * 100) (height * 100) (length * 100)
                  confidence])
  else Ok objects.

(** Body of the loop over the lines; the state is [(objects, walls)]. *)
Definition layout_step (st : list DetectedObject * list Wall) (line : string)
  : result (list DetectedObject * list Wall) :=
  let '(objects, walls) := st in
  if startswith line "WALL" then
    walls' <- parse_wall line walls ;; Ok (objects, walls')
  else if startswith line "OBJECT" then
    objects' <- parse_object line objects ;; Ok (objects', walls)
  else Ok st.

Definition layout_lines (layout_text : string) : list string :=
  split_on newline (strip layout_text).

(** The parsing loop alone: [(objects, walls)]. *)
Definition parse_layout (layout_text : string)
  : result (list DetectedObject * list Wall) :=
  for_each layout_step (layout_lines layout_text) ([], []).

Record LayoutResult : Type := mkLayoutResult {
  calibration_factor : Q;
  confidence : Q;
  objects : list DetectedObject;
  walls : list Wall
}.

Definition extract_calibration_from_layout (layout_text : string)
  : result LayoutResult :=
  st <- parse_layout layout_text ;;
  let '(objects, walls) := st in
  calibration_factor <- calculate_calibration_from_objects objects walls ;;
  Ok (mkLayoutResult calibration_factor 0.9 objects walls).

End Layout.

(** ** [convert_depth_data_to_depth_map] and [create_point_cloud_from_depth] *)

(** The depth JSON: either a 2-D array under ["depth_map"], or a flat
    row-major array with its dimensions, or neither. *)
Inductive DepthData : Type :=
| DepthGrid (depth_map : list (list Q))
| DepthFlat (width height : nat) (data : list Q)
| DepthOther.

(** A 2-D array: its shape and its row-major contents. *)
Record ndarray : Type := mkArray {
  shape_h : nat;
  shape_w : nat;
  flat : list Q
}.

(** [a[v, u]] *)
Definition array_at (a : ndarray) (v u : nat) : result Q :=
  getitem (flat a) (v * shape_w a + u).

Definition row_length_is (w : nat) (row : list Q) : bool :=
  (List.length row =? w)%nat.

(** The result is the 2-D array the builder unpacks with
    [height, width = depth_map.shape].  Rows of unequal lengths make no
    2-D array, and neither does the empty list of rows: [np.array([])] has
    shape [(0,)], and the ValueError is then the one of the unpacking, the
    first use the builder makes of the array. *)
Definition convert_depth_data_to_depth_map (depth_data : DepthData)
  : result ndarray :=
  match depth_data with
  | DepthGrid rows =>
      match rows with
      | [] => Raise ValueError
      | row :: _ =>
          let w := List.length row in
          if forallb (row_length_is w) rows
          then Ok (mkArray (List.length rows) w (List.concat rows))
          else Raise ValueError
      end
  | DepthFlat width height data =>
      if (List.length data =? height * width)%nat
      then Ok (mkArray height width data)
      else Raise ValueError
  | DepthOther => Raise ValueError
  end.

Record Intrinsics : Type := mkIntrinsics { fx : Q; fy : Q; cx : Q; cy : Q }.

(** A colour triple. *)
Definition color : Type := (Z * Z * Z)%type.

(** A loaded image: its shape and its pixels in (b, g, r) order. *)
Record Image : Type := mkImage {
  img_rows : nat;
  img_cols : nat;
  img_at : nat -> nat -> color
}.

Definition point : Type := (Q * Q * Q)%type.

(** What is written to the PLY file: the vertex count of the header and
    one record per point. *)
Record Ply : Type := mkPly {
  vertex_count : nat;
  vertices : list (point * color)
}.

Definition of_nat (n : nat) : Q := inject_Z (Z.of_nat n).

(** The pinhole back-projection of pixel [(u, v)] at depth [depth]. *)
Definition back_project (K : Intrinsics) (u v : nat) (depth : Q)
  : result point :=
  x <- py_div ((of_nat u - cx K) * depth) (fx K) ;;
  y <- py_div ((of_nat v - cy K) * depth) (fy K) ;;
  Ok (x, y, depth).

(** The projection back to the image plane. *)
Definition reproject (K : Intrinsics) (p : point) : result (Q * Q) :=
  let '(x, y, z) := p in
  a <- py_div (x * fx K) z ;;
  b <- py_div (y * fy K) z ;;
  Ok (a + cx K, b + cy K).

Definition default_intrinsics (depth_map : ndarray) : Intrinsics :=
  let width := of_nat (shape_w depth_map) in
  let height := of_nat (shape_h depth_map) in
  mkIntrinsics (width * 0.8) (width * 0.8) (width / 2) (height / 2).

Definition pixel_color (image : Image) (u v : nat) : color :=
  if ((u <? img_cols image) && (v <? img_rows image))%nat then
    let '(b, g, r) := img_at image v u in (r, g, b)
  else (128, 128, 128)%Z.

Section PointCloud.

(** [cv2.imread]: [None] when the file cannot be read. *)
Variable cv2_imread : string -> option Image.

(** Body of the loop over [u]; the state is [(points, colors)]. *)
Definition pixel_step (depth_map : ndarray) (K : Intrinsics) (image : Image)
           (v : nat) (st : list point * list color) (u : nat)
  : result (list point * list color) :=
  let '(points, colors) := st in
  depth <- array_at depth_map v u ;;
  if gt0 depth then
    p <- back_project K u v depth ;;
    Ok (points ++ [p], colors ++ [pixel_color image u v])
  else Ok st.

(** Body of the loop over [v]. *)
Definition row_step (depth_map : ndarray) (K : Intrinsics) (image : Image)
           (st : list point * list color) (v : nat)
  : result (list point * list color) :=
  for_each (pixel_step depth_map K image v) (seq 0 (shape_w depth_map)) st.

Definition create_point_cloud_from_depth
           (depth_data : DepthData) (image_path : string)
           (camera_intrinsics : option Intrinsics) : result Ply :=
  depth_map <- convert_depth_data_to_depth_map depth_data ;;
  match cv2_imread image_path with
  | None => Raise ValueError
  | Some image =>
      let K := match camera_intrinsics with
               | None => default_intrinsics depth_map
               | Some K => K
               end in
      st <- for_each (row_step depth_map K image)
                     (seq 0 (shape_h depth_map)) ([], []) ;;
      let '(points, colors) := st in
      Ok (mkPly (List.length points) (combine points colors))
  end.

End PointCloud.

End Bridge.

(* ================================================================== *)
(** * Calibration results shared by the two wrappers *)

(** The [choices] of the calibration-method option. *)
Inductive Method : Type := reference | height | spatial | direct.

(** The calibration dict: the keys read by the callers.  [cal_type] and
    [cal_confidence] are optional because some branches do not set them;
    auxiliary keys (visualization, reference dimensions, pixel heights)
    are left out. *)
Record Calibration : Type := mkCalibration {
  cal_type : option string;
  method : Method;
  factor : Q;
  cal_confidence : option Q;
  cal_unit : string
}.

(* ================================================================== *)
(** * [src/wrapper.py] *)

Module Wrapper.

Record Args : Type := mkArgs {
  input : string;
  calibration_method : option Method;
  reference_object : option string;
  ref_width : option Q;
  ref_height : option Q;
  person_height : option Q;
  calibration_factor : option Q;
  depth_map : option string;
  point_cloud : option string;
  camera_intrinsics : option string;
  output : option string
}.

(** [determine_calibration_method] *)
Definition determine_calibration_method (args : Args) : Method :=
  if truthy_num (calibration_factor args) then direct
  else if truthy_num (person_height args) then height
  else if truthy_str (depth_map args) || truthy_str (point_cloud args)
       then spatial
  else if truthy_str (reference_object args)
          || (truthy_num (ref_width args) && truthy_num (ref_height args))
       then reference
  else reference.

(** The ways [main] ends with an error message and exit status 1. *)
Inductive Failure : Type :=
| SpatialNeedsDependencies
| SpatialNeedsData
| CustomNeedsDimensions
| UnknownReferenceObject
| NoValidMethod
| Exception (e : exn).

(** How [main] gets past the calibration: it ends on a missing input
    file, or it goes through the method dispatch. *)
Inductive Exit : Type :=
| InputDoesNotExist
| Calibrated (outcome : Failure + Calibration).

Section Main.

Variable SPATIAL_LM_AVAILABLE : bool.

(** The strategies, which call the image libraries. *)
Variable calculate_height_based_calibration : string -> Q -> result Calibration.
Variable calculate_spatial_calibration :
  string -> option string -> option string -> option string
  -> result Calibration.
Variable calculate_reference_object_calibration :
  string -> option string -> Q -> Q -> result Calibration.

Definition lift (m : result Calibration) : Failure + Calibration :=
  match m with
  | Ok c => inr c
  | Raise e => inl (Exception e)
  end.

Definition of_option (x : option Q) : Q :=
  match x with Some q => q | None => 0 end.

Definition str_is (x : option string) (s : string) : bool :=
  match x with Some t => String.eqb t s | None => false end.

(** The method dispatch of [main], from the choice of the method to the
    calibration dict. *)
Definition main_calibration (args : Args) : Failure + Calibration :=
  let calibration_method :=
    match calibration_method args with
    | Some m => m
    | None => determine_calibration_method args
    end in
  match calibration_method with
  | direct =>
      if truthy_num (calibration_factor args) then
        inr (mkCalibration (Some "direct") direct
                           (of_option (calibration_factor args)) None
                           "cm/pixel")
      else inl NoValidMethod
  | height =>
      if truthy_num (person_height args) then
        lift (calculate_height_based_calibration
                (input args) (of_option (person_height args)))
      else inl NoValidMethod
  | spatial =>
      if negb SPATIAL_LM_AVAILABLE then inl SpatialNeedsDependencies
      else if truthy_str (depth_map args) || truthy_str (point_cloud args)
      then lift (calculate_spatial_calibration
                   (input args) (depth_map args) (point_cloud args)
                   (camera_intrinsics args))
      else inl SpatialNeedsData
  | reference =>
      if str_is (reference_object args) "custom" then
        if negb (truthy_num (ref_width args))
           || negb (truthy_num (ref_height args))
        then inl CustomNeedsDimensions
        else lift (calculate_reference_object_calibration
                     (input args) (reference_object args)
                     (of_option (ref_width args))
                     (of_option (ref_height args)))
      else if str_is (reference_object args) "a4_paper" then
        lift (calculate_reference_object_calibration
                (input args) (reference_object args) 21.0 29.7)
      else if str_is (reference_object args) "letter" then
        lift (calculate_reference_object_calibration
                (input args) (reference_object args) 21.59 27.94)
      else if str_is (reference_object args) "credit_card" then
        lift (calculate_reference_object_calibration
                (input args) (reference_object args) 8.56 5.398)
      else inl UnknownReferenceObject
  end.

(** [os.path.isfile] *)
Variable os_path_isfile : string -> bool.

(** [main] up to the calibration dict: the input file is checked before
    the dispatch, outside the [try] block. *)
Definition main (args : Args) : Exit :=
  if negb (os_path_isfile (input args)) then InputDoesNotExist
  else Calibrated (main_calibration args).

End Main.

End Wrapper.

(* ================================================================== *)
(** * [src/python/wrapper.py] *)

Module PyWrapper.

Record Args : Type := mkArgs {
  input : string;
  output : string;
  calibration : Method;
  reference_object : option string;
  reference_width : option Q;
  reference_height : option Q;
  person_height : option Q;
  depth_map : option string;
  camera_intrinsics : option string;
  calibration_factor : option Q
}.

(** [get_reference_object_dimensions]: (width, height) in cm. *)
Definition reference_objects : list (string * (Q * Q)) :=
  [ ("a4_paper", (21.0, 29.7));
    ("letter_paper", (21.59, 27.94));
    ("credit_card", (8.56, 5.4));
    ("dollar_bill", (15.6, 6.6));
    ("euro_bill", (12.0, 6.2));
    ("30cm_ruler", (30.0, 3.0)) ].

Definition get_reference_object_dimensions (reference_object : string)
  : result (Q * Q) :=
  match dict_get reference_objects reference_object with
  | Some d => Ok d
  | None => Raise ValueError
  end.

(** [calculate_reference_calibration]: the detection is a fixed 200 x 150
    pixel box. *)
Definition calculate_reference_calibration (ref_width_cm ref_height_cm : Q)
  : result Q :=
  width_calibration <- py_div ref_width_cm 200 ;;
  height_calibration <- py_div ref_height_cm 150 ;;
  py_div (width_calibration + height_calibration) 2.

Section Spatial.

(** The parsed JSON values are opaque here. *)
Variable Json : Type.

Variable SPATIALLM_BRIDGE_AVAILABLE : bool.

(** [open] followed by [json.load]. *)
Variable load_json : string -> result Json.

(** The bridge: image path, depth data, point-cloud path and camera
    intrinsics to a dict of numbers. *)
Variable process_lidar_data :
  string -> option Json -> option string -> option Json
  -> result (list (string * Q)).

Definition fallback (confidence : Q) : Calibration :=
  mkCalibration (Some "spatial") spatial 0.05 (Some confidence) "cm/pixel".

(** [json.load] of a path when the path is given. *)
Definition load_optional (path : option string) : result (option Json) :=
  if truthy_str path then
    match path with
    | Some p => j <- load_json p ;; Ok (Some j)
    | None => Ok None
    end
  else Ok None.

(** The body of the [try] block. *)
Definition spatial_body (image_path : string)
           (depth_map_path point_cloud_path camera_intrinsics_path
            : option string) : result Calibration :=
  camera_intrinsics <- load_optional camera_intrinsics_path ;;
  depth_data <- load_optional depth_map_path ;;
  calibration_result <-
    process_lidar_data image_path depth_data point_cloud_path
                       camera_intrinsics ;;
  f <- dict_getitem calibration_result "calibration_factor" ;;
  c <- dict_getitem calibration_result "confidence" ;;
  Ok (mkCalibration (Some "spatial") spatial f (Some c) "cm/pixel").

(** [calculate_spatial_calibration]: every exception of the body is caught
    by [except Exception]. *)
Definition calculate_spatial_calibration (image_path : string)
           (depth_map_path point_cloud_path camera_intrinsics_path
            : option string) : Calibration :=
  if negb SPATIALLM_BRIDGE_AVAILABLE then fallback 0.8
  else
    match spatial_body image_path depth_map_path point_cloud_path
                       camera_intrinsics_path with
    | Ok c => c
    | Raise _ => fallback 0.7
    end.

(** The image libraries used by [main]. *)
Variable ImageT : Type.
Variable cv2_imread : string -> option ImageT.
Variable calculate_height_calibration : ImageT -> Q -> result Q.
Variable json_loads : string -> result Json.

Definition of_option (x : option Q) : Q :=
  match x with Some q => q | None => 0 end.

Definition imread_or_raise (path : string) : result ImageT :=
  match cv2_imread path with
  | Some image => Ok image
  | None => Raise ValueError
  end.

(** The method dispatch of [main], from [args.calibration] to
    [calibration_result]. *)
Definition main_calibration (args : Args) : result Calibration :=
  match calibration args with
  | direct =>
      if truthy_num (calibration_factor args) then
        Ok (mkCalibration None direct (of_option (calibration_factor args))
                          (Some 1.0) "cm/pixel")
      else Raise ValueError
  | height =>
      if truthy_num (person_height args) then
        image <- imread_or_raise (input args) ;;
        calibration_factor <-
          calculate_height_calibration image (of_option (person_height args)) ;;
        Ok (mkCalibration None height calibration_factor (Some 0.9) "cm/pixel")
      else Raise ValueError
  | reference =>
      dims <-
        (if truthy_str (reference_object args) then
           match reference_object args with
           | Some name => get_reference_object_dimensions name
           | None => Raise ValueError
           end
         else if truthy_num (reference_width args)
                 && truthy_num (reference_height args)
         then Ok (of_option (reference_width args),
                  of_option (reference_height args))
         else Raise ValueError) ;;
      image <- imread_or_raise (input args) ;;
      calibration_factor <-
        calculate_reference_calibration (fst dims) (snd dims) ;;
      Ok (mkCalibration None reference calibration_factor (Some 0.85)
                        "cm/pixel")
  | spatial =>
      parsed_intrinsics <-
        (if truthy_str (camera_intrinsics args) then
           match camera_intrinsics args with
           | Some text => j <- json_loads text ;; Ok (Some j)
           | None => Ok None
           end
         else Ok None) ;;
      Ok (calculate_spatial_calibration (input args) (depth_map args) None
                                        (camera_intrinsics args))
  end.

(** [os.path.isfile], and [os.makedirs(path, exist_ok=True)]. *)
Variable os_path_isfile : string -> bool.
Variable os_makedirs : string -> result unit.

(** [main] up to [calibration_result]: inside the [try] block the input
    file is checked and the directory of the output path is made before
    the dispatch.  [FileNotFoundError] is an [OSError]. *)
Definition main (args : Args) : result Calibration :=
  if negb (os_path_isfile (input args)) then Raise OSError
  else
    _ <- os_makedirs (dirname (output args)) ;;
    main_calibration args.

End Spatial.

End PyWrapper.

(* ================================================================== *)
(** * Inputs used to run the definitions *)

Definition one_door : list Bridge.DetectedObject :=
  [Bridge.mkObject "door" 45 105 90 1].

Definition unsure_door : list Bridge.DetectedObject :=
  [Bridge.mkObject "door" 45 105 90 0].






Definition wall_line_six : string := "WALL 0 0 0 1 0 0".
Definition object_line_eleven : string :=
  "OBJECT door 0 0 0 0.9 0.5 2.1 0 0 0 0.95".
Definition object_line_ten : string :=
  "OBJECT door 0 0 0 0.9 0.5 2.1 0 0 0.25".

(** The number of strictly positive samples. *)
Definition count_positive (samples : list Q) : nat :=
  List.length (filter gt0 samples).

(** Whether the sample at flat index [i] is strictly positive. *)
Definition positive_at (data : list Q) (i : nat) : bool :=
  match nth_error data i with
  | Some d => gt0 d
  | None => false
  end.


Definition valid_intrinsics (K : option Bridge.Intrinsics) : Prop :=
  match K with
  | None => True
  | Some k => 0 < Bridge.fx k /\ 0 < Bridge.fy k
  end.

Definition sample_image : Bridge.Image :=
  Bridge.mkImage 1 1 (fun _ _ => (10, 20, 30)%Z).

Definition sample_imread (path : string) : option Bridge.Image :=
  if String.eqb path "photo.jpg" then Some sample_image else None.

Definition sample_depth : Bridge.DepthData :=
  Bridge.DepthFlat 3 2 [1.5; 0; -1; 2; 0.25; 0].

Definition sample_intrinsics : Bridge.Intrinsics :=
  Bridge.mkIntrinsics 2 4 1.5 1.

(** The precedence of the strategies in the spec's words: direct, then
    height, then spatial, then reference. *)
Definition precedence (has_factor has_height has_spatial : bool) : Method :=
  if has_factor then direct
  else if has_height then height
  else if has_spatial then spatial
  else reference.

(** Collaborators that always fail, to run the spatial strategy. *)
Definition failing_load (path : string) : result unit := Raise OSError.

Definition failing_bridge (image_path : string) (depth_data : option unit)
           (point_cloud_path : option string) (intrinsics : option unit)
  : result (list (string * Q)) := Raise ValueError.

Definition no_image (path : string) : option unit := None.

Definition no_height (image : unit) (person_height_cm : Q) : result Q :=
  Raise ValueError.

Definition no_strategy : result Calibration := Raise ValueError.

(** A file system that holds [photo.jpg], and in which every directory
    can be made; the empty path is no directory ([os.makedirs] raises
    [FileNotFoundError] on it). *)
Definition photo_exists (path : string) : bool := String.eqb path "photo.jpg".

Definition makedirs_nonempty (path : string) : result unit :=
  match path with
  | EmptyString => Raise OSError
  | String _ _ => Ok tt
  end.

(** [--input photo.jpg --output results/out.jpg --calibration spatial
    --person_height 175 --calibration_factor 0.1] *)
Definition spatial_with_factor : PyWrapper.Args :=
  PyWrapper.mkArgs "photo.jpg" "results/out.jpg" spatial None None None
                   (Some 175) None None (Some 0.1).

(** [--input photo.jpg --output results/out.jpg --calibration direct
    --person_height 175 --calibration_factor 0.1] *)
Definition direct_with_height : PyWrapper.Args :=
  PyWrapper.mkArgs "photo.jpg" "results/out.jpg" direct None None None
                   (Some 175) None None (Some 0.1).

(** [--input photo.jpg --person_height 175 --calibration_factor 0.1], no
    method selected. *)
Definition auto_with_factor : Wrapper.Args :=
  Wrapper.mkArgs "photo.jpg" None None None None (Some 175) (Some 0.1)
                 None None None None.

(** [--input photo.jpg --calibration_method height --person_height 175
    --calibration_factor 0.1] *)
Definition height_with_factor : Wrapper.Args :=
  Wrapper.mkArgs "photo.jpg" (Some height) None None None (Some 175)
                 (Some 0.1) None None None None.

(** The same arguments with another [--calibration_factor]. *)
Definition wrapper_with_factor (args : Wrapper.Args) (f : option Q)
  : Wrapper.Args :=
  Wrapper.mkArgs (Wrapper.input args) (Wrapper.calibration_method args)
                 (Wrapper.reference_object args) (Wrapper.ref_width args)
                 (Wrapper.ref_height args) (Wrapper.person_height args) f
                 (Wrapper.depth_map args) (Wrapper.point_cloud args)
                 (Wrapper.camera_intrinsics args) (Wrapper.output args).

Definition py_wrapper_with_factor (args : PyWrapper.Args) (f : option Q)
  : PyWrapper.Args :=
  PyWrapper.mkArgs (PyWrapper.input args) (PyWrapper.output args)
                   (PyWrapper.calibration args)
                   (PyWrapper.reference_object args)
                   (PyWrapper.reference_width args)
                   (PyWrapper.reference_height args)
                   (PyWrapper.person_height args) (PyWrapper.depth_map args)
                   (PyWrapper.camera_intrinsics args) f.

(** [m] returns a number equal to [q]. *)
Definition returns (m : result Q) (q : Q) : Prop :=
  exists r, m = Ok r /\ r == q.

(* ================================================================== *)
(** * Descriptions used to state properties of the aggregator *)

(** The ratios one object contributes: none when its type is not in the
    table, otherwise one per strictly positive detected dimension. *)
Definition ratios_of (obj : Bridge.DetectedObject) : list Bridge.ratio :=
  match dict_get Bridge.standard_dimensions (lower (Bridge.obj_type obj)) with
  | None => []
  | Some (std_width, std_height) =>
      (if gt0 (Bridge.obj_width obj)
       then [(std_width / Bridge.obj_width obj, Bridge.obj_confidence obj)]
       else [])
      ++ (if gt0 (Bridge.obj_height obj)
          then [(std_height / Bridge.obj_height obj, Bridge.obj_confidence obj)]
          else [])
  end.

(** Whether the lowercase type of an object is in the table. *)
Definition recognised (obj : Bridge.DetectedObject) : bool :=
  match dict_get Bridge.standard_dimensions (lower (Bridge.obj_type obj)) with
  | None => false
  | Some _ => true
  end.

Definition chair_and_lamp : list Bridge.DetectedObject :=
  [Bridge.mkObject "Chair" 50 100 40 0.8;
   Bridge.mkObject "lamp" 30 150 30 0.9].

Definition two_walls : list Bridge.Wall :=
  [Bridge.mkWall 3; Bridge.mkWall 4].

(* ================================================================== *)
(** * Descriptions used to state properties of the point-cloud builder *)

(** The pixels of an image of [h] rows and [w] columns in row-major order,
    as (row, column) pairs. *)
Definition pixels (h w : nat) : list (nat * nat) :=
  flat_map (fun v => map (fun u => (v, u)) (seq 0 w)) (seq 0 h).

(** What pixel (row [v], column [u]) contributes to the cloud: nothing when
    its sample is not strictly positive, otherwise its back-projected point
    with its colour. *)
Definition vertex_at (depth_map : Bridge.ndarray) (K : Bridge.Intrinsics)
           (image : Bridge.Image) (vu : nat * nat)
  : list (Bridge.point * Bridge.color) :=
  let '(v, u) := vu in
  match nth_error (Bridge.flat depth_map) (v * Bridge.shape_w depth_map + u) with
  | Some d =>
      if gt0 d
      then [(((Bridge.of_nat u - Bridge.cx K) * d / Bridge.fx K,
              (Bridge.of_nat v - Bridge.cy K) * d / Bridge.fy K,
              d),
             Bridge.pixel_color image u v)]
      else []
  | None => []
  end.

(** The intrinsics the builder works with. *)
Definition chosen_intrinsics (depth_map : Bridge.ndarray)
           (K : option Bridge.Intrinsics) : Bridge.Intrinsics :=
  match K with
  | Some k => k
  | None => Bridge.default_intrinsics depth_map
  end.

(** The depth of a vertex. *)
Definition vertex_z (vtx : Bridge.point * Bridge.color) : Q := snd (fst vtx).

Definition sample_grid : Bridge.DepthData :=
  Bridge.DepthGrid [[1.5; 0; -1]; [2; 0.25; 0]].

(* ================================================================== *)
(** * [src/python/spatiallm_bridge.py]: the processing pipeline *)

Module Pipeline.

(** An object reported by the installed SpatialLM package: its type, its
    confidence, its [dimensions] and its [pixel_dimensions]. *)
Record SpatialObject : Type := mkSpatialObject {
  so_type : string;
  so_confidence : Q;
  so_width : Q;
  so_height : Q;
  so_pixel_width : Q;
  so_pixel_height : Q
}.

(** The result dict of the installed package: the keys that are read, each
    of which may be missing. *)
Record PipResult : Type := mkPipResult {
  pip_scale_factor : option Q;
  pip_confidence : option Q;
  pip_objects : option (list SpatialObject)
}.

Record Reference : Type := mkReference {
  ref_type : string;
  width_cm : Q;
  height_cm : Q;
  width_px : Q;
  height_px : Q;
  ref_confidence : Q
}.

(** [x > y] on numbers. *)
Definition gt (x y : Q) : bool := negb (Qle_bool x y).

Definition to_reference (obj : SpatialObject) : Reference :=
  mkReference (so_type obj) (so_width obj) (so_height obj)
              (so_pixel_width obj) (so_pixel_height obj) (so_confidence obj).

(** Body of the loop of [extract_reference_dimensions]. *)
Definition reference_step (references : list Reference) (obj : SpatialObject)
  : list Reference :=
  if gt (so_confidence obj) 0.7 then references ++ [to_reference obj]
  else references.

(** [extract_reference_dimensions] *)
Definition extract_reference_dimensions (spatial_result : PipResult)
  : list Reference :=
  match pip_objects spatial_result with
  | Some objs => fold_left reference_step objs []
  | None => []
  end.

(** What comes with the factor and the confidence: reference objects, or
    the parsed layout. *)
Inductive Payload : Type :=
| ReferenceObjects (reference_objects : list Reference)
| Layout (objects : list Bridge.DetectedObject) (walls : list Bridge.Wall).

Record CalibrationResult : Type := mkResult {
  calibration_factor : Q;
  confidence : Q;
  payload : Payload
}.

(** [int(x)]: truncation towards zero.  The argument is exact here; a
    float quotient that rounds just below a whole number truncates to one
    less. *)
Definition py_int (x : Q) : Z :=
  if Qle_bool 0 x then Qfloor x else Qceiling x.

(** [d.get(key, default)] *)
Definition get_default (x : option Q) (default : Q) : Q :=
  match x with Some q => q | None => default end.

(** How the package was imported. *)
Inductive ImportSource : Type := repo | pip.

(** The point cloud handed to the package: a file given by the caller, or
    the temporary PLY file the builder has just written. *)
Inductive PointCloudRef : Type :=
| PointCloudFile (path : string)
| PointCloudBuilt (ply : Bridge.Ply).

Section Processing.

Variable cv2_imread : string -> option Bridge.Image.

(** The number drawn by [np.random.random()]. *)
Variable np_random : Q.

Variable py_float : string -> option Q.
Variable np_sqrt : Q -> Q.

(** [load_point_cloud], [load_model], [run_inference] and the reading of
    the output file: from a point cloud to the layout text. *)
Variable infer_layout : PointCloudRef -> result string.

(** [SpatialLM().process_point_cloud] *)
Variable process_point_cloud : PointCloudRef -> result PipResult.

(** [mock_spatiallm_processing] *)
Definition mock_spatiallm_processing (image_path : string)
  : result CalibrationResult :=
  match cv2_imread image_path with
  | None => Raise ValueError
  | Some image =>
      let mock_factor := 0.08 + 0.04 * np_random in
      door_width <- py_div 80.0 mock_factor ;;
      door_height <- py_div 200.0 mock_factor ;;
      chair_width <- py_div 45.0 mock_factor ;;
      chair_height <- py_div 85.0 mock_factor ;;
      Ok (mkResult mock_factor 0.92
            (ReferenceObjects
               [ mkReference "door" 80.0 200.0
                             (inject_Z (py_int door_width))
                             (inject_Z (py_int door_height)) 0.95;
                 mkReference "chair" 45.0 85.0
                             (inject_Z (py_int chair_width))
                             (inject_Z (py_int chair_height)) 0.89 ]))
  end.

(** The point cloud to process: built from the depth data when there is
    depth data and no point-cloud path, else the path that was given. *)
Definition resolve_point_cloud (image_path : string)
           (depth_data : option Bridge.DepthData)
           (point_cloud_path : option string)
           (camera_intrinsics : option Bridge.Intrinsics)
  : result (option PointCloudRef) :=
  match depth_data with
  | Some d =>
      if negb (truthy_str point_cloud_path) then
        ply <- Bridge.create_point_cloud_from_depth
                 cv2_imread d image_path camera_intrinsics ;;
        Ok (Some (PointCloudBuilt ply))
      else Ok (option_map PointCloudFile point_cloud_path)
  | None =>
      if truthy_str point_cloud_path
      then Ok (option_map PointCloudFile point_cloud_path)
      else Ok None
  end.

(** [real_spatiallm_processing] *)
Definition real_spatiallm_processing (source : ImportSource)
           (image_path : string)
           (depth_data : option Bridge.DepthData)
           (point_cloud_path : option string)
           (camera_intrinsics : option Bridge.Intrinsics)
  : result CalibrationResult :=
  point_cloud <- resolve_point_cloud image_path depth_data point_cloud_path
                                     camera_intrinsics ;;
  match point_cloud with
  | None => Raise ValueError
  | Some pc =>
      match source with
      | repo =>
          layout_text <- infer_layout pc ;;
          r <- Bridge.extract_calibration_from_layout
                 py_float np_sqrt layout_text ;;
          Ok (mkResult (Bridge.calibration_factor r) (Bridge.confidence r)
                       (Layout (Bridge.objects r) (Bridge.walls r)))
      | pip =>
          res <- process_point_cloud pc ;;
          Ok (mkResult (get_default (pip_scale_factor res) 0.1)
                       (get_default (pip_confidence res) 0.9)
                       (ReferenceObjects (extract_reference_dimensions res)))
      end
  end.

(** [process_lidar_data]: [available] is the import source when the
    package could be imported. *)
Definition process_lidar_data (available : option ImportSource)
           (image_path : string)
           (depth_data : option Bridge.DepthData)
           (point_cloud_path : option string)
           (camera_intrinsics : option Bridge.Intrinsics)
  : result CalibrationResult :=
  match available with
  | Some source =>
      match real_spatiallm_processing source image_path depth_data
                                      point_cloud_path camera_intrinsics with
      | Ok r => Ok r
      | Raise _ => mock_spatiallm_processing image_path
      end
  | None => mock_spatiallm_processing image_path
  end.

End Processing.

End Pipeline.

(** Inputs used to run the pipeline. *)
Definition failing_inference (pc : Pipeline.PointCloudRef) : result string :=
  Raise OSError.

Definition failing_package (pc : Pipeline.PointCloudRef)
  : result Pipeline.PipResult := Raise ImportError.

Definition sample_objects : list Pipeline.SpatialObject :=
  [ Pipeline.mkSpatialObject "door" 0.95 90 210 300 700;
    Pipeline.mkSpatialObject "plant" 0.7 30 60 100 200;
    Pipeline.mkSpatialObject "chair" 0.71 45 85 150 280 ].

(* ================================================================== *)
(** * [src/python/wrapper.py]: height-based calibration *)

Module PoseHeight.

(** A pose landmark: normalised coordinates and a visibility. *)
Record Landmark : Type := mkLandmark {
  lm_x : Q;
  lm_y : Q;
  lm_visibility : Q
}.

(** A float that may be infinite or not a number: [min_y] starts at
    [float('inf')]. *)
Inductive ext : Type :=
| Finite (q : Q)
| PlusInfinity
| MinusInfinity
| NotANumber.

(** [y < m] *)
Definition less_than (y : Q) (m : ext) : bool :=
  match m with
  | Finite q => Pipeline.gt q y
  | PlusInfinity => true
  | MinusInfinity => false
  | NotANumber => false
  end.

(** Body of the loop that looks for the highest visible keypoint. *)
Definition min_step (min_y : ext) (landmark : Landmark) : ext :=
  if Pipeline.gt (lm_visibility landmark) 0.5
     && less_than (lm_y landmark) min_y
  then Finite (lm_y landmark)
  else min_y.

(** [foot_y - min_y] *)
Definition minus (foot_y : Q) (min_y : ext) : ext :=
  match min_y with
  | Finite q => Finite (foot_y - q)
  | PlusInfinity => MinusInfinity
  | MinusInfinity => PlusInfinity
  | NotANumber => NotANumber
  end.

(** [x * rows] for a number of rows. *)
Definition times_rows (x : ext) (rows : nat) : ext :=
  match x with
  | Finite q => Finite (q * Bridge.of_nat rows)
  | NotANumber => NotANumber
  | _ => if (rows =? 0)%nat then NotANumber else x
  end.

(** [cm / px]: raises on a zero divisor. *)
Definition divide (cm : Q) (px : ext) : result ext :=
  match px with
  | Finite q => f <- py_div cm q ;; Ok (Finite f)
  | NotANumber => Ok NotANumber
  | _ => Ok (Finite 0)
  end.

Section Detection.

Variable MEDIAPIPE_AVAILABLE : bool.

(** [pose.process(image).pose_landmarks]: [None] when no pose is found. *)
Variable pose_landmarks : Bridge.Image -> option (list Landmark).

(** The indices of the two ankles in the landmark list. *)
Variable LEFT_ANKLE : nat.
Variable RIGHT_ANKLE : nat.

(** [detect_person_height_fallback]: the height of the bounding box of the
    largest contour, [None] without contours. *)
Variable detect_person_height_fallback : Bridge.Image -> option nat.

(** [detect_person_height_mediapipe] *)
Definition detect_person_height_mediapipe (image : Bridge.Image)
  : result (option ext) :=
  if negb MEDIAPIPE_AVAILABLE then Ok None
  else
    match pose_landmarks image with
    | None => Ok None
    | Some landmarks =>
        let min_y := fold_left min_step landmarks PlusInfinity in
        left_ankle <- getitem landmarks LEFT_ANKLE ;;
        right_ankle <- getitem landmarks RIGHT_ANKLE ;;
        let left_seen := Pipeline.gt (lm_visibility left_ankle) 0.5 in
        let right_seen := Pipeline.gt (lm_visibility right_ankle) 0.5 in
        if left_seen && right_seen then
          Ok (Some (times_rows
                      (minus ((lm_y left_ankle + lm_y right_ankle) / 2) min_y)
                      (Bridge.img_rows image)))
        else if left_seen then
          Ok (Some (times_rows (minus (lm_y left_ankle) min_y)
                               (Bridge.img_rows image)))
        else if right_seen then
          Ok (Some (times_rows (minus (lm_y right_ankle) min_y)
                               (Bridge.img_rows image)))
        else Ok None
    end.

(** [calculate_height_calibration] *)
Definition calculate_height_calibration (image : Bridge.Image)
           (person_height_cm : Q) : result ext :=
  detected <- detect_person_height_mediapipe image ;;
  person_height_px <-
    match detected with
    | Some px => Ok px
    | None =>
        match detect_person_height_fallback image with
        | Some h => Ok (Finite (Bridge.of_nat h))
        | None => Raise ValueError
        end
    end ;;
  divide person_height_cm person_height_px.

End Detection.

End PoseHeight.

(** A pose: the nose, then the two ankles. *)
Definition standing_pose : list PoseHeight.Landmark :=
  [ PoseHeight.mkLandmark 0.5 0.1 0.99;
    PoseHeight.mkLandmark 0.45 0.9 0.9;
    PoseHeight.mkLandmark 0.55 0.92 0.8 ].

(** A pose in which only one ankle is visible. *)
Definition ankle_only_pose : list PoseHeight.Landmark :=
  [ PoseHeight.mkLandmark 0.5 0.1 0.2;
    PoseHeight.mkLandmark 0.45 0.9 0.9;
    PoseHeight.mkLandmark 0.55 0.92 0.1 ].

Definition tall_image : Bridge.Image :=
  Bridge.mkImage 1000 600 (fun _ _ => (0, 0, 0)%Z).

(* ================================================================== *)
(** * [src/wrapper.py]: the strategies *)

Module Strategies.

Section Strategies.

Variable cv2_imread : string -> option Bridge.Image.

(** Whether [import mediapipe] succeeds. *)
Variable mediapipe_imports : bool.

(** [pose.process(image).pose_landmarks]; the call may raise. *)
Variable pose_landmarks :
  Bridge.Image -> result (option (list PoseHeight.Landmark)).

(** The indices of the nose and of the two ankles in the landmark list. *)
Variable NOSE : nat.
Variable LEFT_ANKLE : nat.
Variable RIGHT_ANKLE : nat.

(** The height of the bounding box of the largest contour, [None] without
    contours. *)
Variable contour_height : Bridge.Image -> option nat.

(** The drawing functions: they return nothing that is read. *)
Variable create_height_visualization : option Bridge.Image -> Q -> result unit.
Variable create_reference_visualization :
  Bridge.Image -> option string -> Q -> Q -> result unit.

(** [detect_person_height_basic] *)
Definition detect_person_height_basic (image_path : string)
  : result (option Q) :=
  match cv2_imread image_path with
  | None => Raise ValueError
  | Some image => Ok (option_map Bridge.of_nat (contour_height image))
  end.

(** The body of the [try] block of [detect_person_height]. *)
Definition detect_with_pose (image_path : string) : result (option Q) :=
  if negb mediapipe_imports then Raise ImportError
  else
    match cv2_imread image_path with
    | None => Raise ValueError
    | Some image =>
        detected <- pose_landmarks image ;;
        match detected with
        | None => detect_person_height_basic image_path
        | Some landmarks =>
            nose <- getitem landmarks NOSE ;;
            if Pipeline.gt (PoseHeight.lm_visibility nose) 0.5 then
              right_ankle <- getitem landmarks RIGHT_ANKLE ;;
              if Pipeline.gt (PoseHeight.lm_visibility right_ankle) 0.5 then
                left_ankle <- getitem landmarks LEFT_ANKLE ;;
                if Pipeline.gt (PoseHeight.lm_visibility left_ankle) 0.5 then
                  let rows := Bridge.of_nat (Bridge.img_rows image) in
                  let top_y := PoseHeight.lm_y nose * rows in
                  let left_ankle_y := PoseHeight.lm_y left_ankle * rows in
                  let right_ankle_y := PoseHeight.lm_y right_ankle * rows in
                  let bottom_y := (left_ankle_y + right_ankle_y) / 2 in
                  Ok (Some (Qabs (bottom_y - top_y)))
                else detect_person_height_basic image_path
              else detect_person_height_basic image_path
            else detect_person_height_basic image_path
        end
    end.

(** [detect_person_height]: every exception of the body leads to the basic
    method. *)
Definition detect_person_height (image_path : string) : result (option Q) :=
  match detect_with_pose image_path with
  | Ok h => Ok h
  | Raise _ => detect_person_height_basic image_path
  end.

(** Truth value of an optional height ([None] and [0] are false). *)
Definition height_found (h : option Q) : bool := truthy_num h.

(** [calculate_height_based_calibration]: every exception is raised again
    as a ValueError. *)
Definition calculate_height_based_calibration (image_path : string)
           (person_height_cm : Q) : result Calibration :=
  let body :=
    person_height_pixels <- detect_person_height image_path ;;
    match person_height_pixels with
    | Some px =>
        if height_found person_height_pixels then
          calibration_factor <- py_div person_height_cm px ;;
          _ <- create_height_visualization (cv2_imread image_path) px ;;
          Ok (mkCalibration (Some "height_based") height calibration_factor
                            None "cm/pixel")
        else Raise ValueError
    | None => Raise ValueError
    end in
  match body with
  | Ok c => Ok c
  | Raise _ => Raise ValueError
  end.

(** [calculate_reference_object_calibration]: the detection is simulated
    as 30% of the image width, with the aspect ratio of the reference. *)
Definition calculate_reference_object_calibration (image_path : string)
           (ref_object_type : option string) (ref_width_cm ref_height_cm : Q)
  : result Calibration :=
  match cv2_imread image_path with
  | None => Raise ValueError
  | Some image =>
      let w := Bridge.of_nat (Bridge.img_cols image) in
      let ref_obj_width_px := w * 0.3 in
      aspect <- py_div ref_height_cm ref_width_cm ;;
      let ref_obj_height_px := ref_obj_width_px * aspect in
      width_factor <- py_div ref_width_cm ref_obj_width_px ;;
      height_factor <- py_div ref_height_cm ref_obj_height_px ;;
      calibration_factor <- py_div (width_factor + height_factor) 2 ;;
      _ <- create_reference_visualization image ref_object_type
             ref_obj_width_px ref_obj_height_px ;;
      Ok (mkCalibration (Some "reference_object") reference calibration_factor
                        None "cm/pixel")
  end.

(** ** [calculate_spatial_calibration] *)

Variable SPATIAL_LM_AVAILABLE : bool.

(** Whether [from spatiallm_bridge import process_lidar_data] succeeds. *)
Variable bridge_imports : bool.

Variable Json : Type.
Variable load_json : string -> result Json.

(** The bridge as this file calls it: image path, depth data, point-cloud
    path. *)
Variable process_lidar_data :
  string -> option Json -> option string -> result (list (string * Q)).

Variable create_spatial_visualization :
  option Bridge.Image -> list (string * Q) -> result unit.

(** Copying and annotating the image in the mock branch. *)
Variable annotate_mock : option Bridge.Image -> result unit.

(** The body of the [try] block. *)
Definition spatial_body (image_path : string)
           (depth_map_path point_cloud_path : option string)
  : result Calibration :=
  if negb bridge_imports then Raise ImportError
  else
    calibration_result <-
      (if truthy_str depth_map_path then
         match depth_map_path with
         | Some p =>
             depth_data <- load_json p ;;
             process_lidar_data image_path (Some depth_data) None
         | None => Raise ValueError
         end
       else if truthy_str point_cloud_path then
         process_lidar_data image_path None point_cloud_path
       else Raise ValueError) ;;
    _ <- create_spatial_visualization (cv2_imread image_path)
           calibration_result ;;
    f <- dict_getitem calibration_result "calibration_factor" ;;
    c <- dict_getitem calibration_result "confidence" ;;
    Ok (mkCalibration (Some "spatial") spatial f (Some c) "cm/pixel").

Definition calculate_spatial_calibration (image_path : string)
           (depth_map_path point_cloud_path camera_intrinsics_path
            : option string) : result Calibration :=
  if negb SPATIAL_LM_AVAILABLE then Raise ImportError
  else
    match spatial_body image_path depth_map_path point_cloud_path with
    | Ok c => Ok c
    | Raise ImportError =>
        _ <- annotate_mock (cv2_imread image_path) ;;
        Ok (mkCalibration (Some "spatial") spatial 0.08 (Some 0.95) "cm/pixel")
    | Raise e => Raise e
    end.

End Strategies.

End Strategies.

(** Inputs used to run the strategies. *)
Definition no_drawing_height (image : option Bridge.Image) (px : Q)
  : result unit := Ok tt.

Definition no_drawing_reference (image : Bridge.Image) (name : option string)
           (w h : Q) : result unit := Ok tt.

Definition standing (image : Bridge.Image)
  : result (option (list PoseHeight.Landmark)) := Ok (Some standing_pose).

Definition no_contour (image : Bridge.Image) : option nat := None.

(** A pose of 33 landmarks with the nose at index 0 and the ankles at
    indices 27 and 28, all visible: a person standing upright. *)
Definition standing_person : list PoseHeight.Landmark :=
  PoseHeight.mkLandmark 0.5 0.1 0.99
  :: repeat (PoseHeight.mkLandmark 0.5 0.5 0.9) 26
  ++ [PoseHeight.mkLandmark 0.45 0.9 0.9; PoseHeight.mkLandmark 0.55 0.92 0.8]
  ++ repeat (PoseHeight.mkLandmark 0.5 0.95 0.9) 4.

Definition sees_standing_person (image : Bridge.Image)
  : result (option (list PoseHeight.Landmark)) := Ok (Some standing_person).

Definition wide_imread (path : string) : option Bridge.Image :=
  if String.eqb path "photo.jpg" then Some tall_image else None.

(** A height, when there is one, is not negative. *)
Definition nonnegative (h : option Q) : Prop :=
  match h with Some q => 0 <= q | None => True end.

(** The confidence each method of [src/python/wrapper.py] reports by
    itself; the spatial method takes its confidence from the bridge. *)
Definition fixed_confidence (m : Method) : option Q :=
  match m with
  | direct => Some 1.0
  | height => Some 0.9
  | reference => Some 0.85
  | spatial => None
  end.

(** The reference objects [src/wrapper.py] knows by name. *)
Definition names_reference (x : option string) : bool :=
  Wrapper.str_is x "custom" || Wrapper.str_is x "a4_paper"
  || Wrapper.str_is x "letter" || Wrapper.str_is x "credit_card".

(** Nothing on the command line but the image. *)
Definition bare_args : Wrapper.Args :=
  Wrapper.mkArgs "photo.jpg" None None None None None None None None None None.

(** [--calibration reference --reference_object a4_paper], without and
    with custom dimensions. *)
Definition a4_args : PyWrapper.Args :=
  PyWrapper.mkArgs "photo.jpg" "results/out.jpg" reference (Some "a4_paper")
                   None None None None None None.

Definition a4_custom_args : PyWrapper.Args :=
  PyWrapper.mkArgs "photo.jpg" "results/out.jpg" reference (Some "a4_paper")
                   (Some 10) (Some 20) None None None None.

Definition some_image (path : string) : option unit := Some tt.

Definition bridge_without_confidence (image_path : string)
           (depth_data : option unit) (point_cloud_path : option string)
           (intrinsics : option unit) : result (list (string * Q)) :=
  Ok [("calibration_factor", 0.2)].

Definition loading (path : string) : result unit := Ok tt.

Definition raising_bridge (image_path : string) (depth_data : option unit)
           (point_cloud_path : option string) : result (list (string * Q)) :=
  Raise KeyError.

Definition no_drawing_spatial (image : option Bridge.Image)
           (calibration_result : list (string * Q)) : result unit := Ok tt.

Definition no_annotation (image : option Bridge.Image) : result unit := Ok tt.

(* ================================================================== *)
(** * Facts about numbers and loops *)

Lemma gt0_true (x : Q) : gt0 x = true <-> 0 < x.
Proof.
  unfold gt0. rewrite negb_true_iff. split; intro H.
  - apply Qnot_le_lt. intro L. apply Qle_bool_iff in L. congruence.
  - destruct (Qle_bool x 0) eqn:E; [|reflexivity].
    apply Qle_bool_iff in E. exfalso. apply (Qlt_not_le _ _ H E).
Qed.

Lemma gt0_false (x : Q) : gt0 x = false <-> x <= 0.
Proof.
  unfold gt0. rewrite negb_false_iff. apply Qle_bool_iff.
Qed.

Lemma py_div_ok (x y : Q) : ~ y == 0 -> py_div x y = Ok (x / y).
Proof.
  intro H. unfold py_div. destruct (Qeq_bool y 0) eqn:E; [|reflexivity].
  apply Qeq_bool_iff in E. contradiction.
Qed.

Lemma py_div_pos (x y : Q) : gt0 y = true -> py_div x y = Ok (x / y).
Proof.
  intro H. apply py_div_ok. apply gt0_true in H. intro E. rewrite E in H.
  apply (Qlt_irrefl 0 H).
Qed.

Lemma py_div_inv (a b f : Q) : py_div a b = Ok f -> ~ b == 0 /\ f = a / b.
Proof.
  unfold py_div. destruct (Qeq_bool b 0) eqn:E; [discriminate|].
  intro H. inversion H. split; [|reflexivity]. apply Qeq_bool_neq. exact E.
Qed.

Lemma py_div_raise (a b : Q) (e : exn) :
  py_div a b = Raise e -> e = ZeroDivisionError /\ b == 0.
Proof.
  unfold py_div. destruct (Qeq_bool b 0) eqn:E; [|discriminate].
  intro H. inversion H. split; [reflexivity|]. apply Qeq_bool_iff. exact E.
Qed.

Lemma for_each_app {A S : Type} (body : S -> A -> result S) xs ys s :
  for_each body (xs ++ ys) s
  = (s' <- for_each body xs s ;; for_each body ys s').
Proof.
  revert s. induction xs as [|x xs IH]; intro s; simpl; [reflexivity|].
  destruct (body s x); simpl; [apply IH | reflexivity].
Qed.


(** A loop whose body leaves the state alone returns the state. *)
Lemma for_each_skip {A S : Type} (body : S -> A -> result S) xs s :
  (forall x, In x xs -> body s x = Ok s) -> for_each body xs s = Ok s.
Proof.
  induction xs as [|x xs IH]; intro H; simpl; [reflexivity|].
  rewrite (H x (or_introl eq_refl)). simpl. apply IH.
  intros y Hy. apply H. right. exact Hy.
Qed.

(* ================================================================== *)
(** * The dimension aggregator *)






(** A sum of strictly positive numbers is strictly positive. *)
Lemma fold_plus_lower (xs : list Q) (a : Q) :
  (forall x, In x xs -> 0 < x) -> a <= fold_left Qplus xs a.
Proof.
  revert a. induction xs as [|x xs IH]; intros a H; [apply Qle_refl|].
  cbn [fold_left].
  apply (Qle_trans _ (a + x)).
  - rewrite <- (Qplus_0_r a) at 1.
    apply Qplus_le_compat; [apply Qle_refl|].
    apply Qlt_le_weak, H. left. reflexivity.
  - apply IH. intros y Hy. apply H. right. exact Hy.
Qed.

Lemma py_sum_positive (x : Q) (xs : list Q) :
  (forall y, In y (x :: xs) -> 0 < y) -> 0 < py_sum (x :: xs).
Proof.
  intro H. unfold py_sum. cbn [fold_left].
  apply (Qlt_le_trans _ (0 + x)).
  - rewrite Qplus_0_l. apply H. left. reflexivity.
  - apply fold_plus_lower. intros y Hy. apply H. right. exact Hy.
Qed.

Module AggregatorFacts.
Import Bridge.

Lemma object_step_ok (ratios : list ratio) (obj : DetectedObject) :
  exists ratios', object_step ratios obj = Ok ratios'.
Proof.
  unfold object_step.
  destruct (dict_get standard_dimensions (lower (obj_type obj)))
    as [[std_width std_height]|]; [|eauto].
  destruct (gt0 (obj_width obj)) eqn:W;
    destruct (gt0 (obj_height obj)) eqn:H;
    repeat (rewrite py_div_pos by assumption); simpl; eauto.
Qed.

Lemma object_loop_ok (objects : list DetectedObject) (ratios : list ratio) :
  exists ratios', for_each object_step objects ratios = Ok ratios'.
Proof.
  revert ratios. induction objects as [|o os IH]; intro ratios; simpl.
  - eauto.
  - destruct (object_step_ok ratios o) as [r1 E]. rewrite E. simpl. apply IH.
Qed.

(** An object whose type is not in the table adds no ratio. *)
Lemma object_loop_unknown (objects : list DetectedObject) (ratios : list ratio) :
  (forall o, In o objects ->
             dict_get standard_dimensions (lower (obj_type o)) = None) ->
  for_each object_step objects ratios = Ok ratios.
Proof.
  intro H. apply for_each_skip. intros o Ho.
  unfold object_step. rewrite (H o Ho). reflexivity.
Qed.

(** The guarded division of the weighted average never raises. *)
Lemma weighted_average_ok (ratios : list ratio) :
  weighted_average ratios
  = Ok (if gt0 (total_weight ratios)
        then weighted_sum ratios / total_weight ratios
        else default_factor).
Proof.
  unfold weighted_average.
  destruct (gt0 (total_weight ratios)) eqn:E; [|reflexivity].
  apply py_div_pos. exact E.
Qed.

End AggregatorFacts.

(** C1 (as the claim states it, refuted): for one door detected at width
    45, height 105 and confidence 1.0 and no walls, the aggregator does not
    return 3.0. *)
Lemma door_factor_is_not_three :
  ~ returns (Bridge.calculate_calibration_from_objects one_door []) 3.
Proof.
  intros (r & E & H). vm_compute in E. inversion E; subst r.
  vm_compute in H. discriminate H.
Qed.

(** C1 (amended): for one door detected at width 45, height 105 and
    confidence 1.0 and no walls, the two ratios 90/45 and 210/105 are
    pushed with weight 1.0 each, and the aggregator returns their weighted
    average (90/45 + 210/105)/2, which is 2.0. *)
Theorem door_factor_is_two :
  (exists r1 r2,
      Bridge.object_ratios one_door = Ok [(r1, 1); (r2, 1)]
      /\ r1 == 90 / 45 /\ r2 == 210 / 105)
  /\ returns (Bridge.calculate_calibration_from_objects one_door [])
             ((90 / 45 + 210 / 105) / 2)
  /\ (90 / 45 + 210 / 105) / 2 == 2.
Proof.
  split; [|split].
  - eexists _, _. split; [vm_compute; reflexivity|].
    split; vm_compute; reflexivity.
  - eexists. split; [vm_compute; reflexivity | vm_compute; reflexivity].
  - vm_compute. reflexivity.
Qed.

(** C6 (evaluated at the failing input): with no objects and one wall of
    length 0 the wall fallback divides by zero and the aggregator raises
    instead of returning a ratio; with one wall of length 2.5 it returns
    250/250 = 1.0. *)
Theorem wall_fallback_zero_length :
  Bridge.calculate_calibration_from_objects [] [Bridge.mkWall 0]
  = Raise ZeroDivisionError
  /\ Bridge.wall_ratios [] [Bridge.mkWall 0] = Raise ZeroDivisionError
  /\ returns (Bridge.calculate_calibration_from_objects
                [] [Bridge.mkWall 2.5]) 1.
Proof.
  split; [reflexivity|]. split; [reflexivity|].
  eexists. split; vm_compute; reflexivity.
Qed.

(** The wall fallback away from the failing input.  With no recognised
    object and a non-empty list of walls that all have a strictly positive
    length, the aggregator does not raise: exactly one ratio
    250 / (mean * 100) is pushed, with weight 0.7, and the result is the
    weighted average of that single ratio. *)
Lemma wall_fallback_nonzero
      (objects : list Bridge.DetectedObject) (walls : list Bridge.Wall)
      (Hobj : forall o, In o objects ->
                dict_get Bridge.standard_dimensions
                         (lower (Bridge.obj_type o)) = None)
      (Hwalls : walls <> [])
      (Hpos : forall w, In w walls -> 0 < Bridge.wall_length w) :
  let mean := py_sum (map Bridge.wall_length walls) / py_len walls in
  let height_ratio := Bridge.standard_wall_height / (mean * 100) in
  Bridge.object_ratios objects = Ok []
  /\ Bridge.wall_ratios [] walls = Ok [(height_ratio, 0.7)]
  /\ Bridge.calculate_calibration_from_objects objects walls
     = Ok ((0 + height_ratio * 0.7) / (0 + 0.7)).
Proof.
  intros mean height_ratio.
  destruct walls as [|w ws]; [congruence|].
  assert (Hlen : 0 < py_len (w :: ws)).
  { unfold py_len. simpl List.length. unfold Qlt. simpl. lia. }
  assert (Hsum : 0 < py_sum (map Bridge.wall_length (w :: ws))).
  { cbn [map]. apply py_sum_positive. intros y Hy.
    change (Bridge.wall_length w :: map Bridge.wall_length ws)
      with (map Bridge.wall_length (w :: ws)) in Hy.
    apply in_map_iff in Hy. destruct Hy as (w' & <- & Hin).
    apply Hpos. exact Hin. }
  assert (Hmean : 0 < mean * 100).
  { rewrite <- (Qmult_0_l 100). apply Qmult_lt_compat_r; [reflexivity|].
    apply Qlt_shift_div_l; [exact Hlen|]. rewrite Qmult_0_l. exact Hsum. }
  assert (Ho : Bridge.object_ratios objects = Ok []).
  { apply AggregatorFacts.object_loop_unknown. exact Hobj. }
  assert (Hw : Bridge.wall_ratios [] (w :: ws) = Ok [(height_ratio, 0.7)]).
  { unfold Bridge.wall_ratios. cbn [truthy_list negb andb].
    rewrite py_div_ok
      by (intro E; rewrite E in Hlen; exact (Qlt_irrefl 0 Hlen)).
    cbn [bind]. fold mean.
    rewrite py_div_ok
      by (intro E; rewrite E in Hmean; exact (Qlt_irrefl 0 Hmean)).
    reflexivity. }
  split; [exact Ho|]. split; [exact Hw|].
  unfold Bridge.calculate_calibration_from_objects.
  rewrite Ho. cbn [bind]. rewrite Hw. cbn [bind truthy_list].
  rewrite AggregatorFacts.weighted_average_ok.
  unfold Bridge.total_weight, Bridge.weighted_sum, py_sum.
  cbn [map fold_left fst snd].
  replace (gt0 (0 + 0.7)) with true by reflexivity.
  reflexivity.
Qed.

(** A run of [wall_fallback_nonzero]: one wall of length 2.5. *)
Lemma wall_fallback_nonzero_run :
  Bridge.calculate_calibration_from_objects [] [Bridge.mkWall 2.5]
  = Ok ((0 + Bridge.standard_wall_height / (2.5 / 1 * 100) * 0.7)
        / (0 + 0.7)).
Proof.
  apply (wall_fallback_nonzero [] [Bridge.mkWall 2.5]).
  - intros o [].
  - discriminate.
  - intros w [<-|[]]. reflexivity.
Defined.

(** C10: when the ratio list is non-empty and its total weight is zero,
    the aggregator returns the default factor 0.1; and whatever the ratio
    list, the division of the weighted average is only performed with a
    strictly positive divisor, so it never raises. *)
Theorem weighted_average_guarded
        (objects : list Bridge.DetectedObject) (walls : list Bridge.Wall)
        (ratios : list Bridge.ratio)
        (Hobj : Bridge.object_ratios objects = Ok ratios)
        (Hne : ratios <> [])
        (Hzero : Bridge.total_weight ratios == 0) :
  Bridge.calculate_calibration_from_objects objects walls = Ok 0.1
  /\ (forall rs : list Bridge.ratio,
         (exists q, Bridge.weighted_average rs = Ok q)
         /\ (Bridge.weighted_average rs <> Raise ZeroDivisionError)
         /\ (Bridge.total_weight rs <= 0 ->
             Bridge.weighted_average rs = Ok 0.1)
         /\ (0 < Bridge.total_weight rs ->
             Bridge.weighted_average rs
             = Ok (Bridge.weighted_sum rs / Bridge.total_weight rs))).
Proof.
  split.
  - unfold Bridge.calculate_calibration_from_objects.
    rewrite Hobj. cbn [bind].
    unfold Bridge.wall_ratios.
    destruct ratios as [|r rs]; [congruence|]. cbn [truthy_list negb andb bind].
    rewrite AggregatorFacts.weighted_average_ok.
    assert (E : gt0 (Bridge.total_weight (r :: rs)) = false).
    { apply gt0_false. rewrite Hzero. apply Qle_refl. }
    rewrite E. reflexivity.
  - intro rs. rewrite AggregatorFacts.weighted_average_ok.
    split; [eauto|]. split; [discriminate|]. split.
    + intro H. apply gt0_false in H. rewrite H. reflexivity.
    + intro H. apply gt0_true in H. rewrite H. reflexivity.
Qed.

(** A run of C10: a door detected with confidence 0. *)
Lemma weighted_average_guarded_run :
  Bridge.calculate_calibration_from_objects unsure_door [] = Ok 0.1.
Proof.
  refine (proj1 (weighted_average_guarded unsure_door []
                   [(90 / 45, 0); (210 / 105, 0)] _ _ _)).
  - reflexivity.
  - discriminate.
  - vm_compute. reflexivity.
Defined.

(* ================================================================== *)
(** * The layout parser *)

Module LayoutFacts.
Import Bridge.

Section Parser.

Variable py_float : string -> option Q.
Variable np_sqrt : Q -> Q.


Lemma float_raise (s : string) (e : exn) :
  float py_float s = Raise e -> e = ValueError /\ py_float s = None.
Proof.
  unfold float. destruct (py_float s); intro H; inversion H. auto.
Qed.





End Parser.

End LayoutFacts.

(** C2 (evaluated at the failing input): the line "WALL 0 0 0 1 0 0",
    which has the six numeric fields of the grammar, is skipped by the
    guard [len(parts) >= 8], whatever [float] and [np.sqrt] are: the parser
    returns no wall at all, and the layout result has an empty wall list. *)
Theorem wall_with_six_fields_is_skipped
        (py_float : string -> option Q) (np_sqrt : Q -> Q) :
  Bridge.parse_layout py_float np_sqrt wall_line_six = Ok ([], [])
  /\ exists r,
      Bridge.extract_calibration_from_layout py_float np_sqrt wall_line_six
      = Ok r
      /\ Bridge.walls r = [].
Proof.
  split; [reflexivity|]. eexists. split; reflexivity.
Qed.



(** C3 (evaluated at the failing inputs): on the line
    "OBJECT door 0 0 0 0.9 0.5 2.1 0 0 0 0.95" the parser yields one object
    of width 50 (0.5 * 100), but its confidence is 0, the tenth field (psi),
    and not 0.95, the eleventh; on a line with ten fields and no confidence
    the confidence is again the tenth field (0.25 here), never the default
    0.9. *)
Theorem object_confidence_reads_psi :
  (exists o,
      Bridge.parse_layout float_of_decimal sqrt_q object_line_eleven
      = Ok ([o], [])
      /\ Bridge.obj_type o = "door"
      /\ Bridge.obj_width o == 50
      /\ Bridge.obj_height o == 210
      /\ Bridge.obj_length o == 90
      /\ Bridge.obj_confidence o == 0
      /\ ~ Bridge.obj_confidence o == 0.95)
  /\ (exists o,
         Bridge.parse_layout float_of_decimal sqrt_q object_line_ten
         = Ok ([o], [])
         /\ Bridge.obj_confidence o == 0.25
         /\ ~ Bridge.obj_confidence o == 0.9).
Proof.
  split.
  - eexists. split; [vm_compute; reflexivity|].
    repeat split; try (vm_compute; reflexivity).
    vm_compute. discriminate.
  - eexists. split; [vm_compute; reflexivity|].
    split; [vm_compute; reflexivity|]. vm_compute. discriminate.
Qed.

(** Where the confidence comes from, for every [float]: an [OBJECT] line
    with at least eleven tokens yields one object whose dimensions are the
    sixth to eighth tokens times 100 and whose confidence is the token at
    index 10. *)
Lemma object_fields
      (py_float : string -> option Q)
      (line kw label t2 t3 t4 t5 t6 t7 t8 t9 t10 : string) (rest : list string)
      (x y z l w h c : Q) (objs : list Bridge.DetectedObject)
      (Hparts : split_ws line
                = kw :: label :: t2 :: t3 :: t4 :: t5 :: t6 :: t7 :: t8 :: t9
                     :: t10 :: rest)
      (H2 : py_float t2 = Some x) (H3 : py_float t3 = Some y)
      (H4 : py_float t4 = Some z) (H5 : py_float t5 = Some l)
      (H6 : py_float t6 = Some w) (H7 : py_float t7 = Some h)
      (H10 : py_float t10 = Some c) :
  Bridge.parse_object py_float line objs
  = Ok (objs ++ [Bridge.mkObject label (w * 100) (h * 100) (l * 100) c]).
Proof.
  unfold Bridge.parse_object. rewrite Hparts.
  cbn [List.length Nat.leb Nat.ltb]. unfold Bridge.float_at, getitem.
  cbn [nth_error bind]. unfold Bridge.float.
  rewrite H2, H3, H4, H5, H6, H7, H10. reflexivity.
Qed.

(** A run of [object_fields] on the line with eleven fields. *)
Lemma object_fields_run :
  Bridge.parse_object float_of_decimal object_line_eleven []
  = Ok ([] ++ [Bridge.mkObject "door" (0.5 * 100) (2.1 * 100) (0.9 * 100) 0]).
Proof.
  apply (object_fields float_of_decimal object_line_eleven
           "OBJECT" "door" "0" "0" "0" "0.9" "0.5" "2.1" "0" "0" "0" ["0.95"]
           0 0 0 0.9 0.5 2.1 0);
    reflexivity.
Defined.




(* ================================================================== *)
(** * The point-cloud builder *)

Module PointCloudFacts.
Import Bridge.

(** ** Row-major indices *)

Lemma seq_row (w a : nat) :
  map (fun u => a * w + u)%nat (seq 0 w) = seq (a * w) w.
Proof.
  generalize (a * w)%nat as b. intro b.
  assert (G : forall n s, map (fun u => b + u)%nat (seq s n) = seq (b + s) n).
  { induction n as [|n IH]; intro s; simpl; [reflexivity|].
    rewrite IH. f_equal. f_equal. lia. }
  rewrite G. f_equal. lia.
Qed.

Lemma rows_cover (w h : nat) :
  flat_map (fun v => seq (v * w) w) (seq 0 h) = seq 0 (h * w).
Proof.
  induction h as [|h IH]; [reflexivity|].
  rewrite seq_S, flat_map_app, IH. simpl flat_map. rewrite app_nil_r.
  replace (S h * w)%nat with (h * w + w)%nat by lia.
  rewrite seq_app. reflexivity.
Qed.

Lemma nth_error_seq (data : list Q) :
  map (nth_error data) (seq 0 (List.length data)) = map Some data.
Proof.
  induction data as [|d ds IH]; [reflexivity|].
  simpl. f_equal. rewrite <- seq_shift, map_map. exact IH.
Qed.

Lemma positive_at_all (data : list Q) :
  List.length (filter (positive_at data) (seq 0 (List.length data)))
  = count_positive data.
Proof.
  unfold count_positive.
  assert (G : forall (l : list nat),
             List.length (filter (positive_at data) l)
             = List.length
                 (filter (fun o => match o with Some d => gt0 d | None => false end)
                         (map (nth_error data) l))).
  { induction l as [|i l IH]; [reflexivity|]. simpl.
    unfold positive_at at 1. destruct (nth_error data i) as [d|].
    - destruct (gt0 d); simpl; rewrite IH; reflexivity.
    - exact IH. }
  rewrite G, nth_error_seq. clear G.
  induction data as [|d ds IH]; [reflexivity|]. simpl.
  destruct (gt0 d); simpl; rewrite IH; reflexivity.
Qed.

(** ** The loops *)

Section Loops.

Variable depth_map : ndarray.
Variable K : Intrinsics.
Variable image : Image.

Hypothesis fx_nonzero : ~ fx K == 0.
Hypothesis fy_nonzero : ~ fy K == 0.

Lemma back_project_ok (u v : nat) (d : Q) :
  back_project K u v d
  = Ok (((of_nat u - cx K) * d) / fx K, ((of_nat v - cy K) * d) / fy K, d).
Proof.
  unfold back_project.
  rewrite (py_div_ok _ _ fx_nonzero). cbn [bind].
  rewrite (py_div_ok _ _ fy_nonzero). reflexivity.
Qed.

(** One pixel inside the array: a positive sample appends one point and
    one colour, any other sample appends nothing. *)
Lemma pixel_step_length (v u : nat) (st : list point * list color) :
  (v * shape_w depth_map + u < List.length (flat depth_map))%nat ->
  exists st',
    pixel_step depth_map K image v st u = Ok st'
    /\ List.length (fst st')
       = (List.length (fst st)
          + if positive_at (flat depth_map) (v * shape_w depth_map + u)
            then 1 else 0)%nat
    /\ List.length (snd st')
       = (List.length (snd st)
          + if positive_at (flat depth_map) (v * shape_w depth_map + u)
            then 1 else 0)%nat.
Proof.
  intro Hlt. destruct st as [points colors].
  unfold pixel_step, array_at, getitem, positive_at.
  destruct (nth_error (flat depth_map) (v * shape_w depth_map + u)) as [d|] eqn:E.
  - cbn [bind]. destruct (gt0 d).
    + rewrite back_project_ok. cbn [bind]. eexists. split; [reflexivity|].
      cbn [fst snd]. rewrite !length_app. simpl. auto.
    + eexists. split; [reflexivity|]. cbn [fst snd]. lia.
  - apply nth_error_None in E. lia.
Qed.

(** A run of pixels along row [v]. *)
Lemma pixels_length (v : nat) (us : list nat) (st : list point * list color) :
  (forall u, In u us ->
             (v * shape_w depth_map + u < List.length (flat depth_map))%nat) ->
  exists st',
    for_each (pixel_step depth_map K image v) us st = Ok st'
    /\ List.length (fst st')
       = (List.length (fst st)
          + List.length
              (filter (positive_at (flat depth_map))
                      (map (fun u => v * shape_w depth_map + u)%nat us)))%nat
    /\ List.length (snd st')
       = (List.length (snd st)
          + List.length
              (filter (positive_at (flat depth_map))
                      (map (fun u => v * shape_w depth_map + u)%nat us)))%nat.
Proof.
  revert st. induction us as [|u us IH]; intros st Hin.
  - exists st. simpl. repeat split; lia.
  - destruct (pixel_step_length v u st (Hin u (or_introl eq_refl)))
      as (st1 & E1 & Hp1 & Hc1).
    destruct (IH st1 (fun y Hy => Hin y (or_intror Hy)))
      as (st2 & E2 & Hp2 & Hc2).
    exists st2. cbn [for_each]. rewrite E1. cbn [bind].
    split; [exact E2|].
    cbn [map filter].
    destruct (positive_at (flat depth_map) (v * shape_w depth_map + u));
      simpl List.length; lia.
Qed.

(** A run of rows. *)
Lemma rows_length (vs : list nat) (st : list point * list color) :
  (forall v, In v vs ->
             (v * shape_w depth_map + shape_w depth_map
              <= List.length (flat depth_map))%nat) ->
  exists st',
    for_each (row_step depth_map K image) vs st = Ok st'
    /\ List.length (fst st')
       = (List.length (fst st)
          + List.length
              (filter (positive_at (flat depth_map))
                      (flat_map (fun v => seq (v * shape_w depth_map)
                                              (shape_w depth_map)) vs)))%nat
    /\ List.length (snd st')
       = (List.length (snd st)
          + List.length
              (filter (positive_at (flat depth_map))
                      (flat_map (fun v => seq (v * shape_w depth_map)
                                              (shape_w depth_map)) vs)))%nat.
Proof.
  revert st. induction vs as [|v vs IH]; intros st Hin.
  - exists st. simpl. repeat split; lia.
  - assert (Hrow : forall u, In u (seq 0 (shape_w depth_map)) ->
                     (v * shape_w depth_map + u
                      < List.length (flat depth_map))%nat).
    { intros u Hu. apply in_seq in Hu.
      specialize (Hin v (or_introl eq_refl)). lia. }
    destruct (pixels_length v _ st Hrow) as (st1 & E1 & Hp1 & Hc1).
    destruct (IH st1 (fun y Hy => Hin y (or_intror Hy)))
      as (st2 & E2 & Hp2 & Hc2).
    exists st2. cbn [for_each]. unfold row_step at 1. rewrite E1. cbn [bind].
    split; [exact E2|].
    cbn [flat_map]. rewrite filter_app, length_app.
    rewrite seq_row in Hp1, Hc1. lia.
Qed.

End Loops.

(** With no column there is no pixel, whatever the intrinsics. *)
Lemma rows_empty (depth_map : ndarray) (K : Intrinsics) (image : Image)
      (vs : list nat) (st : list point * list color) :
  shape_w depth_map = 0%nat ->
  for_each (row_step depth_map K image) vs st = Ok st.
Proof.
  intro H. apply for_each_skip. intros v _.
  unfold row_step. rewrite H. reflexivity.
Qed.

Lemma concat_rows_length (w : nat) (rows : list (list Q)) :
  forallb (row_length_is w) rows = true ->
  List.length (List.concat rows) = (List.length rows * w)%nat.
Proof.
  induction rows as [|r rs IH]; [reflexivity|].
  cbn [forallb List.concat List.length]. rewrite andb_true_iff.
  intros [Hr Hrs]. rewrite length_app, (IH Hrs).
  unfold row_length_is in Hr. apply Nat.eqb_eq in Hr. lia.
Qed.

(** [convert_depth_data_to_depth_map] returns an array filled to its
    shape. *)
Lemma convert_shape (depth_data : DepthData) (a : ndarray) :
  convert_depth_data_to_depth_map depth_data = Ok a ->
  List.length (flat a) = (shape_h a * shape_w a)%nat.
Proof.
  destruct depth_data as [rows|width height data|];
    unfold convert_depth_data_to_depth_map.
  - destruct rows as [|row rows]; [discriminate|].
    destruct (forallb (row_length_is (List.length row)) (row :: rows)) eqn:F;
      [|discriminate].
    intro H. inversion H; subst a. cbn [flat shape_h shape_w].
    exact (concat_rows_length (List.length row) (row :: rows) F).
  - destruct (List.length data =? height * width)%nat eqn:E; [|discriminate].
    intro H. inversion H; subst a. simpl. apply Nat.eqb_eq. exact E.
  - discriminate.
Qed.

End PointCloudFacts.

(** The builder on any depth data that converts to an array: it returns,
    and the vertex count and the number of records both equal the number
    of strictly positive samples. *)
Lemma point_cloud_length_of_array
      (cv2_imread : string -> option Bridge.Image)
      (depth_data : Bridge.DepthData) (depth_map : Bridge.ndarray)
      (image_path : string) (image : Bridge.Image)
      (K : option Bridge.Intrinsics)
      (Hconv : Bridge.convert_depth_data_to_depth_map depth_data = Ok depth_map)
      (Himg : cv2_imread image_path = Some image)
      (HK : valid_intrinsics K) :
  exists ply,
    Bridge.create_point_cloud_from_depth cv2_imread depth_data image_path K
    = Ok ply
    /\ Bridge.vertex_count ply = count_positive (Bridge.flat depth_map)
    /\ List.length (Bridge.vertices ply)
       = count_positive (Bridge.flat depth_map).
Proof.
  pose proof (PointCloudFacts.convert_shape _ _ Hconv) as Hshape.
  unfold Bridge.create_point_cloud_from_depth.
  rewrite Hconv. cbn [bind]. rewrite Himg.
  set (Kc := match K with
             | Some k => k
             | None => Bridge.default_intrinsics depth_map
             end).
  destruct (Nat.eq_dec (Bridge.shape_w depth_map) 0) as [W0|Wpos].
  - rewrite (PointCloudFacts.rows_empty depth_map Kc image _ _ W0).
    cbn [bind]. eexists. split; [reflexivity|].
    rewrite W0, Nat.mul_0_r in Hshape.
    destruct (Bridge.flat depth_map); [|discriminate]. split; reflexivity.
  - assert (Hfx : ~ Bridge.fx Kc == 0 /\ ~ Bridge.fy Kc == 0).
    { unfold Kc. destruct K as [k|].
      - destruct HK as [Hx Hy]. split; intro E.
        + rewrite E in Hx. exact (Qlt_irrefl 0 Hx).
        + rewrite E in Hy. exact (Qlt_irrefl 0 Hy).
      - unfold Bridge.default_intrinsics. cbn [Bridge.fx Bridge.fy].
        assert (G : ~ Bridge.of_nat (Bridge.shape_w depth_map) * 0.8 == 0).
        { unfold Bridge.of_nat, Qeq. simpl. lia. }
        split; exact G. }
    destruct Hfx as [Hfx Hfy].
    destruct (PointCloudFacts.rows_length depth_map Kc image Hfx Hfy
                (seq 0 (Bridge.shape_h depth_map)) ([], []))
      as ([points colors] & E & Hp & Hc).
    { intros v Hv. apply in_seq in Hv. rewrite Hshape.
      assert (S v <= Bridge.shape_h depth_map)%nat by lia.
      replace (v * Bridge.shape_w depth_map + Bridge.shape_w depth_map)%nat
        with (S v * Bridge.shape_w depth_map)%nat by lia.
      apply Nat.mul_le_mono_r. assumption. }
    rewrite E. cbn [bind]. eexists. split; [reflexivity|].
    cbn [Bridge.vertex_count Bridge.vertices fst snd] in *.
    rewrite PointCloudFacts.rows_cover, <- Hshape,
      PointCloudFacts.positive_at_all in Hp, Hc.
    simpl in Hp, Hc. rewrite length_combine, Hp, Hc.
    split; [reflexivity|]. apply Nat.min_id.
Qed.

(** C8: for a depth map whose samples number width * height, a readable
    image and intrinsics that are defaulted or satisfy fx > 0 and fy > 0,
    the builder returns a point cloud whose length (the vertex count of
    the header and the number of records) equals the number of strictly
    positive samples, which is at most width * height: non-positive
    samples are dropped. *)
Theorem point_cloud_length
        (cv2_imread : string -> option Bridge.Image)
        (width height : nat) (samples : list Q)
        (image_path : string) (image : Bridge.Image)
        (K : option Bridge.Intrinsics)
        (Hvalid : List.length samples = (width * height)%nat)
        (Himg : cv2_imread image_path = Some image)
        (HK : valid_intrinsics K) :
  exists ply,
    Bridge.create_point_cloud_from_depth
      cv2_imread (Bridge.DepthFlat width height samples) image_path K
    = Ok ply
    /\ Bridge.vertex_count ply = count_positive samples
    /\ List.length (Bridge.vertices ply) = count_positive samples
    /\ (count_positive samples <= width * height)%nat.
Proof.
  assert (Hconv : Bridge.convert_depth_data_to_depth_map
                    (Bridge.DepthFlat width height samples)
                  = Ok (Bridge.mkArray height width samples)).
  { unfold Bridge.convert_depth_data_to_depth_map.
    replace (List.length samples =? height * width)%nat with true;
      [reflexivity|].
    symmetry. apply Nat.eqb_eq. lia. }
  destruct (point_cloud_length_of_array cv2_imread _ _ image_path image K
              Hconv Himg HK) as (ply & E & Hc & Hv).
  exists ply. cbn [Bridge.flat] in Hc, Hv.
  repeat split; try assumption.
  rewrite <- Hvalid. unfold count_positive. apply filter_length_le.
Qed.

(** A run of C8: six samples, three of them positive. *)
Lemma point_cloud_length_run :
  exists ply,
    Bridge.create_point_cloud_from_depth
      sample_imread sample_depth "photo.jpg" (Some sample_intrinsics)
    = Ok ply
    /\ Bridge.vertex_count ply = 3%nat
    /\ List.length (Bridge.vertices ply) = 3%nat
    /\ (3 <= 3 * 2)%nat.
Proof.
  apply (point_cloud_length sample_imread 3 2 [1.5; 0; -1; 2; 0.25; 0]
           "photo.jpg" sample_image (Some sample_intrinsics)).
  - reflexivity.
  - reflexivity.
  - split; reflexivity.
Defined.

(** C9: for a pixel (u, v) with depth d > 0 and intrinsics with fx > 0 and
    fy > 0, the back-projection returns the point
    ((u - cx) * d / fx, (v - cy) * d / fy, d), this is the point the
    builder appends for that pixel, and projecting it back through
    u = x * fx / z + cx, v = y * fy / z + cy recovers (u, v). *)
Theorem back_projection_round_trip
        (K : Bridge.Intrinsics) (u v : nat) (d : Q)
        (Hd : 0 < d) (Hfx : 0 < Bridge.fx K) (Hfy : 0 < Bridge.fy K) :
  exists x y,
    Bridge.back_project K u v d = Ok (x, y, d)
    /\ x == (Bridge.of_nat u - Bridge.cx K) * d / Bridge.fx K
    /\ y == (Bridge.of_nat v - Bridge.cy K) * d / Bridge.fy K
    /\ (forall depth_map image points colors,
           Bridge.array_at depth_map v u = Ok d ->
           Bridge.pixel_step depth_map K image v (points, colors) u
           = Ok (points ++ [(x, y, d)],
                 colors ++ [Bridge.pixel_color image u v]))
    /\ exists u' v',
        Bridge.reproject K (x, y, d) = Ok (u', v')
        /\ u' == Bridge.of_nat u
        /\ v' == Bridge.of_nat v.
Proof.
  assert (Nd : ~ d == 0) by (intro E; rewrite E in Hd; exact (Qlt_irrefl 0 Hd)).
  assert (Nx : ~ Bridge.fx K == 0)
    by (intro E; rewrite E in Hfx; exact (Qlt_irrefl 0 Hfx)).
  assert (Ny : ~ Bridge.fy K == 0)
    by (intro E; rewrite E in Hfy; exact (Qlt_irrefl 0 Hfy)).
  pose proof (PointCloudFacts.back_project_ok K Nx Ny u v d) as B.
  eexists _, _. split; [exact B|].
  split; [reflexivity|]. split; [reflexivity|]. split.
  - intros depth_map image points colors Hat.
    unfold Bridge.pixel_step. rewrite Hat. cbn [bind].
    replace (gt0 d) with true by (symmetry; apply gt0_true; exact Hd).
    rewrite B. reflexivity.
  - unfold Bridge.reproject.
    rewrite (py_div_ok _ _ Nd). cbn [bind].
    rewrite (py_div_ok _ _ Nd). cbn [bind].
    eexists _, _. split; [reflexivity|]. split; field; auto.
Qed.

(** A run of C9: pixel (2, 1) at depth 2. *)
Lemma back_projection_round_trip_run :
  exists x y,
    Bridge.back_project sample_intrinsics 2 1 2 = Ok (x, y, 2)
    /\ exists u' v',
        Bridge.reproject sample_intrinsics (x, y, 2) = Ok (u', v')
        /\ u' == 2 /\ v' == 1.
Proof.
  destruct (back_projection_round_trip sample_intrinsics 2 1 2)
    as (x & y & B & _ & _ & _ & u' & v' & R & Hu & Hv);
    try reflexivity.
  exists x, y. split; [exact B|]. exists u', v'. auto.
Defined.

(* ================================================================== *)
(** * The spatial strategy of [src/python/wrapper.py] *)

(** C4: when the spatial collaborator raises, whatever the exception and
    whatever the paths, the spatial strategy returns (no exception leaves
    it) the fallback result: method spatial, factor 0.05, and confidence
    0.7 (0.8 when the bridge could not be imported), inside the fallback
    range 0.7 to 0.8. *)
Theorem spatial_fallback_on_error
        (Json : Type) (SPATIALLM_BRIDGE_AVAILABLE : bool)
        (load_json : string -> result Json)
        (process_lidar_data :
           string -> option Json -> option string -> option Json
           -> result (list (string * Q)))
        (image_path : string)
        (depth_map_path point_cloud_path camera_intrinsics_path : option string)
        (Hraise : forall depth_data camera_intrinsics,
            exists e,
              process_lidar_data image_path depth_data point_cloud_path
                                 camera_intrinsics = Raise e) :
  let r := PyWrapper.calculate_spatial_calibration
             Json SPATIALLM_BRIDGE_AVAILABLE load_json process_lidar_data
             image_path depth_map_path point_cloud_path
             camera_intrinsics_path in
  r = PyWrapper.fallback (if SPATIALLM_BRIDGE_AVAILABLE then 0.7 else 0.8)
  /\ method r = spatial
  /\ factor r == 0.05
  /\ exists c, cal_confidence r = Some c /\ 0.7 <= c /\ c <= 0.8.
Proof.
  intro r.
  assert (E : r = PyWrapper.fallback
                    (if SPATIALLM_BRIDGE_AVAILABLE then 0.7 else 0.8)).
  { subst r. unfold PyWrapper.calculate_spatial_calibration.
    destruct SPATIALLM_BRIDGE_AVAILABLE; cbn [negb]; [|reflexivity].
    unfold PyWrapper.spatial_body.
    destruct (PyWrapper.load_optional Json load_json camera_intrinsics_path)
      as [k|]; cbn [bind]; [|reflexivity].
    destruct (PyWrapper.load_optional Json load_json depth_map_path)
      as [d|]; cbn [bind]; [|reflexivity].
    destruct (Hraise d k) as [e He]. rewrite He. reflexivity. }
  split; [exact E|]. rewrite E.
  split; [reflexivity|]. split; [reflexivity|].
  destruct SPATIALLM_BRIDGE_AVAILABLE; eexists; (split; [reflexivity|]);
    split; vm_compute; discriminate.
Qed.

(** A run of C4: a bridge that raises ValueError. *)
Lemma spatial_fallback_run :
  PyWrapper.calculate_spatial_calibration
    unit true failing_load failing_bridge "photo.jpg" (Some "depth.json")
    None None
  = PyWrapper.fallback 0.7.
Proof.
  refine (proj1 (spatial_fallback_on_error
                   unit true failing_load failing_bridge "photo.jpg"
                   (Some "depth.json") None None _)).
  intros depth_data camera_intrinsics. exists ValueError. reflexivity.
Defined.

(** The spatial strategy always returns a result whose method is spatial,
    also when nothing fails. *)
Lemma spatial_method_always
      (Json : Type) (available : bool) (load_json : string -> result Json)
      (process_lidar_data :
         string -> option Json -> option string -> option Json
         -> result (list (string * Q)))
      (image_path : string) (d pc k : option string) :
  method (PyWrapper.calculate_spatial_calibration
            Json available load_json process_lidar_data image_path d pc k)
  = spatial.
Proof.
  unfold PyWrapper.calculate_spatial_calibration.
  destruct available; cbn [negb]; [|reflexivity].
  destruct (PyWrapper.spatial_body Json load_json process_lidar_data
              image_path d pc k) as [c|e] eqn:E; [|reflexivity].
  unfold PyWrapper.spatial_body in E.
  destruct (PyWrapper.load_optional Json load_json k) as [jk|];
    cbn [bind] in E; [|discriminate].
  destruct (PyWrapper.load_optional Json load_json d) as [jd|];
    cbn [bind] in E; [|discriminate].
  destruct (process_lidar_data image_path jd pc jk) as [res|];
    cbn [bind] in E; [|discriminate].
  destruct (dict_getitem res "calibration_factor"); cbn [bind] in E;
    [|discriminate].
  destruct (dict_getitem res "confidence"); cbn [bind] in E; [|discriminate].
  inversion E. reflexivity.
Qed.

(* ================================================================== *)
(** * More on the dimension aggregator *)

Module AggregatorAlgebra.
Import Bridge.

(** Every width and height of the table is strictly positive. *)
Lemma standard_positive (k : string) (std_width std_height : Q) :
  dict_get standard_dimensions k = Some (std_width, std_height) ->
  0 < std_width /\ 0 < std_height.
Proof.
  unfold standard_dimensions. cbn [dict_get].
  repeat (destruct (String.eqb k _);
          [intro H; inversion H; split; reflexivity|]).
  discriminate.
Qed.

Lemma gt0_div (a b : Q) : 0 < a -> gt0 b = true -> gt0 (a / b) = true.
Proof.
  intros Ha Hb. apply gt0_true in Hb. apply gt0_true.
  apply Qlt_shift_div_l; [exact Hb|]. rewrite Qmult_0_l. exact Ha.
Qed.

(** The loop body appends the ratios of the object. *)
Lemma object_step_appends (ratios : list ratio) (obj : DetectedObject) :
  object_step ratios obj = Ok (ratios ++ ratios_of obj).
Proof.
  unfold object_step, ratios_of.
  destruct (dict_get standard_dimensions (lower (obj_type obj)))
    as [[std_width std_height]|] eqn:T.
  - destruct (standard_positive _ _ _ T) as [Hw Hh].
    destruct (gt0 (obj_width obj)) eqn:W;
      destruct (gt0 (obj_height obj)) eqn:H;
      repeat (rewrite py_div_pos by assumption); cbn [bind];
      repeat (rewrite gt0_div by assumption);
      change (gt0 0) with false; cbn [app];
      rewrite <- ?app_assoc, ?app_nil_r; reflexivity.
  - rewrite app_nil_r. reflexivity.
Qed.

Lemma object_loop_appends (objects : list DetectedObject) (ratios : list ratio) :
  for_each object_step objects ratios
  = Ok (ratios ++ flat_map ratios_of objects).
Proof.
  revert ratios. induction objects as [|o os IH]; intro ratios; simpl.
  - rewrite app_nil_r. reflexivity.
  - rewrite object_step_appends. cbn [bind]. rewrite IH, app_assoc.
    reflexivity.
Qed.

Lemma object_ratios_flat (objects : list DetectedObject) :
  object_ratios objects = Ok (flat_map ratios_of objects).
Proof. apply (object_loop_appends objects []). Qed.

End AggregatorAlgebra.

Module AggregatorCases.
Import Bridge.

(** With at least one object ratio the walls are never looked at. *)
Lemma with_object_ratios (objects : list DetectedObject) (walls : list Wall)
      (r : ratio) (rs : list ratio) :
  flat_map ratios_of objects = r :: rs ->
  calculate_calibration_from_objects objects walls
  = weighted_average (r :: rs).
Proof.
  intro F. unfold calculate_calibration_from_objects.
  rewrite AggregatorAlgebra.object_ratios_flat, F. reflexivity.
Qed.

(** Without any object ratio the outcome is decided by the walls. *)
Lemma without_object_ratios (objects : list DetectedObject) (walls : list Wall) :
  flat_map ratios_of objects = [] ->
  calculate_calibration_from_objects objects walls
  = match walls with
    | [] => Ok default_factor
    | _ :: _ =>
        avg <- py_div (py_sum (map wall_length walls)) (py_len walls) ;;
        height_ratio <- py_div standard_wall_height (avg * 100) ;;
        weighted_average [(height_ratio, 0.7)]
    end.
Proof.
  intro F. unfold calculate_calibration_from_objects.
  rewrite AggregatorAlgebra.object_ratios_flat, F. cbn [bind].
  unfold wall_ratios. destruct walls as [|w ws]; [reflexivity|].
  cbn [truthy_list negb andb].
  destruct (py_div (py_sum (map wall_length (w :: ws))) (py_len (w :: ws)))
    as [avg|]; cbn [bind]; [|reflexivity].
  destruct (py_div standard_wall_height (avg * 100)); reflexivity.
Qed.

Lemma py_len_nonzero {A : Type} (x : A) (xs : list A) : ~ py_len (x :: xs) == 0.
Proof.
  unfold py_len. simpl List.length. intro E. unfold Qeq in E. simpl in E. lia.
Qed.

End AggregatorCases.

(** Where the aggregator can fail.  The loop over the objects never
    raises.  An exception of the aggregator is a ZeroDivisionError of the
    wall fallback: it needs an input in which no object yields a ratio and
    the wall list is not empty.  With at least one object ratio, or with an
    empty wall list, the aggregator returns a factor. *)
Theorem aggregator_raises_only_in_wall_fallback
        (objects : list Bridge.DetectedObject) (walls : list Bridge.Wall) :
  (exists ratios, Bridge.object_ratios objects = Ok ratios)
  /\ (forall e,
         Bridge.calculate_calibration_from_objects objects walls = Raise e ->
         e = ZeroDivisionError
         /\ Bridge.object_ratios objects = Ok []
         /\ walls <> [])
  /\ (forall r rs,
         Bridge.object_ratios objects = Ok (r :: rs) ->
         Bridge.calculate_calibration_from_objects objects walls
         = Bridge.weighted_average (r :: rs)
         /\ exists q,
             Bridge.calculate_calibration_from_objects objects walls = Ok q)
  /\ (walls = [] ->
      exists q,
        Bridge.calculate_calibration_from_objects objects walls = Ok q).
Proof.
  rewrite AggregatorAlgebra.object_ratios_flat.
  split; [eexists; reflexivity|].
  destruct (flat_map ratios_of objects) as [|r rs] eqn:F.
  - rewrite (AggregatorCases.without_object_ratios _ walls F).
    destruct walls as [|w ws].
    + split; [discriminate|]. split; [discriminate|].
      intros _. eexists. reflexivity.
    + split; [|split; [discriminate | discriminate]].
      intros e H.
      rewrite (py_div_ok _ _ (AggregatorCases.py_len_nonzero w ws)) in H.
      cbn [bind] in H.
      destruct (py_div Bridge.standard_wall_height _) as [h|e'] eqn:D;
        cbn [bind] in H.
      * rewrite AggregatorFacts.weighted_average_ok in H. discriminate.
      * inversion H. subst e'.
        split; [exact (proj1 (py_div_raise _ _ _ D))|].
        split; [reflexivity | discriminate].
  - rewrite (AggregatorCases.with_object_ratios _ walls _ _ F).
    split; [rewrite AggregatorFacts.weighted_average_ok; discriminate|].
    split.
    + intros r' rs' H. inversion H. subst. split; [reflexivity|].
      rewrite AggregatorFacts.weighted_average_ok. eexists. reflexivity.
    + intros _. rewrite AggregatorFacts.weighted_average_ok.
      eexists. reflexivity.
Qed.

(** Objects whose lowercase type is not in the table have no influence:
    removing them from the input does not change the outcome. *)
Theorem unrecognised_objects_are_ignored
        (objects : list Bridge.DetectedObject) (walls : list Bridge.Wall) :
  Bridge.calculate_calibration_from_objects objects walls
  = Bridge.calculate_calibration_from_objects (filter recognised objects) walls.
Proof.
  unfold Bridge.calculate_calibration_from_objects.
  rewrite !AggregatorAlgebra.object_ratios_flat.
  replace (flat_map ratios_of (filter recognised objects))
    with (flat_map ratios_of objects); [reflexivity|].
  induction objects as [|o os IH]; [reflexivity|].
  cbn [filter flat_map]. unfold recognised at 1.
  destruct (dict_get Bridge.standard_dimensions (lower (Bridge.obj_type o)))
    eqn:T.
  - cbn [flat_map]. rewrite IH. reflexivity.
  - rewrite IH. unfold ratios_of at 1. rewrite T. reflexivity.
Qed.

(** As soon as one object yields a ratio, the walls have no influence:
    the outcome is the one for an empty wall list. *)
Theorem walls_ignored_with_object_ratios
        (objects : list Bridge.DetectedObject) (walls : list Bridge.Wall)
        (ratios : list Bridge.ratio)
        (Hobj : Bridge.object_ratios objects = Ok ratios)
        (Hne : ratios <> []) :
  Bridge.calculate_calibration_from_objects objects walls
  = Bridge.calculate_calibration_from_objects objects [].
Proof.
  rewrite AggregatorAlgebra.object_ratios_flat in Hobj. inversion Hobj as [F].
  destruct ratios as [|r rs]; [congruence|].
  rewrite (AggregatorCases.with_object_ratios _ walls _ _ F).
  rewrite (AggregatorCases.with_object_ratios _ [] _ _ F).
  reflexivity.
Qed.

(** A run of [walls_ignored_with_object_ratios]. *)
Lemma walls_ignored_run :
  Bridge.calculate_calibration_from_objects chair_and_lamp two_walls
  = Bridge.calculate_calibration_from_objects chair_and_lamp [].
Proof.
  apply (walls_ignored_with_object_ratios chair_and_lamp two_walls
           [(45 / 50, 0.8); (85 / 100, 0.8)]).
  - reflexivity.
  - discriminate.
Defined.

(* ================================================================== *)
(** * More on the point-cloud builder *)

Module PointCloudOrder.
Import Bridge.

Lemma combine_fst_snd {A B : Type} (l : list (A * B)) :
  combine (map fst l) (map snd l) = l.
Proof.
  induction l as [|[a b] l IH]; [reflexivity|]. simpl. rewrite IH. reflexivity.
Qed.

Lemma pixels_no_column (h : nat) : pixels h 0 = [].
Proof.
  unfold pixels. induction (seq 0 h) as [|v vs IH]; [reflexivity|].
  simpl. exact IH.
Qed.

Section Loops.

Variable depth_map : ndarray.
Variable K : Intrinsics.
Variable image : Image.

Hypothesis fx_nonzero : ~ fx K == 0.
Hypothesis fy_nonzero : ~ fy K == 0.

(** One pixel inside the array appends what [vertex_at] describes. *)
Lemma pixel_step_appends (v u : nat) (points : list point) (colors : list color) :
  (v * shape_w depth_map + u < List.length (flat depth_map))%nat ->
  pixel_step depth_map K image v (points, colors) u
  = Ok (points ++ map fst (vertex_at depth_map K image (v, u)),
        colors ++ map snd (vertex_at depth_map K image (v, u))).
Proof.
  intro Hlt. unfold pixel_step, array_at, getitem, vertex_at.
  destruct (nth_error (flat depth_map) (v * shape_w depth_map + u)) as [d|] eqn:E.
  - cbn [bind]. destruct (gt0 d).
    + rewrite (PointCloudFacts.back_project_ok K fx_nonzero fy_nonzero).
      reflexivity.
    + simpl. rewrite !app_nil_r. reflexivity.
  - apply nth_error_None in E. lia.
Qed.

Lemma pixels_append (v : nat) (us : list nat)
      (points : list point) (colors : list color) :
  (forall u, In u us ->
             (v * shape_w depth_map + u < List.length (flat depth_map))%nat) ->
  for_each (pixel_step depth_map K image v) us (points, colors)
  = Ok (points ++ map fst (flat_map (vertex_at depth_map K image)
                                    (map (fun u => (v, u)) us)),
        colors ++ map snd (flat_map (vertex_at depth_map K image)
                                    (map (fun u => (v, u)) us))).
Proof.
  revert points colors. induction us as [|u us IH]; intros points colors Hin.
  - simpl. rewrite !app_nil_r. reflexivity.
  - cbn [for_each]. rewrite (pixel_step_appends v u points colors)
      by (apply Hin; left; reflexivity).
    cbn [bind]. rewrite IH by (intros y Hy; apply Hin; right; exact Hy).
    cbn [map flat_map]. rewrite !map_app, !app_assoc. reflexivity.
Qed.

Lemma rows_append (vs : list nat) (points : list point) (colors : list color) :
  (forall v, In v vs ->
             (v * shape_w depth_map + shape_w depth_map
              <= List.length (flat depth_map))%nat) ->
  for_each (row_step depth_map K image) vs (points, colors)
  = Ok (points
        ++ map fst (flat_map (vertex_at depth_map K image)
                      (flat_map (fun v => map (fun u => (v, u))
                                              (seq 0 (shape_w depth_map))) vs)),
        colors
        ++ map snd (flat_map (vertex_at depth_map K image)
                      (flat_map (fun v => map (fun u => (v, u))
                                              (seq 0 (shape_w depth_map))) vs))).
Proof.
  revert points colors. induction vs as [|v vs IH]; intros points colors Hin.
  - simpl. rewrite !app_nil_r. reflexivity.
  - cbn [for_each]. unfold row_step at 1.
    rewrite pixels_append.
    + cbn [bind]. rewrite IH by (intros y Hy; apply Hin; right; exact Hy).
      cbn [flat_map]. rewrite !flat_map_app, !map_app, !app_assoc.
      reflexivity.
    + intros u Hu. apply in_seq in Hu.
      specialize (Hin v (or_introl eq_refl)). lia.
Qed.

End Loops.

Lemma chosen_nonzero (depth_map : ndarray) (K : option Intrinsics) :
  valid_intrinsics K -> shape_w depth_map <> 0%nat ->
  ~ fx (chosen_intrinsics depth_map K) == 0
  /\ ~ fy (chosen_intrinsics depth_map K) == 0.
Proof.
  intros HK Wpos. unfold chosen_intrinsics. destruct K as [k|].
  - destruct HK as [Hx Hy]. split; intro E.
    + rewrite E in Hx. exact (Qlt_irrefl 0 Hx).
    + rewrite E in Hy. exact (Qlt_irrefl 0 Hy).
  - unfold default_intrinsics. cbn [fx fy].
    assert (G : ~ of_nat (shape_w depth_map) * 0.8 == 0).
    { unfold of_nat, Qeq. simpl. lia. }
    split; exact G.
Qed.

(** The vertices the builder writes, for any depth data that converts. *)
Lemma cloud_vertices
      (cv2_imread : string -> option Image)
      (depth_data : DepthData) (depth_map : ndarray)
      (image_path : string) (image : Image) (K : option Intrinsics) :
  convert_depth_data_to_depth_map depth_data = Ok depth_map ->
  cv2_imread image_path = Some image ->
  valid_intrinsics K ->
  let vs := flat_map (vertex_at depth_map (chosen_intrinsics depth_map K) image)
                     (pixels (shape_h depth_map) (shape_w depth_map)) in
  create_point_cloud_from_depth cv2_imread depth_data image_path K
  = Ok (mkPly (List.length vs) vs).
Proof.
  intros Hconv Himg HK vs.
  pose proof (PointCloudFacts.convert_shape _ _ Hconv) as Hshape.
  unfold create_point_cloud_from_depth.
  rewrite Hconv. cbn [bind]. rewrite Himg.
  fold (chosen_intrinsics depth_map K).
  destruct (Nat.eq_dec (shape_w depth_map) 0) as [W0|Wpos].
  - rewrite (PointCloudFacts.rows_empty depth_map _ image _ _ W0).
    cbn [bind]. subst vs. rewrite W0, pixels_no_column. reflexivity.
  - destruct (chosen_nonzero depth_map K HK Wpos) as [Hfx Hfy].
    rewrite (rows_append depth_map _ image Hfx Hfy).
    + cbn [bind app]. fold (pixels (shape_h depth_map) (shape_w depth_map)).
      fold vs. rewrite combine_fst_snd, length_map. reflexivity.
    + intros v Hv. apply in_seq in Hv. rewrite Hshape.
      assert (S v <= shape_h depth_map)%nat by lia.
      replace (v * shape_w depth_map + shape_w depth_map)%nat
        with (S v * shape_w depth_map)%nat by lia.
      apply Nat.mul_le_mono_r. assumption.
Qed.

(** The flat index of each pixel, in row-major order, counts from 0. *)
Lemma pixel_indices (h w : nat) :
  map (fun vu : nat * nat => (fst vu * w + snd vu)%nat) (pixels h w)
  = seq 0 (h * w).
Proof.
  unfold pixels. rewrite <- PointCloudFacts.rows_cover.
  induction (seq 0 h) as [|v vs IH]; [reflexivity|].
  cbn [flat_map]. rewrite map_app, IH. f_equal.
  rewrite map_map. cbn [fst snd]. apply PointCloudFacts.seq_row.
Qed.

(** The depths of the vertices are the positive samples, in order. *)
Lemma vertex_depths (depth_map : ndarray) (K : Intrinsics) (image : Image) :
  List.length (flat depth_map) = (shape_h depth_map * shape_w depth_map)%nat ->
  map vertex_z (flat_map (vertex_at depth_map K image)
                         (pixels (shape_h depth_map) (shape_w depth_map)))
  = filter gt0 (flat depth_map).
Proof.
  intro Hshape.
  set (keep := fun o : option Q =>
                 match o with
                 | Some d => if gt0 d then [d] else []
                 | None => []
                 end).
  assert (G : forall ps,
             map vertex_z (flat_map (vertex_at depth_map K image) ps)
             = flat_map keep
                 (map (nth_error (flat depth_map))
                      (map (fun vu : nat * nat =>
                              (fst vu * shape_w depth_map + snd vu)%nat) ps))).
  { induction ps as [|[v u] ps IH]; [reflexivity|].
    cbn [flat_map map fst snd]. rewrite map_app, IH. f_equal.
    unfold vertex_at, keep.
    destruct (nth_error (flat depth_map) (v * shape_w depth_map + u)) as [d|];
      [|reflexivity].
    destruct (gt0 d); reflexivity. }
  rewrite G, pixel_indices, <- Hshape, PointCloudFacts.nth_error_seq.
  clear. induction (flat depth_map) as [|d ds IH]; [reflexivity|].
  cbn [map flat_map filter]. rewrite IH. unfold keep.
  destruct (gt0 d); reflexivity.
Qed.

(** Indexing the concatenation of rows of equal length. *)
Lemma concat_nth (w : nat) (rows : list (list Q)) (v u : nat) :
  forallb (row_length_is w) rows = true ->
  (u < w)%nat ->
  nth_error (List.concat rows) (v * w + u)
  = match nth_error rows v with
    | Some row => nth_error row u
    | None => None
    end.
Proof.
  revert v. induction rows as [|r rs IH]; intros v Hall Hu.
  - simpl. destruct v; destruct (_ + u)%nat; reflexivity.
  - cbn [forallb] in Hall. apply andb_true_iff in Hall.
    destruct Hall as [Hr Hrs]. unfold row_length_is in Hr.
    apply Nat.eqb_eq in Hr. cbn [List.concat].
    destruct v as [|v].
    + simpl. apply nth_error_app1. lia.
    + cbn [nth_error]. rewrite nth_error_app2 by lia.
      replace (S v * w + u - List.length r)%nat with (v * w + u)%nat by lia.
      apply IH; assumption.
Qed.

End PointCloudOrder.

(** The builder writes, in row-major pixel order, exactly the pixels whose
    sample is strictly positive, each with its back-projected point and its
    colour: the channels of the image pixel swapped from (b, g, r) to
    (r, g, b) when the pixel lies inside the image, gray otherwise.  The
    vertex count of the header is the number of records. *)
Theorem point_cloud_in_row_major_order
        (cv2_imread : string -> option Bridge.Image)
        (depth_data : Bridge.DepthData) (depth_map : Bridge.ndarray)
        (image_path : string) (image : Bridge.Image)
        (K : option Bridge.Intrinsics)
        (Hconv : Bridge.convert_depth_data_to_depth_map depth_data = Ok depth_map)
        (Himg : cv2_imread image_path = Some image)
        (HK : valid_intrinsics K) :
  exists ply,
    Bridge.create_point_cloud_from_depth cv2_imread depth_data image_path K
    = Ok ply
    /\ Bridge.vertices ply
       = flat_map (vertex_at depth_map (chosen_intrinsics depth_map K) image)
                  (pixels (Bridge.shape_h depth_map) (Bridge.shape_w depth_map))
    /\ Bridge.vertex_count ply = List.length (Bridge.vertices ply).
Proof.
  eexists. split.
  - apply (PointCloudOrder.cloud_vertices cv2_imread depth_data depth_map
             image_path image K Hconv Himg HK).
  - split; reflexivity.
Qed.

(** A run of [point_cloud_in_row_major_order]: three positive samples at
    pixels (0,0), (1,0) and (1,1); only the first lies inside the 1 x 1
    image. *)
Lemma point_cloud_in_row_major_order_run :
  exists ply,
    Bridge.create_point_cloud_from_depth
      sample_imread sample_depth "photo.jpg" (Some sample_intrinsics)
    = Ok ply
    /\ map snd (Bridge.vertices ply)
       = [(30, 20, 10)%Z; (128, 128, 128)%Z; (128, 128, 128)%Z].
Proof.
  destruct (point_cloud_in_row_major_order
              sample_imread sample_depth
              (Bridge.mkArray 2 3 [1.5; 0; -1; 2; 0.25; 0])
              "photo.jpg" sample_image (Some sample_intrinsics))
    as (ply & E & V & _).
  - reflexivity.
  - reflexivity.
  - split; reflexivity.
  - exists ply. split; [exact E|]. rewrite V. reflexivity.
Defined.

(** The depths of the cloud are the strictly positive samples of the depth
    map, in the order of the samples: nothing is reordered, duplicated or
    zero-filled. *)
Theorem point_cloud_depths_are_positive_samples
        (cv2_imread : string -> option Bridge.Image)
        (depth_data : Bridge.DepthData) (depth_map : Bridge.ndarray)
        (image_path : string) (image : Bridge.Image)
        (K : option Bridge.Intrinsics)
        (Hconv : Bridge.convert_depth_data_to_depth_map depth_data = Ok depth_map)
        (Himg : cv2_imread image_path = Some image)
        (HK : valid_intrinsics K) :
  exists ply,
    Bridge.create_point_cloud_from_depth cv2_imread depth_data image_path K
    = Ok ply
    /\ map vertex_z (Bridge.vertices ply) = filter gt0 (Bridge.flat depth_map)
    /\ Forall (fun vtx => 0 < vertex_z vtx) (Bridge.vertices ply).
Proof.
  eexists. split.
  - apply (PointCloudOrder.cloud_vertices cv2_imread depth_data depth_map
             image_path image K Hconv Himg HK).
  - cbn [Bridge.vertices].
    pose proof (PointCloudOrder.vertex_depths
                  depth_map (chosen_intrinsics depth_map K) image
                  (PointCloudFacts.convert_shape _ _ Hconv)) as Z.
    split; [exact Z|].
    apply Forall_forall. intros vtx Hin.
    apply gt0_true.
    assert (Hz : In (vertex_z vtx) (filter gt0 (Bridge.flat depth_map))).
    { rewrite <- Z. apply in_map. exact Hin. }
    apply filter_In in Hz. apply Hz.
Qed.

(** A run of [point_cloud_depths_are_positive_samples]. *)
Lemma point_cloud_depths_run :
  exists ply,
    Bridge.create_point_cloud_from_depth
      sample_imread sample_depth "photo.jpg" None
    = Ok ply
    /\ map vertex_z (Bridge.vertices ply) = [1.5; 2; 0.25].
Proof.
  destruct (point_cloud_depths_are_positive_samples
              sample_imread sample_depth
              (Bridge.mkArray 2 3 [1.5; 0; -1; 2; 0.25; 0])
              "photo.jpg" sample_image None)
    as (ply & E & Z & _).
  - reflexivity.
  - reflexivity.
  - exact I.
  - exists ply. split; [exact E | exact Z].
Defined.



(** Indexing a converted array never leaves it: for every row [v] and
    column [u] inside the shape, [a[v, u]] returns a sample; for depth data
    given as nested rows it is [rows[v][u]], for flat data it is
    [data[v * width + u]]. *)
Theorem array_indexing_agrees
        (depth_data : Bridge.DepthData) (depth_map : Bridge.ndarray)
        (v u : nat)
        (Hconv : Bridge.convert_depth_data_to_depth_map depth_data = Ok depth_map)
        (Hv : (v < Bridge.shape_h depth_map)%nat)
        (Hu : (u < Bridge.shape_w depth_map)%nat) :
  exists d,
    Bridge.array_at depth_map v u = Ok d
    /\ match depth_data with
       | Bridge.DepthGrid rows =>
           exists row, nth_error rows v = Some row /\ nth_error row u = Some d
       | Bridge.DepthFlat columns rows data =>
           nth_error data (v * columns + u) = Some d
       | Bridge.DepthOther => False
       end.
Proof.
  pose proof (PointCloudFacts.convert_shape _ _ Hconv) as Hshape.
  assert (Hin : (v * Bridge.shape_w depth_map + u
                 < List.length (Bridge.flat depth_map))%nat).
  { rewrite Hshape.
    assert (S v <= Bridge.shape_h depth_map)%nat by lia.
    assert (S v * Bridge.shape_w depth_map
            <= Bridge.shape_h depth_map * Bridge.shape_w depth_map)%nat
      by (apply Nat.mul_le_mono_r; assumption).
    lia. }
  unfold Bridge.array_at, getitem.
  destruct (nth_error (Bridge.flat depth_map)
                      (v * Bridge.shape_w depth_map + u)) as [d|] eqn:E;
    [|apply nth_error_None in E; lia].
  exists d. split; [reflexivity|].
  unfold Bridge.convert_depth_data_to_depth_map in Hconv.
  destruct depth_data as [rows|columns nrows data|].
  - destruct rows as [|row rows]; [discriminate|].
    destruct (forallb (Bridge.row_length_is (List.length row)) (row :: rows))
      eqn:F; [|discriminate].
    inversion Hconv; subst depth_map.
    cbn [Bridge.flat Bridge.shape_w Bridge.shape_h] in *.
    pose proof (PointCloudOrder.concat_nth _ _ v u F Hu) as C.
    cbn [List.concat] in C, E. rewrite C in E.
    destruct (nth_error (row :: rows) v) as [r|] eqn:R; [|discriminate].
    exists r. split; [reflexivity | exact E].
  - destruct (_ =? _)%nat; [|discriminate].
    inversion Hconv; subst depth_map. exact E.
  - discriminate.
Qed.

(** A run of [array_indexing_agrees]: row 1, column 1 of a 2 x 3 grid. *)
Lemma array_indexing_run :
  exists d,
    Bridge.array_at (Bridge.mkArray 2 3 [1.5; 0; -1; 2; 0.25; 0]) 1 1 = Ok d
    /\ exists row,
        nth_error [[1.5; 0; -1]; [2; 0.25; 0]] 1 = Some row
        /\ nth_error row 1 = Some d.
Proof.
  apply (array_indexing_agrees
           sample_grid (Bridge.mkArray 2 3 [1.5; 0; -1; 2; 0.25; 0]) 1 1).
  - reflexivity.
  - simpl. lia.
  - simpl. lia.
Defined.

(* ================================================================== *)
(** * The processing pipeline *)

Module PipelineFacts.
Import Pipeline.

Lemma reference_loop (objs : list SpatialObject) (acc : list Reference) :
  fold_left reference_step objs acc
  = acc ++ map to_reference
               (filter (fun o => gt (so_confidence o) 0.7) objs).
Proof.
  revert acc. induction objs as [|o os IH]; intro acc; simpl.
  - rewrite app_nil_r. reflexivity.
  - rewrite IH. unfold reference_step.
    destruct (gt (so_confidence o) 0.7); simpl.
    + rewrite <- app_assoc. reflexivity.
    + reflexivity.
Qed.

Lemma gt_true (x y : Q) : gt x y = true <-> y < x.
Proof.
  unfold gt. rewrite negb_true_iff. split; intro H.
  - apply Qnot_le_lt. intro L. apply Qle_bool_iff in L. congruence.
  - destruct (Qle_bool x y) eqn:E; [|reflexivity].
    apply Qle_bool_iff in E. exfalso. apply (Qlt_not_le _ _ H E).
Qed.

(** [int(cm / factor)] for a factor between 0.08 and 0.12: between the
    whole numbers of [cm / 0.12] and of [cm / 0.08]. *)
Lemma pixels_between (cm factor : Q) (lo hi : Z) :
  0.08 <= factor -> factor < 0.12 ->
  (0 <= lo)%Z ->
  inject_Z lo * 0.12 <= cm -> cm < inject_Z (hi + 1) * 0.08 ->
  (lo <= py_int (cm / factor) <= hi)%Z.
Proof.
  intros L U Hnat Hlo Hhi.
  assert (Hf : 0 < factor)
    by (apply (Qlt_le_trans _ 0.08); [reflexivity | exact L]).
  assert (Q0 : 0 <= inject_Z lo)
    by (change 0 with (inject_Z 0); rewrite <- Zle_Qle; exact Hnat).
  assert (Hcm : 0 <= cm).
  { apply (Qle_trans _ (inject_Z lo * 0.12)); [|exact Hlo].
    apply Qmult_le_0_compat; [exact Q0 | discriminate]. }
  assert (Hlow : inject_Z lo <= cm / factor).
  { apply Qle_shift_div_l; [exact Hf|].
    apply (Qle_trans _ (inject_Z lo * 0.12)); [|exact Hlo].
    rewrite (Qmult_comm (inject_Z lo) factor), (Qmult_comm (inject_Z lo) 0.12).
    apply Qmult_le_compat_r; [apply Qlt_le_weak; exact U | exact Q0]. }
  assert (H1 : 0 <= inject_Z (hi + 1)).
  { destruct (Qlt_le_dec (inject_Z (hi + 1)) 0) as [H|H]; [|exact H].
    exfalso. apply (Qlt_irrefl cm).
    apply (Qlt_le_trans _ _ _ Hhi).
    apply (Qle_trans _ 0); [|exact Hcm].
    rewrite <- (Qmult_0_l 0.08).
    apply Qmult_le_compat_r; [apply Qlt_le_weak; exact H | discriminate]. }
  assert (Hup : cm / factor < inject_Z (hi + 1)).
  { apply Qlt_shift_div_r; [exact Hf|].
    apply (Qlt_le_trans _ _ _ Hhi).
    rewrite (Qmult_comm _ 0.08), (Qmult_comm _ factor).
    apply Qmult_le_compat_r; [exact L | exact H1]. }
  unfold py_int.
  replace (Qle_bool 0 (cm / factor)) with true
    by (symmetry; apply Qle_bool_iff;
        apply (Qle_trans _ (inject_Z lo)); assumption).
  split.
  - rewrite <- (Qfloor_Z lo). apply Qfloor_resp_le. exact Hlow.
  - apply Z.lt_succ_r. rewrite Zlt_Qlt.
    apply (Qle_lt_trans _ (cm / factor)); [apply Qfloor_le | exact Hup].
Qed.

Section Processing.

Variable cv2_imread : string -> option Bridge.Image.
Variable np_random : Q.
Variable py_float : string -> option Q.
Variable np_sqrt : Q -> Q.
Variable infer_layout : PointCloudRef -> result string.
Variable process_point_cloud : PointCloudRef -> result PipResult.

Hypothesis random_low : 0 <= np_random.

Lemma mock_factor_positive : 0 < 0.08 + 0.04 * np_random.
Proof.
  apply (Qlt_le_trans _ (0.08 + 0)); [reflexivity|].
  apply Qplus_le_compat; [apply Qle_refl|].
  apply Qmult_le_0_compat; [discriminate | exact random_low].
Qed.

(** The mock returns as soon as the image can be read. *)
Lemma mock_returns (image_path : string) (image : Bridge.Image) :
  cv2_imread image_path = Some image ->
  exists refs,
    mock_spatiallm_processing cv2_imread np_random image_path
    = Ok (mkResult (0.08 + 0.04 * np_random) 0.92 (ReferenceObjects refs)).
Proof.
  intro Himg. unfold mock_spatiallm_processing. rewrite Himg.
  assert (N : ~ 0.08 + 0.04 * np_random == 0).
  { intro E. pose proof mock_factor_positive as P. rewrite E in P.
    exact (Qlt_irrefl 0 P). }
  rewrite !(py_div_ok _ _ N). cbn [bind]. eexists. reflexivity.
Qed.

Lemma mock_raises (image_path : string) :
  cv2_imread image_path = None ->
  mock_spatiallm_processing cv2_imread np_random image_path = Raise ValueError.
Proof.
  intro Himg. unfold mock_spatiallm_processing. rewrite Himg. reflexivity.
Qed.

End Processing.

End PipelineFacts.

(** [extract_reference_dimensions] keeps exactly the objects whose
    confidence is strictly above 0.7, in their order (an object at exactly
    0.7 is dropped), and returns nothing when the result has no "objects"
    key. *)
Theorem references_are_confident_objects (res : Pipeline.PipResult) :
  Pipeline.extract_reference_dimensions res
  = match Pipeline.pip_objects res with
    | Some objs =>
        map Pipeline.to_reference
            (filter (fun o => Pipeline.gt (Pipeline.so_confidence o) 0.7) objs)
    | None => []
    end
  /\ Forall (fun r => 0.7 < Pipeline.ref_confidence r)
            (Pipeline.extract_reference_dimensions res)
  /\ (forall objs,
         Pipeline.pip_objects res = Some objs ->
         (List.length (Pipeline.extract_reference_dimensions res)
          <= List.length objs)%nat).
Proof.
  assert (E : Pipeline.extract_reference_dimensions res
              = match Pipeline.pip_objects res with
                | Some objs =>
                    map Pipeline.to_reference
                        (filter (fun o => Pipeline.gt (Pipeline.so_confidence o) 0.7)
                                objs)
                | None => []
                end).
  { unfold Pipeline.extract_reference_dimensions.
    destruct (Pipeline.pip_objects res) as [objs|]; [|reflexivity].
    apply (PipelineFacts.reference_loop objs []). }
  split; [exact E|]. rewrite E. split.
  - destruct (Pipeline.pip_objects res) as [objs|]; [|constructor].
    apply Forall_forall. intros r Hin. apply in_map_iff in Hin.
    destruct Hin as (o & Ho & Hin). apply filter_In in Hin.
    destruct Hin as [_ Hc]. subst r. cbn [Pipeline.ref_confidence Pipeline.to_reference].
    apply PipelineFacts.gt_true. exact Hc.
  - intros objs Hobjs. rewrite Hobjs, length_map. apply filter_length_le.
Qed.

(** The mock calibration.  When the image can be read and the number
    drawn lies in [0, 1), it returns a factor between 0.08 and 0.12 with
    confidence 0.92 and two reference objects: a door of 80 x 200 cm with
    confidence 0.95 and a chair of 45 x 85 cm with confidence 0.89.  Their
    pixel sizes are whole numbers in the ranges these bounds of the factor
    leave: 666 to 1000 by 1666 to 2500 for the door, 375 to 562 by 708 to
    1062 for the chair. *)
Theorem mock_is_bounded
        (cv2_imread : string -> option Bridge.Image) (np_random : Q)
        (image_path : string) (image : Bridge.Image)
        (Himg : cv2_imread image_path = Some image)
        (Hlow : 0 <= np_random) (Hhigh : np_random < 1) :
  exists res door chair,
    Pipeline.mock_spatiallm_processing cv2_imread np_random image_path = Ok res
    /\ 0.08 <= Pipeline.calibration_factor res
    /\ Pipeline.calibration_factor res <= 0.12
    /\ Pipeline.confidence res = 0.92
    /\ Pipeline.payload res = Pipeline.ReferenceObjects [door; chair]
    /\ Pipeline.ref_type door = "door"
    /\ Pipeline.width_cm door = 80.0
    /\ Pipeline.height_cm door = 200.0
    /\ Pipeline.ref_confidence door = 0.95
    /\ Pipeline.ref_type chair = "chair"
    /\ Pipeline.width_cm chair = 45.0
    /\ Pipeline.height_cm chair = 85.0
    /\ Pipeline.ref_confidence chair = 0.89
    /\ (exists n, Pipeline.width_px door = inject_Z n
                  /\ (666 <= n <= 1000)%Z)
    /\ (exists n, Pipeline.height_px door = inject_Z n
                  /\ (1666 <= n <= 2500)%Z)
    /\ (exists n, Pipeline.width_px chair = inject_Z n
                  /\ (375 <= n <= 562)%Z)
    /\ (exists n, Pipeline.height_px chair = inject_Z n
                  /\ (708 <= n <= 1062)%Z).
Proof.
  pose proof (PipelineFacts.mock_factor_positive np_random Hlow) as P.
  assert (N : ~ 0.08 + 0.04 * np_random == 0)
    by (intro E; rewrite E in P; exact (Qlt_irrefl 0 P)).
  assert (L : 0.08 <= 0.08 + 0.04 * np_random).
  { apply (Qle_trans _ (0.08 + 0)); [discriminate|].
    apply Qplus_le_compat; [apply Qle_refl|].
    apply Qmult_le_0_compat; [discriminate | exact Hlow]. }
  assert (U : 0.08 + 0.04 * np_random < 0.12).
  { apply (Qlt_le_trans _ (0.08 + 0.04 * 1)); [|discriminate].
    apply Qplus_lt_r. apply Qmult_lt_l; [reflexivity | exact Hhigh]. }
  unfold Pipeline.mock_spatiallm_processing. rewrite Himg.
  rewrite !(py_div_ok _ _ N). cbn [bind].
  eexists _, _, _. split; [reflexivity|].
  cbn [Pipeline.calibration_factor Pipeline.confidence Pipeline.payload].
  split; [exact L|]. split; [apply Qlt_le_weak; exact U|].
  do 10 (split; [reflexivity|]).
  cbn [Pipeline.width_px Pipeline.height_px].
  repeat split;
    (eexists; split; [reflexivity|];
     apply PipelineFacts.pixels_between; [exact L | exact U | | | ];
     vm_compute; (discriminate || reflexivity)).
Qed.

(** A run of [mock_is_bounded]: the draw 0.5 gives the factor 0.1. *)
Lemma mock_is_bounded_run :
  exists res,
    Pipeline.mock_spatiallm_processing sample_imread 0.5 "photo.jpg" = Ok res
    /\ 0.08 <= Pipeline.calibration_factor res
    /\ Pipeline.calibration_factor res <= 0.12.
Proof.
  destruct (mock_is_bounded sample_imread 0.5 "photo.jpg" sample_image)
    as (res & _ & _ & E & L & H & _).
  - reflexivity.
  - discriminate.
  - reflexivity.
  - exists res. auto.
Defined.

(** [process_lidar_data] needs nothing but the image: whatever the
    package does (absent, failing or succeeding) and whatever the spatial
    inputs, it returns a result when the image can be read (the number
    drawn lying in [0, 1)); when it fails, the failure is a ValueError and
    the image could not be read. *)
Theorem process_lidar_data_needs_only_the_image
        (cv2_imread : string -> option Bridge.Image) (np_random : Q)
        (py_float : string -> option Q) (np_sqrt : Q -> Q)
        (infer_layout : Pipeline.PointCloudRef -> result string)
        (process_point_cloud :
           Pipeline.PointCloudRef -> result Pipeline.PipResult)
        (available : option Pipeline.ImportSource)
        (image_path : string) (depth_data : option Bridge.DepthData)
        (point_cloud_path : option string)
        (camera_intrinsics : option Bridge.Intrinsics)
        (Hlow : 0 <= np_random) :
  let outcome :=
    Pipeline.process_lidar_data
      cv2_imread np_random py_float np_sqrt infer_layout process_point_cloud
      available image_path depth_data point_cloud_path camera_intrinsics in
  (cv2_imread image_path <> None -> is_ok outcome = true)
  /\ (forall e, outcome = Raise e ->
                e = ValueError /\ cv2_imread image_path = None).
Proof.
  intro outcome.
  assert (M : match cv2_imread image_path with
              | Some _ =>
                  is_ok (Pipeline.mock_spatiallm_processing
                           cv2_imread np_random image_path) = true
              | None =>
                  Pipeline.mock_spatiallm_processing
                    cv2_imread np_random image_path = Raise ValueError
              end).
  { destruct (cv2_imread image_path) as [image|] eqn:Himg.
    - destruct (PipelineFacts.mock_returns cv2_imread np_random Hlow
                  image_path image Himg) as [refs E].
      rewrite E. reflexivity.
    - apply PipelineFacts.mock_raises. exact Himg. }
  assert (O : outcome = Pipeline.mock_spatiallm_processing
                          cv2_imread np_random image_path
              \/ is_ok outcome = true).
  { subst outcome. unfold Pipeline.process_lidar_data.
    destruct available as [source|]; [|left; reflexivity].
    destruct (Pipeline.real_spatiallm_processing _ _ _ _ _ _ _ _ _ _);
      [right; reflexivity | left; reflexivity]. }
  split.
  - intro Himg. destruct O as [O|O]; [|exact O]. rewrite O.
    destruct (cv2_imread image_path); [exact M | congruence].
  - intros e He. destruct O as [O|O].
    + rewrite O in He. destruct (cv2_imread image_path).
      * rewrite He in M. discriminate.
      * rewrite M in He. inversion He. auto.
    + rewrite He in O. discriminate.
Qed.

(** A run of [process_lidar_data_needs_only_the_image]: the repository
    package is present but its inference fails. *)
Lemma process_lidar_data_run :
  is_ok (Pipeline.process_lidar_data
           sample_imread 0.5 float_of_decimal sqrt_q
           failing_inference failing_package (Some Pipeline.repo)
           "photo.jpg" (Some sample_depth) None None) = true.
Proof.
  apply (proj1 (process_lidar_data_needs_only_the_image
                  sample_imread 0.5 float_of_decimal sqrt_q
                  failing_inference failing_package (Some Pipeline.repo)
                  "photo.jpg" (Some sample_depth) None None
                  ltac:(discriminate))).
  discriminate.
Defined.

(** Without depth data and without a point-cloud path the real processing
    raises, and [process_lidar_data] silently answers with the mock
    calibration, whether or not the package is installed. *)
Theorem no_spatial_input_gives_the_mock
        (cv2_imread : string -> option Bridge.Image) (np_random : Q)
        (py_float : string -> option Q) (np_sqrt : Q -> Q)
        (infer_layout : Pipeline.PointCloudRef -> result string)
        (process_point_cloud :
           Pipeline.PointCloudRef -> result Pipeline.PipResult)
        (available : option Pipeline.ImportSource)
        (image_path : string) (point_cloud_path : option string)
        (camera_intrinsics : option Bridge.Intrinsics)
        (Hpath : truthy_str point_cloud_path = false) :
  (forall source,
      Pipeline.real_spatiallm_processing
        cv2_imread py_float np_sqrt infer_layout process_point_cloud
        source image_path None point_cloud_path camera_intrinsics
      = Raise ValueError)
  /\ Pipeline.process_lidar_data
       cv2_imread np_random py_float np_sqrt infer_layout process_point_cloud
       available image_path None point_cloud_path camera_intrinsics
     = Pipeline.mock_spatiallm_processing cv2_imread np_random image_path.
Proof.
  assert (R : forall source,
             Pipeline.real_spatiallm_processing
               cv2_imread py_float np_sqrt infer_layout process_point_cloud
               source image_path None point_cloud_path camera_intrinsics
             = Raise ValueError).
  { intro source. unfold Pipeline.real_spatiallm_processing,
      Pipeline.resolve_point_cloud. rewrite Hpath. reflexivity. }
  split; [exact R|].
  unfold Pipeline.process_lidar_data.
  destruct available as [source|]; [|reflexivity].
  rewrite R. reflexivity.
Qed.

(** A run of [no_spatial_input_gives_the_mock]. *)
Lemma no_spatial_input_run :
  Pipeline.process_lidar_data
    sample_imread 0.5 float_of_decimal sqrt_q failing_inference
    failing_package (Some Pipeline.pip) "photo.jpg" None (Some "") None
  = Pipeline.mock_spatiallm_processing sample_imread 0.5 "photo.jpg".
Proof.
  apply (proj2 (no_spatial_input_gives_the_mock
                  sample_imread 0.5 float_of_decimal sqrt_q failing_inference
                  failing_package (Some Pipeline.pip) "photo.jpg" (Some "")
                  None eq_refl)).
Defined.

(** A point-cloud path, when given, wins over the depth data: the depth
    data and the camera intrinsics are not looked at, not even to
    validate them. *)
Theorem point_cloud_path_wins
        (cv2_imread : string -> option Bridge.Image)
        (py_float : string -> option Q) (np_sqrt : Q -> Q)
        (infer_layout : Pipeline.PointCloudRef -> result string)
        (process_point_cloud :
           Pipeline.PointCloudRef -> result Pipeline.PipResult)
        (source : Pipeline.ImportSource) (image_path : string)
        (depth_data depth_data' : option Bridge.DepthData)
        (point_cloud_path : option string)
        (camera_intrinsics camera_intrinsics' : option Bridge.Intrinsics)
        (Hpath : truthy_str point_cloud_path = true) :
  Pipeline.real_spatiallm_processing
    cv2_imread py_float np_sqrt infer_layout process_point_cloud
    source image_path depth_data point_cloud_path camera_intrinsics
  = Pipeline.real_spatiallm_processing
      cv2_imread py_float np_sqrt infer_layout process_point_cloud
      source image_path depth_data' point_cloud_path camera_intrinsics'.
Proof.
  unfold Pipeline.real_spatiallm_processing, Pipeline.resolve_point_cloud.
  rewrite Hpath. cbn [negb].
  destruct depth_data, depth_data'; reflexivity.
Qed.

(** A run of [point_cloud_path_wins]: unsupported depth data is ignored. *)
Lemma point_cloud_path_wins_run :
  Pipeline.real_spatiallm_processing
    sample_imread float_of_decimal sqrt_q failing_inference failing_package
    Pipeline.repo "photo.jpg" (Some Bridge.DepthOther) (Some "scan.ply") None
  = Pipeline.real_spatiallm_processing
      sample_imread float_of_decimal sqrt_q failing_inference failing_package
      Pipeline.repo "photo.jpg" None (Some "scan.ply") None.
Proof.
  apply (point_cloud_path_wins
           sample_imread float_of_decimal sqrt_q failing_inference
           failing_package Pipeline.repo "photo.jpg"
           (Some Bridge.DepthOther) None (Some "scan.ply") None None eq_refl).
Defined.



(* ================================================================== *)
(** * Height-based calibration *)

Module PoseHeightFacts.
Import PoseHeight.

(** The loop keeps a finite minimum or the initial infinity, and its
    result is below every visible landmark seen. *)
Lemma min_loop (landmarks : list Landmark) (acc : ext) :
  (acc = PlusInfinity \/ exists a, acc = Finite a) ->
  (fold_left min_step landmarks acc = PlusInfinity
   /\ acc = PlusInfinity
   /\ forall l, In l landmarks -> Pipeline.gt (lm_visibility l) 0.5 = false)
  \/ (exists m,
         fold_left min_step landmarks acc = Finite m
         /\ (forall a, acc = Finite a -> m <= a)
         /\ forall l, In l landmarks ->
                      Pipeline.gt (lm_visibility l) 0.5 = true -> m <= lm_y l).
Proof.
  revert acc. induction landmarks as [|l ls IH]; intros acc Hacc.
  - destruct Hacc as [E|[a E]]; subst acc.
    + left. simpl. repeat split. intros l [].
    + right. exists a. simpl. split; [reflexivity|]. split.
      * intros b H. inversion H. apply Qle_refl.
      * intros l [].
  - cbn [fold_left].
    destruct (Pipeline.gt (lm_visibility l) 0.5) eqn:V.
    + destruct Hacc as [E|[a E]]; subst acc.
      * replace (min_step PlusInfinity l) with (Finite (lm_y l))
          by (unfold min_step; rewrite V; reflexivity).
        destruct (IH (Finite (lm_y l))) as [(F & A & _)|(m & F & A & R)];
          [right; eauto | discriminate |].
        right. exists m. split; [exact F|]. split; [discriminate|].
        intros l' [H|H] V'; [subst l'; apply A; reflexivity | apply R; assumption].
      * destruct (Pipeline.gt a (lm_y l)) eqn:G.
        -- replace (min_step (Finite a) l) with (Finite (lm_y l))
             by (unfold min_step; cbn [less_than]; rewrite V, G; reflexivity).
           apply PipelineFacts.gt_true in G.
           destruct (IH (Finite (lm_y l))) as [(F & A & _)|(m & F & A & R)];
             [right; eauto | discriminate |].
           right. exists m. split; [exact F|]. split.
           ++ intros b H. inversion H; subst b.
              apply (Qle_trans _ (lm_y l)); [apply A; reflexivity|].
              apply Qlt_le_weak. exact G.
           ++ intros l' [H|H] V';
                [subst l'; apply A; reflexivity | apply R; assumption].
        -- replace (min_step (Finite a) l) with (Finite a)
             by (unfold min_step; cbn [less_than]; rewrite V, G; reflexivity).
           assert (G' : a <= lm_y l).
           { unfold Pipeline.gt in G. apply negb_false_iff in G.
             apply Qle_bool_iff. exact G. }
           destruct (IH (Finite a)) as [(F & A & _)|(m & F & A & R)];
             [right; eauto | discriminate |].
           right. exists m. split; [exact F|]. split; [exact A|].
           intros l' [H|H] V'.
           ++ subst l'. apply (Qle_trans _ a); [apply A; reflexivity | exact G'].
           ++ apply R; assumption.
    + replace (min_step acc l) with acc
        by (unfold min_step; rewrite V; reflexivity).
      destruct (IH acc Hacc) as [(F & A & R)|(m & F & A & R)].
      * left. split; [exact F|]. split; [exact A|].
        intros l' [H|H]; [subst l'; exact V | apply R; exact H].
      * right. exists m. split; [exact F|]. split; [exact A|].
        intros l' [H|H] V'; [subst l'; congruence | apply R; assumption].
Qed.

(** The minimum is finite and below a landmark of the list that is
    visible. *)
Lemma min_below_visible (landmarks : list Landmark) (l : Landmark) :
  In l landmarks -> Pipeline.gt (lm_visibility l) 0.5 = true ->
  exists m, fold_left min_step landmarks PlusInfinity = Finite m /\ m <= lm_y l.
Proof.
  intros Hin V.
  destruct (min_loop landmarks PlusInfinity (or_introl eq_refl))
    as [(_ & _ & R)|(m & F & _ & R)].
  - rewrite (R l Hin) in V. discriminate.
  - exists m. split; [exact F | apply R; assumption].
Qed.

Lemma getitem_in {A : Type} (xs : list A) (i : nat) (x : A) :
  getitem xs i = Ok x -> In x xs.
Proof.
  unfold getitem. destruct (nth_error xs i) eqn:E; [|discriminate].
  intro H. inversion H; subst. apply (nth_error_In _ _ E).
Qed.

Lemma rows_nonneg (q : Q) (rows : nat) : 0 <= q -> 0 <= q * Bridge.of_nat rows.
Proof.
  intro H. apply Qmult_le_0_compat; [exact H|].
  unfold Bridge.of_nat, Qle. simpl. lia.
Qed.

(** The pixel height found from the pose is finite and not negative. *)
Lemma pose_height_invariant
      (available : bool)
      (pose_landmarks : Bridge.Image -> option (list Landmark))
      (LEFT_ANKLE RIGHT_ANKLE : nat)
      (image : Bridge.Image) (px : ext) :
  detect_person_height_mediapipe
    available pose_landmarks LEFT_ANKLE RIGHT_ANKLE image = Ok (Some px) ->
  exists q, px = Finite q /\ 0 <= q.
Proof.
  intro Hpx. unfold detect_person_height_mediapipe in Hpx.
  destruct available; cbn [negb] in Hpx; [|discriminate].
  destruct (pose_landmarks image) as [landmarks|]; [|discriminate].
  destruct (getitem landmarks LEFT_ANKLE) as [la|] eqn:L;
    cbn [bind] in Hpx; [|discriminate].
  destruct (getitem landmarks RIGHT_ANKLE) as [ra|] eqn:R;
    cbn [bind] in Hpx; [|discriminate].
  apply getitem_in in L.
  apply getitem_in in R.
  destruct (Pipeline.gt (lm_visibility la) 0.5) eqn:VL;
    destruct (Pipeline.gt (lm_visibility ra) 0.5) eqn:VR;
    cbn [andb] in Hpx; try discriminate.
  - destruct (min_below_visible landmarks la L VL)
      as (m & F & Hl).
    destruct (min_below_visible landmarks ra R VR)
      as (m' & F' & Hr).
    rewrite F in F'. inversion F' as [E]. clear F'.
    rewrite F in Hpx. inversion Hpx.
    eexists. split; [reflexivity|].
    apply rows_nonneg.
    assert (M : m + m <= lm_y la + lm_y ra).
    { apply Qplus_le_compat; [exact Hl|]. rewrite E. exact Hr. }
    apply (Qplus_le_l _ _ m). rewrite Qplus_0_l.
    setoid_replace ((lm_y la + lm_y ra) / 2 - m + m)
      with ((lm_y la + lm_y ra) / 2) by ring.
    apply Qle_shift_div_l; [reflexivity|].
    setoid_replace (m * 2) with (m + m) by ring. exact M.
  - destruct (min_below_visible landmarks la L VL)
      as (m & F & Hl).
    rewrite F in Hpx. inversion Hpx.
    eexists. split; [reflexivity|].
    apply rows_nonneg.
    apply (Qplus_le_l _ _ m). rewrite Qplus_0_l.
    setoid_replace (lm_y la - m + m) with (lm_y la)
      by ring.
    exact Hl.
  - destruct (min_below_visible landmarks ra R VR)
      as (m & F & Hr).
    rewrite F in Hpx. inversion Hpx.
    eexists. split; [reflexivity|].
    apply rows_nonneg.
    apply (Qplus_le_l _ _ m). rewrite Qplus_0_l.
    setoid_replace (lm_y ra - m + m) with (lm_y ra)
      by ring.
    exact Hr.
Qed.


End PoseHeightFacts.

(** The pixel height found from the pose is never negative, infinite or
    undefined: the top is the highest visible landmark and the ankles are
    landmarks themselves, so the feet are never above the top.  No height
    is found exactly when neither ankle has a visibility above 0.5. *)
Theorem pose_height_is_finite_and_nonnegative
        (pose_landmarks : Bridge.Image -> option (list PoseHeight.Landmark))
        (LEFT_ANKLE RIGHT_ANKLE : nat)
        (image : Bridge.Image)
        (landmarks : list PoseHeight.Landmark)
        (left_ankle right_ankle : PoseHeight.Landmark)
        (Hpose : pose_landmarks image = Some landmarks)
        (Hleft : nth_error landmarks LEFT_ANKLE = Some left_ankle)
        (Hright : nth_error landmarks RIGHT_ANKLE = Some right_ankle) :
  (exists detected,
      PoseHeight.detect_person_height_mediapipe
        true pose_landmarks LEFT_ANKLE RIGHT_ANKLE image = Ok detected
      /\ (detected = None
          <-> (PoseHeight.lm_visibility left_ankle <= 0.5
               /\ PoseHeight.lm_visibility right_ankle <= 0.5)))
  /\ (forall px,
         PoseHeight.detect_person_height_mediapipe
           true pose_landmarks LEFT_ANKLE RIGHT_ANKLE image = Ok (Some px) ->
         exists q, px = PoseHeight.Finite q /\ 0 <= q).
Proof.
  split.
  - unfold PoseHeight.detect_person_height_mediapipe. cbn [negb].
    rewrite Hpose. unfold getitem. rewrite Hleft, Hright. cbn [bind].
    assert (G : forall x y, Pipeline.gt x y = false <-> x <= y).
    { intros x y. unfold Pipeline.gt. rewrite negb_false_iff.
      apply Qle_bool_iff. }
    destruct (Pipeline.gt (PoseHeight.lm_visibility left_ankle) 0.5) eqn:VL;
      destruct (Pipeline.gt (PoseHeight.lm_visibility right_ankle) 0.5) eqn:VR;
      cbn [andb]; eexists; (split; [reflexivity|]).
    + split; [discriminate|]. intros [H _]. apply G in H. congruence.
    + split; [discriminate|]. intros [H _]. apply G in H. congruence.
    + split; [discriminate|]. intros [_ H]. apply G in H. congruence.
    + split; [|reflexivity]. intros _. split; apply G; assumption.
  - intros px Hpx.
    exact (PoseHeightFacts.pose_height_invariant
             true pose_landmarks LEFT_ANKLE RIGHT_ANKLE image px Hpx).
Qed.

(** A run of [pose_height_is_finite_and_nonnegative]: nose at 0.1, ankles
    at 0.9 and 0.92, an image of 1000 rows: 810 pixels. *)
Lemma pose_height_run :
  exists q,
    PoseHeight.Finite (((0.9 + 0.92) / 2 - 0.1) * Bridge.of_nat 1000)
    = PoseHeight.Finite q
    /\ 0 <= q.
Proof.
  apply (proj2 (pose_height_is_finite_and_nonnegative
                  (fun _ => Some standing_pose) 1 2 tall_image standing_pose
                  (PoseHeight.mkLandmark 0.45 0.9 0.9)
                  (PoseHeight.mkLandmark 0.55 0.92 0.8)
                  eq_refl eq_refl eq_refl)).
  reflexivity.
Defined.

(** [calculate_height_calibration] of [src/python/wrapper.py]: a factor
    that is returned is finite, comes from a strictly positive pixel
    height, and converts that pixel height back to the person's height;
    the function fails with ValueError when neither detector finds a
    person, and with ZeroDivisionError (not ValueError) when the detected
    height is zero pixels; an IndexError can only come from a landmark
    list without the ankle indices. *)
Theorem height_factor_round_trip
        (MEDIAPIPE_AVAILABLE : bool)
        (pose_landmarks : Bridge.Image -> option (list PoseHeight.Landmark))
        (LEFT_ANKLE RIGHT_ANKLE : nat)
        (detect_person_height_fallback : Bridge.Image -> option nat)
        (image : Bridge.Image) (person_height_cm : Q) :
  let detect := PoseHeight.detect_person_height_mediapipe
                  MEDIAPIPE_AVAILABLE pose_landmarks LEFT_ANKLE RIGHT_ANKLE in
  let calculate := PoseHeight.calculate_height_calibration
                     MEDIAPIPE_AVAILABLE pose_landmarks LEFT_ANKLE RIGHT_ANKLE
                     detect_person_height_fallback in
  (forall f,
      calculate image person_height_cm = Ok f ->
      exists factor person_height_px,
        f = PoseHeight.Finite factor
        /\ 0 < person_height_px
        /\ factor * person_height_px == person_height_cm
        /\ (detect image = Ok (Some (PoseHeight.Finite person_height_px))
            \/ (detect image = Ok None
                /\ exists h, detect_person_height_fallback image = Some h
                             /\ person_height_px = Bridge.of_nat h)))
  /\ (detect image = Ok None ->
      detect_person_height_fallback image = None ->
      calculate image person_height_cm = Raise ValueError)
  /\ (forall px,
         detect image = Ok (Some (PoseHeight.Finite px)) -> px == 0 ->
         calculate image person_height_cm = Raise ZeroDivisionError)
  /\ (forall e,
         calculate image person_height_cm = Raise e ->
         e = ValueError \/ e = ZeroDivisionError
         \/ (e = IndexError /\ detect image = Raise IndexError)).
Proof.
  intros detect calculate. subst calculate.
  unfold PoseHeight.calculate_height_calibration. fold detect.
  split; [|split; [|split]].
  - intros f H.
    destruct (detect image) as [[px|]|] eqn:D; cbn [bind] in H;
      [| |discriminate].
    + destruct (PoseHeightFacts.pose_height_invariant _ _ _ _ _ _ D)
        as (q & E & Hq).
      subst px. cbn [PoseHeight.divide] in H.
      destruct (py_div person_height_cm q) as [fq|] eqn:P;
        cbn [bind] in H; [|discriminate].
      inversion H; subst f. apply py_div_inv in P. destruct P as [N E].
      exists fq, q. split; [reflexivity|]. split.
      * destruct (Qle_lt_or_eq _ _ Hq) as [L|Z]; [exact L|].
        exfalso. apply N. symmetry. exact Z.
      * split; [subst fq; field; exact N | left; reflexivity].
    + destruct (detect_person_height_fallback image) as [h|] eqn:F;
        cbn [bind] in H; [|discriminate].
      cbn [PoseHeight.divide] in H.
      destruct (py_div person_height_cm (Bridge.of_nat h)) as [fq|] eqn:P;
        cbn [bind] in H; [|discriminate].
      inversion H; subst f. apply py_div_inv in P. destruct P as [N E].
      exists fq, (Bridge.of_nat h). split; [reflexivity|]. split.
      * assert (Hq : 0 <= Bridge.of_nat h)
          by (unfold Bridge.of_nat, Qle; simpl; lia).
        destruct (Qle_lt_or_eq _ _ Hq) as [L|Z]; [exact L|].
        exfalso. apply N. symmetry. exact Z.
      * split; [subst fq; field; exact N|].
        right. split; [reflexivity|]. exists h. auto.
  - intros D F. rewrite D. cbn [bind]. rewrite F. reflexivity.
  - intros px D Z. rewrite D. cbn [bind PoseHeight.divide].
    unfold py_div.
    replace (Qeq_bool px 0) with true
      by (symmetry; apply Qeq_bool_iff; exact Z).
    reflexivity.
  - intros e H.
    destruct (detect image) as [[px|]|e0] eqn:D; cbn [bind] in H.
    + destruct (PoseHeightFacts.pose_height_invariant _ _ _ _ _ _ D)
        as (q & E & Hq).
      subst px. cbn [PoseHeight.divide] in H.
      destruct (py_div person_height_cm q) as [fq|e1] eqn:P;
        cbn [bind] in H; [discriminate|].
      inversion H; subst e1. apply py_div_raise in P. right. left. apply P.
    + destruct (detect_person_height_fallback image) as [h|] eqn:F;
        cbn [bind] in H.
      * cbn [PoseHeight.divide] in H.
        destruct (py_div person_height_cm (Bridge.of_nat h)) as [fq|e1] eqn:P;
          cbn [bind] in H; [discriminate|].
        inversion H; subst e1. apply py_div_raise in P. right. left. apply P.
      * inversion H. left. reflexivity.
    + inversion H; subst e0. right. right.
      assert (E : e = IndexError).
      { subst detect. unfold PoseHeight.detect_person_height_mediapipe in D.
        destruct MEDIAPIPE_AVAILABLE; cbn [negb] in D; [|discriminate].
        destruct (pose_landmarks image) as [landmarks|]; [|discriminate].
        unfold getitem in D.
        destruct (nth_error landmarks LEFT_ANKLE); cbn [bind] in D;
          [|inversion D; reflexivity].
        destruct (nth_error landmarks RIGHT_ANKLE); cbn [bind] in D;
          [|inversion D; reflexivity].
        repeat match type of D with
               | context [if ?c then _ else _] => destruct c
               end; discriminate. }
      subst e. split; reflexivity.
Qed.

(* ================================================================== *)
(** * The strategies of [src/wrapper.py] *)

Module StrategyFacts.
Import Strategies.

Section Detection.

Variable cv2_imread : string -> option Bridge.Image.
Variable mediapipe_imports : bool.
Variable pose_landmarks :
  Bridge.Image -> result (option (list PoseHeight.Landmark)).
Variable NOSE : nat.
Variable LEFT_ANKLE : nat.
Variable RIGHT_ANKLE : nat.
Variable contour_height : Bridge.Image -> option nat.

Lemma basic_readable (image_path : string) (image : Bridge.Image) :
  cv2_imread image_path = Some image ->
  exists h,
    detect_person_height_basic cv2_imread contour_height image_path = Ok h
    /\ nonnegative h.
Proof.
  intro Himg. unfold detect_person_height_basic. rewrite Himg.
  eexists. split; [reflexivity|].
  destruct (contour_height image) as [n|]; cbn [option_map nonnegative];
    [|exact I].
  unfold Bridge.of_nat, Qle. simpl. lia.
Qed.

Lemma basic_unreadable (image_path : string) :
  cv2_imread image_path = None ->
  detect_person_height_basic cv2_imread contour_height image_path
  = Raise ValueError.
Proof.
  intro Himg. unfold detect_person_height_basic. rewrite Himg. reflexivity.
Qed.

(** What the body of the [try] block returns is never negative. *)
Lemma pose_result_nonnegative (image_path : string) (h : option Q) :
  detect_with_pose cv2_imread mediapipe_imports pose_landmarks
                   NOSE LEFT_ANKLE RIGHT_ANKLE contour_height image_path
  = Ok h -> nonnegative h.
Proof.
  unfold detect_with_pose.
  destruct mediapipe_imports; cbn [negb]; [|discriminate].
  destruct (cv2_imread image_path) as [image|] eqn:Himg; [|discriminate].
  destruct (basic_readable image_path image Himg) as (hb & B & Hb).
  rewrite B.
  destruct (pose_landmarks image) as [[landmarks|]|]; cbn [bind];
    [| |discriminate].
  - destruct (getitem landmarks NOSE) as [nose|]; cbn [bind]; [|discriminate].
    destruct (Pipeline.gt (PoseHeight.lm_visibility nose) 0.5);
      [|intro H; inversion H; subst; exact Hb].
    destruct (getitem landmarks RIGHT_ANKLE) as [ra|]; cbn [bind];
      [|discriminate].
    destruct (Pipeline.gt (PoseHeight.lm_visibility ra) 0.5);
      [|intro H; inversion H; subst; exact Hb].
    destruct (getitem landmarks LEFT_ANKLE) as [la|]; cbn [bind];
      [|discriminate].
    destruct (Pipeline.gt (PoseHeight.lm_visibility la) 0.5);
      [|intro H; inversion H; subst; exact Hb].
    intro H.
    match type of H with
    | Ok (Some (Qabs ?q)) = _ =>
        assert (E : h = Some (Qabs q)) by congruence; rewrite E
    end.
    exact (Qabs_nonneg _).
  - intro H. inversion H; subst. exact Hb.
Qed.

(** [detect_person_height] on a readable image. *)
Lemma detect_readable (image_path : string) (image : Bridge.Image) :
  cv2_imread image_path = Some image ->
  exists h,
    detect_person_height cv2_imread mediapipe_imports pose_landmarks
                         NOSE LEFT_ANKLE RIGHT_ANKLE contour_height image_path
    = Ok h
    /\ nonnegative h.
Proof.
  intro Himg. unfold detect_person_height.
  destruct (detect_with_pose _ _ _ _ _ _ _ _) as [h|e] eqn:D.
  - exists h. split; [reflexivity|].
    apply (pose_result_nonnegative image_path h D).
  - apply (basic_readable image_path image Himg).
Qed.

Lemma detect_unreadable (image_path : string) :
  cv2_imread image_path = None ->
  detect_person_height cv2_imread mediapipe_imports pose_landmarks
                       NOSE LEFT_ANKLE RIGHT_ANKLE contour_height image_path
  = Raise ValueError.
Proof.
  intro Himg. unfold detect_person_height.
  replace (detect_with_pose _ _ _ _ _ _ _ _)
    with (@Raise (option Q) (if mediapipe_imports then ValueError else ImportError)).
  - destruct mediapipe_imports; apply basic_unreadable; exact Himg.
  - unfold detect_with_pose. destruct mediapipe_imports; cbn [negb];
      [rewrite Himg|]; reflexivity.
Qed.

Lemma detect_nonnegative (image_path : string) (h : option Q) :
  detect_person_height cv2_imread mediapipe_imports pose_landmarks
                       NOSE LEFT_ANKLE RIGHT_ANKLE contour_height image_path
  = Ok h -> nonnegative h.
Proof.
  intro H. destruct (cv2_imread image_path) as [image|] eqn:Himg.
  - destruct (detect_readable image_path image Himg) as (h' & E & Hh).
    rewrite E in H. inversion H; subst. exact Hh.
  - rewrite (detect_unreadable image_path Himg) in H. discriminate.
Qed.

End Detection.

End StrategyFacts.

(** [detect_person_height] of [src/wrapper.py] fails exactly when the
    image cannot be read, with a ValueError: a missing pose library, a
    failing pose detection or a short landmark list all lead to the basic
    method.  A height that is returned is never negative. *)
Theorem person_height_needs_only_the_image
        (cv2_imread : string -> option Bridge.Image)
        (mediapipe_imports : bool)
        (pose_landmarks :
           Bridge.Image -> result (option (list PoseHeight.Landmark)))
        (NOSE LEFT_ANKLE RIGHT_ANKLE : nat)
        (contour_height : Bridge.Image -> option nat)
        (image_path : string) :
  let detect :=
    Strategies.detect_person_height
      cv2_imread mediapipe_imports pose_landmarks NOSE LEFT_ANKLE RIGHT_ANKLE
      contour_height image_path in
  (cv2_imread image_path = None <-> detect = Raise ValueError)
  /\ (forall e, detect = Raise e -> e = ValueError)
  /\ (forall h, detect = Ok (Some h) -> 0 <= h).
Proof.
  intro detect. subst detect.
  destruct (cv2_imread image_path) as [image|] eqn:Himg.
  - destruct (StrategyFacts.detect_readable
                cv2_imread mediapipe_imports pose_landmarks NOSE LEFT_ANKLE
                RIGHT_ANKLE contour_height image_path image Himg)
      as (h & E & Hh).
    rewrite E. split; [split; discriminate|]. split; [discriminate|].
    intros q H. inversion H; subst h. exact Hh.
  - rewrite (StrategyFacts.detect_unreadable
               cv2_imread mediapipe_imports pose_landmarks NOSE LEFT_ANKLE
               RIGHT_ANKLE contour_height image_path Himg).
    split; [split; reflexivity|]. split; [|discriminate].
    intros e H. inversion H. reflexivity.
Qed.

(** [calculate_height_based_calibration] of [src/wrapper.py]: whatever
    goes wrong, the failure is a ValueError; no person or a height of zero
    pixels is such a failure (never a division by zero); and a result has
    method height, no confidence, and a factor that converts the detected,
    strictly positive pixel height back to the person's height. *)
Theorem height_strategy_outcomes
        (cv2_imread : string -> option Bridge.Image)
        (mediapipe_imports : bool)
        (pose_landmarks :
           Bridge.Image -> result (option (list PoseHeight.Landmark)))
        (NOSE LEFT_ANKLE RIGHT_ANKLE : nat)
        (contour_height : Bridge.Image -> option nat)
        (create_height_visualization :
           option Bridge.Image -> Q -> result unit)
        (image_path : string) (person_height_cm : Q) :
  let detect :=
    Strategies.detect_person_height
      cv2_imread mediapipe_imports pose_landmarks NOSE LEFT_ANKLE RIGHT_ANKLE
      contour_height image_path in
  let outcome :=
    Strategies.calculate_height_based_calibration
      cv2_imread mediapipe_imports pose_landmarks NOSE LEFT_ANKLE RIGHT_ANKLE
      contour_height create_height_visualization image_path person_height_cm in
  (forall e, outcome = Raise e -> e = ValueError)
  /\ (forall h, detect = Ok h -> truthy_num h = false ->
                outcome = Raise ValueError)
  /\ (forall c,
         outcome = Ok c ->
         method c = height /\ cal_confidence c = None
         /\ exists px,
             detect = Ok (Some px) /\ 0 < px
             /\ factor c * px == person_height_cm).
Proof.
  intros detect outcome. subst outcome.
  unfold Strategies.calculate_height_based_calibration. fold detect.
  split; [|split].
  - intros e H.
    destruct (detect) as [[px|]|]; cbn [bind] in H.
    + destruct (Strategies.height_found (Some px)).
      * destruct (py_div person_height_cm px); cbn [bind] in H;
          [|inversion H; reflexivity].
        destruct (create_height_visualization _ _); cbn [bind] in H;
          [discriminate | inversion H; reflexivity].
      * inversion H; reflexivity.
    + inversion H; reflexivity.
    + inversion H; reflexivity.
  - intros h D T. rewrite D. cbn [bind].
    destruct h as [px|]; [|reflexivity].
    unfold Strategies.height_found. rewrite T. reflexivity.
  - intros c H.
    destruct (detect) as [[px|]|] eqn:D; cbn [bind] in H; try discriminate.
    destruct (Strategies.height_found (Some px)) eqn:T; [|discriminate].
    destruct (py_div person_height_cm px) as [f|] eqn:P; cbn [bind] in H;
      [|discriminate].
    destruct (create_height_visualization _ _); cbn [bind] in H;
      [|discriminate].
    inversion H. cbn [method cal_confidence factor].
    split; [reflexivity|]. split; [reflexivity|].
    apply py_div_inv in P. destruct P as [N E].
    exists px. split; [reflexivity|]. split.
    + pose proof (StrategyFacts.detect_nonnegative
                    cv2_imread mediapipe_imports pose_landmarks NOSE
                    LEFT_ANKLE RIGHT_ANKLE contour_height image_path
                    (Some px) D) as Hn.
      cbn [nonnegative] in Hn.
      destruct (Qle_lt_or_eq _ _ Hn) as [L|Z]; [exact L|].
      exfalso. apply N. symmetry. exact Z.
    + subst f. field. exact N.
Qed.

(** [calculate_reference_object_calibration] of [src/wrapper.py]: a result
    has method reference and a factor equal to the reference width divided
    by 30% of the image width, so the reference height plays no part in it;
    on a readable image a reference width or height of zero raises
    ZeroDivisionError. *)
Theorem reference_factor_depends_on_width_only
        (cv2_imread : string -> option Bridge.Image)
        (create_reference_visualization :
           Bridge.Image -> option string -> Q -> Q -> result unit)
        (image_path : string) (ref_object_type : option string)
        (ref_width_cm ref_height_cm : Q) :
  let outcome :=
    Strategies.calculate_reference_object_calibration
      cv2_imread create_reference_visualization image_path ref_object_type
      ref_width_cm ref_height_cm in
  (forall c,
      outcome = Ok c ->
      exists image,
        cv2_imread image_path = Some image
        /\ ~ ref_width_cm == 0 /\ ~ ref_height_cm == 0
        /\ method c = reference
        /\ factor c
           == ref_width_cm / (Bridge.of_nat (Bridge.img_cols image) * 0.3))
  /\ (forall image,
         cv2_imread image_path = Some image ->
         ref_width_cm == 0 \/ ref_height_cm == 0 ->
         outcome = Raise ZeroDivisionError).
Proof.
  intro outcome. subst outcome.
  unfold Strategies.calculate_reference_object_calibration.
  split.
  - intros c H.
    destruct (cv2_imread image_path) as [image|]; [|discriminate].
    set (w := Bridge.of_nat (Bridge.img_cols image)) in *.
    destruct (py_div ref_height_cm ref_width_cm) as [aspect|] eqn:A;
      cbn [bind] in H; [|discriminate].
    destruct (py_div ref_width_cm (w * 0.3)) as [wf|] eqn:W;
      cbn [bind] in H; [|discriminate].
    destruct (py_div ref_height_cm (w * 0.3 * aspect)) as [hf|] eqn:Hh;
      cbn [bind] in H; [|discriminate].
    destruct (py_div (wf + hf) 2) as [f|] eqn:F; cbn [bind] in H;
      [|discriminate].
    destruct (create_reference_visualization _ _ _ _); cbn [bind] in H;
      [|discriminate].
    inversion H. cbn [method factor].
    apply py_div_inv in A. destruct A as [Nw Ea].
    apply py_div_inv in W. destruct W as [Nx Ew].
    apply py_div_inv in Hh. destruct Hh as [Ny Eh].
    apply py_div_inv in F. destruct F as [_ Ef].
    assert (Nh : ~ ref_height_cm == 0).
    { intro Z. apply Ny. subst aspect. rewrite Z. unfold Qdiv. ring. }
    assert (Nc : ~ w == 0).
    { intro Z. apply Nx. rewrite Z. ring. }
    exists image. split; [reflexivity|]. split; [exact Nw|].
    split; [exact Nh|]. split; [reflexivity|].
    subst f hf wf aspect. fold w. clearbody w. field. repeat split; assumption.
  - intros image Himg Z. rewrite Himg.
    set (w := Bridge.of_nat (Bridge.img_cols image)).
    destruct (py_div ref_height_cm ref_width_cm) as [aspect|e] eqn:A;
      cbn [bind]; [|apply py_div_raise in A; destruct A as [E _]; subst e;
                    reflexivity].
    apply py_div_inv in A. destruct A as [Nw Ea].
    destruct Z as [Z|Z]; [contradiction|].
    destruct (py_div ref_width_cm (w * 0.3)) as [wf|e] eqn:W; cbn [bind];
      [|apply py_div_raise in W; destruct W as [E _]; subst e; reflexivity].
    assert (D : w * 0.3 * aspect == 0).
    { subst aspect. rewrite Z. unfold Qdiv. ring. }
    unfold py_div at 1.
    replace (Qeq_bool (w * 0.3 * aspect) 0) with true
      by (symmetry; apply Qeq_bool_iff; exact D).
    reflexivity.
Qed.

(** [calculate_spatial_calibration] of [src/wrapper.py] does not shield
    its caller: when the depth map loads and the bridge raises anything
    but an ImportError, that exception leaves the function; only an
    ImportError is answered with the mock result, factor 0.08 and
    confidence 0.95. *)
Theorem spatial_strategy_lets_errors_escape
        (cv2_imread : string -> option Bridge.Image)
        (Json : Type) (load_json : string -> result Json)
        (process_lidar_data :
           string -> option Json -> option string
           -> result (list (string * Q)))
        (create_spatial_visualization :
           option Bridge.Image -> list (string * Q) -> result unit)
        (annotate_mock : option Bridge.Image -> result unit)
        (image_path : string) (c0 : ascii) (depth_path : string)
        (point_cloud_path camera_intrinsics_path : option string)
        (depth_data : Json) (e : exn)
        (Hload : load_json (String c0 depth_path) = Ok depth_data)
        (Hraise : process_lidar_data image_path (Some depth_data) None
                  = Raise e) :
  let outcome :=
    Strategies.calculate_spatial_calibration
      cv2_imread true true Json load_json process_lidar_data
      create_spatial_visualization annotate_mock image_path
      (Some (String c0 depth_path)) point_cloud_path camera_intrinsics_path in
  (e <> ImportError -> outcome = Raise e)
  /\ (e = ImportError ->
      annotate_mock (cv2_imread image_path) = Ok tt ->
      outcome = Ok (mkCalibration (Some "spatial") spatial 0.08 (Some 0.95)
                                  "cm/pixel")).
Proof.
  intro outcome. subst outcome.
  unfold Strategies.calculate_spatial_calibration, Strategies.spatial_body.
  cbn [negb truthy_str]. rewrite Hload. cbn [bind]. rewrite Hraise.
  cbn [bind]. split.
  - intro N. destruct e; try reflexivity. congruence.
  - intros E A. subst e. rewrite A. reflexivity.
Qed.

(** A run of [spatial_strategy_lets_errors_escape]: the bridge raises a
    KeyError. *)
Lemma spatial_strategy_run :
  Strategies.calculate_spatial_calibration
    wide_imread true true unit loading raising_bridge no_drawing_spatial
    no_annotation "photo.jpg" (Some "depth.json") None None
  = Raise KeyError.
Proof.
  apply (proj1 (spatial_strategy_lets_errors_escape
                  wide_imread unit loading raising_bridge no_drawing_spatial
                  no_annotation "photo.jpg" "d"%char "epth.json" None None
                  tt KeyError eq_refl eq_refl)).
  discriminate.
Defined.

(** Automatic selection in [src/wrapper.py]: the method it picks always
    has its own input, so [main] never ends with "no valid calibration
    method"; but the default, reference, has no default object: when
    nothing is supplied, or only a custom width and height without the
    object name, [main] ends with "unknown reference object". *)
Theorem automatic_selection_outcomes
        (SPATIAL_LM_AVAILABLE : bool)
        (height_strategy : string -> Q -> result Calibration)
        (spatial_strategy :
           string -> option string -> option string -> option string
           -> result Calibration)
        (reference_strategy :
           string -> option string -> Q -> Q -> result Calibration)
        (args : Wrapper.Args)
        (Hauto : Wrapper.calibration_method args = None) :
  let outcome :=
    Wrapper.main_calibration SPATIAL_LM_AVAILABLE height_strategy
                             spatial_strategy reference_strategy args in
  outcome <> inl Wrapper.NoValidMethod
  /\ (truthy_num (Wrapper.calibration_factor args) = false ->
      truthy_num (Wrapper.person_height args) = false ->
      truthy_str (Wrapper.depth_map args) = false ->
      truthy_str (Wrapper.point_cloud args) = false ->
      names_reference (Wrapper.reference_object args) = false ->
      outcome = inl Wrapper.UnknownReferenceObject).
Proof.
  intro outcome. subst outcome.
  unfold Wrapper.main_calibration. rewrite Hauto.
  unfold Wrapper.determine_calibration_method.
  split.
  - assert (R : forall x, Wrapper.lift x <> inl Wrapper.NoValidMethod).
    { intros [c|e]; discriminate. }
    destruct (truthy_num (Wrapper.calibration_factor args)) eqn:F.
    + cbn iota. discriminate.
    + destruct (truthy_num (Wrapper.person_height args)) eqn:P.
      * cbn iota. apply R.
      * destruct (truthy_str (Wrapper.depth_map args)
                  || truthy_str (Wrapper.point_cloud args)) eqn:S.
        -- cbn iota. destruct SPATIAL_LM_AVAILABLE; cbn [negb];
             [apply R | discriminate].
        -- destruct (truthy_str (Wrapper.reference_object args)
                     || truthy_num (Wrapper.ref_width args)
                        && truthy_num (Wrapper.ref_height args));
             cbn iota;
             repeat match goal with
                    | |- context [if ?b then _ else _] => destruct b
                    end; try apply R; discriminate.
  - intros F P D C N. rewrite F, P, D, C. cbn [orb].
    unfold names_reference in N.
    apply orb_false_iff in N. destruct N as [N N4].
    apply orb_false_iff in N. destruct N as [N N3].
    apply orb_false_iff in N. destruct N as [N1 N2].
    destruct (truthy_str (Wrapper.reference_object args)
              || truthy_num (Wrapper.ref_width args)
                 && truthy_num (Wrapper.ref_height args));
      rewrite N1, N2, N3, N4; reflexivity.
Qed.

(** A run of [automatic_selection_outcomes]: only the image is given. *)
Lemma automatic_selection_run :
  Wrapper.main_calibration
    true (fun _ _ => no_strategy) (fun _ _ _ _ => no_strategy)
    (fun _ _ _ _ => no_strategy) bare_args
  = inl Wrapper.UnknownReferenceObject.
Proof.
  apply (proj2 (automatic_selection_outcomes
                  true (fun _ _ => no_strategy) (fun _ _ _ _ => no_strategy)
                  (fun _ _ _ _ => no_strategy) bare_args eq_refl));
    reflexivity.
Defined.

(* ================================================================== *)
(** * The dispatch of [src/python/wrapper.py] *)

Module DispatchFacts.

(** The shape of every result of the spatial strategy. *)
Lemma spatial_shape
      (Json : Type) (available : bool) (load_json : string -> result Json)
      (process_lidar_data :
         string -> option Json -> option string -> option Json
         -> result (list (string * Q)))
      (image_path : string) (d pc k : option string) :
  let r := PyWrapper.calculate_spatial_calibration
             Json available load_json process_lidar_data image_path d pc k in
  method r = spatial /\ cal_unit r = "cm/pixel".
Proof.
  intro r. subst r. unfold PyWrapper.calculate_spatial_calibration.
  destruct available; cbn [negb]; [|split; reflexivity].
  destruct (PyWrapper.spatial_body Json load_json process_lidar_data
              image_path d pc k) as [c|e] eqn:E; [|split; reflexivity].
  unfold PyWrapper.spatial_body in E.
  destruct (PyWrapper.load_optional Json load_json k) as [jk|];
    cbn [bind] in E; [|discriminate].
  destruct (PyWrapper.load_optional Json load_json d) as [jd|];
    cbn [bind] in E; [|discriminate].
  destruct (process_lidar_data image_path jd pc jk) as [res|];
    cbn [bind] in E; [|discriminate].
  destruct (dict_getitem res "calibration_factor"); cbn [bind] in E;
    [|discriminate].
  destruct (dict_getitem res "confidence"); cbn [bind] in E; [|discriminate].
  inversion E. split; reflexivity.
Qed.

(** Every width and height of the reference table is strictly positive. *)
Lemma reference_positive (name : string) (w h : Q) :
  dict_get PyWrapper.reference_objects name = Some (w, h) -> 0 < w /\ 0 < h.
Proof.
  unfold PyWrapper.reference_objects. cbn [dict_get].
  repeat (destruct (String.eqb name _);
          [intro H; inversion H; split; reflexivity|]).
  discriminate.
Qed.

End DispatchFacts.

(** Every result of the dispatch of [src/python/wrapper.py] carries the
    method that was selected and the unit cm/pixel; the direct, height and
    reference methods report the fixed confidences 1.0, 0.9 and 0.85. *)
Theorem result_carries_selected_method
        (Json : Type) (SPATIALLM_BRIDGE_AVAILABLE : bool)
        (load_json : string -> result Json)
        (process_lidar_data :
           string -> option Json -> option string -> option Json
           -> result (list (string * Q)))
        (ImageT : Type) (cv2_imread : string -> option ImageT)
        (calculate_height_calibration : ImageT -> Q -> result Q)
        (json_loads : string -> result Json)
        (args : PyWrapper.Args) (c : Calibration)
        (Hres : PyWrapper.main_calibration
                  Json SPATIALLM_BRIDGE_AVAILABLE load_json process_lidar_data
                  ImageT cv2_imread calculate_height_calibration json_loads
                  args = Ok c) :
  method c = PyWrapper.calibration args
  /\ cal_unit c = "cm/pixel"
  /\ (forall q, fixed_confidence (PyWrapper.calibration args) = Some q ->
                cal_confidence c = Some q).
Proof.
  unfold PyWrapper.main_calibration in Hres.
  destruct (PyWrapper.calibration args); cbn [fixed_confidence].
  - destruct (_ : result (Q * Q)) as [dims|]; cbn [bind] in Hres;
      [|discriminate].
    destruct (PyWrapper.imread_or_raise ImageT cv2_imread _) as [image|];
      cbn [bind] in Hres; [|discriminate].
    destruct (PyWrapper.calculate_reference_calibration _ _) as [f|];
      cbn [bind] in Hres; [|discriminate].
    inversion Hres. repeat split. intros q H. inversion H. reflexivity.
  - destruct (truthy_num (PyWrapper.person_height args)); [|discriminate].
    destruct (PyWrapper.imread_or_raise ImageT cv2_imread _) as [image|];
      cbn [bind] in Hres; [|discriminate].
    destruct (calculate_height_calibration _ _) as [f|];
      cbn [bind] in Hres; [|discriminate].
    inversion Hres. repeat split. intros q H. inversion H. reflexivity.
  - destruct (_ : result (option Json)) as [j|]; cbn [bind] in Hres;
      [|discriminate].
    inversion Hres.
    destruct (DispatchFacts.spatial_shape
                Json SPATIALLM_BRIDGE_AVAILABLE load_json process_lidar_data
                (PyWrapper.input args) (PyWrapper.depth_map args) None
                (PyWrapper.camera_intrinsics args)) as [M U].
    split; [exact M|]. split; [exact U|]. discriminate.
  - destruct (truthy_num (PyWrapper.calibration_factor args)); [|discriminate].
    inversion Hres. repeat split. intros q H. inversion H. reflexivity.
Qed.

(** A run of [result_carries_selected_method]: the direct method. *)
Lemma result_carries_method_run :
  method (mkCalibration None direct 0.1 (Some 1.0) "cm/pixel") = direct
  /\ cal_unit (mkCalibration None direct 0.1 (Some 1.0) "cm/pixel") = "cm/pixel"
  /\ (forall q, fixed_confidence direct = Some q ->
                cal_confidence (mkCalibration None direct 0.1 (Some 1.0)
                                              "cm/pixel") = Some q).
Proof.
  apply (result_carries_selected_method
           unit false failing_load failing_bridge unit no_image no_height
           failing_load direct_with_height).
  reflexivity.
Defined.

(** In [src/python/wrapper.py] a named reference object wins over custom
    dimensions: with the same name and image, the outcome does not depend
    on the custom width and height, and an unknown name is a ValueError
    even when custom dimensions are supplied.  A result has a strictly
    positive factor, the mean of width/200 and height/150 of the table. *)
Theorem named_reference_object_wins
        (Json : Type) (SPATIALLM_BRIDGE_AVAILABLE : bool)
        (load_json : string -> result Json)
        (process_lidar_data :
           string -> option Json -> option string -> option Json
           -> result (list (string * Q)))
        (ImageT : Type) (cv2_imread : string -> option ImageT)
        (calculate_height_calibration : ImageT -> Q -> result Q)
        (json_loads : string -> result Json)
        (a b : PyWrapper.Args) (name : string)
        (Ha : PyWrapper.calibration a = reference)
        (Hb : PyWrapper.calibration b = reference)
        (Hname : PyWrapper.reference_object a = Some name)
        (Hsame : PyWrapper.reference_object b = Some name)
        (Hfilled : name <> EmptyString)
        (Hinput : PyWrapper.input a = PyWrapper.input b) :
  let run := PyWrapper.main_calibration
               Json SPATIALLM_BRIDGE_AVAILABLE load_json process_lidar_data
               ImageT cv2_imread calculate_height_calibration json_loads in
  run a = run b
  /\ (dict_get PyWrapper.reference_objects name = None ->
      run a = Raise ValueError)
  /\ (forall c,
         run a = Ok c ->
         exists w h,
           dict_get PyWrapper.reference_objects name = Some (w, h)
           /\ factor c == (w / 200 + h / 150) / 2
           /\ 0 < factor c).
Proof.
  intro run. subst run. unfold PyWrapper.main_calibration.
  rewrite Ha, Hb, Hname, Hsame, Hinput.
  assert (T : truthy_str (Some name) = true)
    by (destruct name; [congruence | reflexivity]).
  rewrite T. split; [reflexivity|]. split.
  - intro N. unfold PyWrapper.get_reference_object_dimensions. rewrite N.
    reflexivity.
  - intros c H. unfold PyWrapper.get_reference_object_dimensions in H.
    destruct (dict_get PyWrapper.reference_objects name) as [[w h]|] eqn:D;
      cbn [bind] in H; [|discriminate].
    destruct (PyWrapper.imread_or_raise ImageT cv2_imread _) as [image|];
      cbn [bind] in H; [|discriminate].
    unfold PyWrapper.calculate_reference_calibration in H. cbn [fst snd] in H.
    rewrite !py_div_ok in H by discriminate. cbn [bind] in H.
    inversion H. cbn [factor].
    destruct (DispatchFacts.reference_positive name w h D) as [Pw Ph].
    exists w, h. split; [reflexivity|]. split; [reflexivity|].
    apply Qlt_shift_div_l; [reflexivity|]. rewrite Qmult_0_l.
    apply (Qlt_le_trans _ (w / 200 + 0)).
    + rewrite Qplus_0_r. apply Qlt_shift_div_l; [reflexivity|].
      rewrite Qmult_0_l. exact Pw.
    + apply Qplus_le_compat; [apply Qle_refl|].
      apply Qle_shift_div_l; [reflexivity|]. rewrite Qmult_0_l.
      apply Qlt_le_weak. exact Ph.
Qed.

(** A run of [named_reference_object_wins]: A4 paper, without and with
    custom dimensions. *)
Lemma named_reference_run :
  PyWrapper.main_calibration
    unit false failing_load failing_bridge unit some_image no_height
    failing_load a4_args
  = PyWrapper.main_calibration
      unit false failing_load failing_bridge unit some_image no_height
      failing_load a4_custom_args.
Proof.
  apply (named_reference_object_wins
           unit false failing_load failing_bridge unit some_image no_height
           failing_load a4_args a4_custom_args "a4_paper");
    try reflexivity.
  discriminate.
Defined.

(** The spatial strategy of [src/python/wrapper.py] when the bridge
    answers: with both keys in the bridge's dict, the factor and the
    confidence are passed through unchanged; when a key is missing, the
    KeyError is swallowed like any other error and the fallback with
    confidence 0.7 is returned. *)
Theorem spatial_passes_bridge_values
        (Json : Type) (load_json : string -> result Json)
        (process_lidar_data :
           string -> option Json -> option string -> option Json
           -> result (list (string * Q)))
        (image_path : string)
        (depth_map_path point_cloud_path camera_intrinsics_path : option string)
        (camera_intrinsics depth_data : option Json)
        (answer : list (string * Q))
        (Hintrinsics : PyWrapper.load_optional Json load_json
                         camera_intrinsics_path = Ok camera_intrinsics)
        (Hdepth : PyWrapper.load_optional Json load_json depth_map_path
                  = Ok depth_data)
        (Hanswer : process_lidar_data image_path depth_data point_cloud_path
                                      camera_intrinsics = Ok answer) :
  let r := PyWrapper.calculate_spatial_calibration
             Json true load_json process_lidar_data image_path depth_map_path
             point_cloud_path camera_intrinsics_path in
  (forall f c,
      dict_get answer "calibration_factor" = Some f ->
      dict_get answer "confidence" = Some c ->
      r = mkCalibration (Some "spatial") spatial f (Some c) "cm/pixel")
  /\ (dict_get answer "calibration_factor" = None
      \/ dict_get answer "confidence" = None ->
      r = PyWrapper.fallback 0.7).
Proof.
  intro r. subst r.
  unfold PyWrapper.calculate_spatial_calibration, PyWrapper.spatial_body.
  cbn [negb]. rewrite Hintrinsics. cbn [bind]. rewrite Hdepth. cbn [bind].
  rewrite Hanswer. cbn [bind]. unfold dict_getitem. split.
  - intros f c F C. rewrite F. cbn [bind]. rewrite C. reflexivity.
  - intros [N|N].
    + rewrite N. reflexivity.
    + rewrite N. destruct (dict_get answer "calibration_factor"); reflexivity.
Qed.

(** A run of [spatial_passes_bridge_values]: the bridge answers without a
    confidence. *)
Lemma spatial_missing_key_run :
  PyWrapper.calculate_spatial_calibration
    unit true loading bridge_without_confidence "photo.jpg"
    (Some "depth.json") None None
  = PyWrapper.fallback 0.7.
Proof.
  apply (proj2 (spatial_passes_bridge_values
                  unit loading bridge_without_confidence "photo.jpg"
                  (Some "depth.json") None None None (Some tt)
                  [("calibration_factor", 0.2)] eq_refl eq_refl eq_refl)).
  right. reflexivity.
Defined.

(* ================================================================== *)
(** * Selection and precedence in the two [main] functions *)

Module SelectionFacts.

(** With a method other than direct selected, the dispatch of
    [src/wrapper.py] never reads the factor. *)
Lemma wrapper_ignores_factor
      (SPATIAL_LM_AVAILABLE : bool)
      (height_strategy : string -> Q -> result Calibration)
      (spatial_strategy :
         string -> option string -> option string -> option string
         -> result Calibration)
      (reference_strategy :
         string -> option string -> Q -> Q -> result Calibration)
      (args : Wrapper.Args) (m : Method) (f : option Q) :
  Wrapper.calibration_method args = Some m ->
  m <> direct ->
  Wrapper.main_calibration
    SPATIAL_LM_AVAILABLE height_strategy spatial_strategy reference_strategy
    (wrapper_with_factor args f)
  = Wrapper.main_calibration
      SPATIAL_LM_AVAILABLE height_strategy spatial_strategy
      reference_strategy args.
Proof.
  intros S D. unfold Wrapper.main_calibration, wrapper_with_factor.
  cbn [Wrapper.calibration_method Wrapper.input Wrapper.person_height
       Wrapper.depth_map Wrapper.point_cloud Wrapper.camera_intrinsics
       Wrapper.reference_object Wrapper.ref_width Wrapper.ref_height].
  rewrite S. destruct m; try reflexivity. congruence.
Qed.

(** With a method other than direct selected, the dispatch of
    [src/python/wrapper.py] never reads the factor. *)
Lemma py_wrapper_ignores_factor
      (Json : Type) (SPATIALLM_BRIDGE_AVAILABLE : bool)
      (load_json : string -> result Json)
      (process_lidar_data :
         string -> option Json -> option string -> option Json
         -> result (list (string * Q)))
      (ImageT : Type) (cv2_imread : string -> option ImageT)
      (calculate_height_calibration : ImageT -> Q -> result Q)
      (json_loads : string -> result Json)
      (args : PyWrapper.Args) (f : option Q) :
  PyWrapper.calibration args <> direct ->
  PyWrapper.main_calibration
    Json SPATIALLM_BRIDGE_AVAILABLE load_json process_lidar_data
    ImageT cv2_imread calculate_height_calibration json_loads
    (py_wrapper_with_factor args f)
  = PyWrapper.main_calibration
      Json SPATIALLM_BRIDGE_AVAILABLE load_json process_lidar_data
      ImageT cv2_imread calculate_height_calibration json_loads args.
Proof.
  intro D. unfold PyWrapper.main_calibration, py_wrapper_with_factor.
  cbn [PyWrapper.calibration PyWrapper.input PyWrapper.person_height
       PyWrapper.depth_map PyWrapper.camera_intrinsics
       PyWrapper.reference_object PyWrapper.reference_width
       PyWrapper.reference_height].
  destruct (PyWrapper.calibration args); try reflexivity. congruence.
Qed.

(** A result of the dispatch of [src/python/wrapper.py] has the selected
    method. *)
Lemma py_wrapper_method
      (Json : Type) (SPATIALLM_BRIDGE_AVAILABLE : bool)
      (load_json : string -> result Json)
      (process_lidar_data :
         string -> option Json -> option string -> option Json
         -> result (list (string * Q)))
      (ImageT : Type) (cv2_imread : string -> option ImageT)
      (calculate_height_calibration : ImageT -> Q -> result Q)
      (json_loads : string -> result Json)
      (args : PyWrapper.Args) (c : Calibration) :
  PyWrapper.main_calibration
    Json SPATIALLM_BRIDGE_AVAILABLE load_json process_lidar_data
    ImageT cv2_imread calculate_height_calibration json_loads args = Ok c ->
  method c = PyWrapper.calibration args.
Proof.
  intro Hres. unfold PyWrapper.main_calibration in Hres.
  destruct (PyWrapper.calibration args).
  - destruct (_ : result (Q * Q)) as [dims|]; cbn [bind] in Hres;
      [|discriminate].
    destruct (PyWrapper.imread_or_raise ImageT cv2_imread _) as [image|];
      cbn [bind] in Hres; [|discriminate].
    destruct (PyWrapper.calculate_reference_calibration _ _) as [q|];
      cbn [bind] in Hres; [|discriminate].
    inversion Hres. reflexivity.
  - destruct (truthy_num (PyWrapper.person_height args)); [|discriminate].
    destruct (PyWrapper.imread_or_raise ImageT cv2_imread _) as [image|];
      cbn [bind] in Hres; [|discriminate].
    destruct (calculate_height_calibration _ _) as [q|];
      cbn [bind] in Hres; [|discriminate].
    inversion Hres. reflexivity.
  - destruct (_ : result (option Json)) as [j|]; cbn [bind] in Hres;
      [|discriminate].
    inversion Hres.
    exact (proj1 (DispatchFacts.spatial_shape
                    Json SPATIALLM_BRIDGE_AVAILABLE load_json
                    process_lidar_data
                    (PyWrapper.input args) (PyWrapper.depth_map args) None
                    (PyWrapper.camera_intrinsics args))).
  - destruct (truthy_num (PyWrapper.calibration_factor args)); [|discriminate].
    inversion Hres. reflexivity.
Qed.

End SelectionFacts.

(** C5 (as the claim states it, refuted): with a direct factor and a
    person height supplied and the spatial method selected, [main] of
    [src/python/wrapper.py] gets past the file checks and its result has
    method spatial, not direct; in [src/wrapper.py], with the height method
    selected, the result is the one of the height strategy (method height
    for a standing person), not direct; and where no method is selected
    and the factor wins, the direct result of [src/wrapper.py] carries no
    confidence at all. *)
Lemma selected_method_beats_factor :
  truthy_num (PyWrapper.calibration_factor spatial_with_factor) = true
  /\ truthy_num (PyWrapper.person_height spatial_with_factor) = true
  /\ (exists c,
         PyWrapper.main
           unit false failing_load failing_bridge unit some_image no_height
           failing_load photo_exists makedirs_nonempty spatial_with_factor
         = Ok c
         /\ method c = spatial
         /\ method c <> direct)
  /\ truthy_num (Wrapper.calibration_factor height_with_factor) = true
  /\ (exists c,
         Wrapper.main
           true
           (Strategies.calculate_height_based_calibration
              wide_imread true sees_standing_person 0 27 28 no_contour
              no_drawing_height)
           (fun _ _ _ _ => no_strategy) (fun _ _ _ _ => no_strategy)
           photo_exists height_with_factor
         = Wrapper.Calibrated (inr c)
         /\ method c = height
         /\ method c <> direct
         /\ factor c == 175 / 810)
  /\ (exists c,
         Wrapper.main
           true (fun _ _ => no_strategy) (fun _ _ _ _ => no_strategy)
           (fun _ _ _ _ => no_strategy) photo_exists auto_with_factor
         = Wrapper.Calibrated (inr c)
         /\ method c = direct
         /\ cal_confidence c = None).
Proof.
  split; [reflexivity|]. split; [reflexivity|]. split; [|split; [|split]].
  - eexists. split; [reflexivity|]. split; [reflexivity | discriminate].
  - reflexivity.
  - eexists. split; [vm_compute; reflexivity|].
    split; [reflexivity|]. split; [discriminate | reflexivity].
  - eexists. split; [reflexivity|]. split; reflexivity.
Qed.

(** C5 (amended): [determine_calibration_method], used when no method is
    selected, follows the precedence direct > height > spatial > reference
    over the inputs that are supplied (non-zero numbers, non-empty paths).
    With a non-zero direct factor supplied it answers direct, whatever else
    is supplied; [src/wrapper.py] then returns a result of method direct
    when no method or the direct method is selected, and
    [src/python/wrapper.py] returns method direct with confidence 1.0 when
    the direct method is selected; so do the two [main] functions once the
    input file exists and, in [src/python/wrapper.py], the directory of the
    output path can be made.  With another method selected explicitly the
    supplied factor is not used: the outcome of either dispatch is the same
    whatever the factor, in [src/wrapper.py] a result is the one of the
    strategy of the selected method, and in [src/python/wrapper.py] a result
    carries the selected method. *)
Theorem direct_precedence
        (SPATIAL_LM_AVAILABLE : bool)
        (height_strategy : string -> Q -> result Calibration)
        (spatial_strategy :
           string -> option string -> option string -> option string
           -> result Calibration)
        (reference_strategy :
           string -> option string -> Q -> Q -> result Calibration)
        (a : Wrapper.Args)
        (Json : Type) (SPATIALLM_BRIDGE_AVAILABLE : bool)
        (load_json : string -> result Json)
        (process_lidar_data :
           string -> option Json -> option string -> option Json
           -> result (list (string * Q)))
        (ImageT : Type) (cv2_imread : string -> option ImageT)
        (calculate_height_calibration : ImageT -> Q -> result Q)
        (json_loads : string -> result Json)
        (b : PyWrapper.Args)
        (os_path_isfile : string -> bool)
        (os_makedirs : string -> result unit)
        (Ha : truthy_num (Wrapper.calibration_factor a) = true)
        (Hsel : Wrapper.calibration_method a = None
                \/ Wrapper.calibration_method a = Some direct)
        (Hb : truthy_num (PyWrapper.calibration_factor b) = true)
        (Hdirect : PyWrapper.calibration b = direct) :
  let wrapper_dispatch :=
    Wrapper.main_calibration
      SPATIAL_LM_AVAILABLE height_strategy spatial_strategy
      reference_strategy in
  let py_wrapper_dispatch :=
    PyWrapper.main_calibration
      Json SPATIALLM_BRIDGE_AVAILABLE load_json process_lidar_data
      ImageT cv2_imread calculate_height_calibration json_loads in
  (forall args,
      Wrapper.determine_calibration_method args
      = precedence (truthy_num (Wrapper.calibration_factor args))
                   (truthy_num (Wrapper.person_height args))
                   (truthy_str (Wrapper.depth_map args)
                    || truthy_str (Wrapper.point_cloud args)))
  /\ Wrapper.determine_calibration_method a = direct
  /\ (exists f,
         Wrapper.calibration_factor a = Some f
         /\ wrapper_dispatch a
            = inr (mkCalibration (Some "direct") direct f None "cm/pixel"))
  /\ (exists f,
         PyWrapper.calibration_factor b = Some f
         /\ py_wrapper_dispatch b
            = Ok (mkCalibration None direct f (Some 1.0) "cm/pixel"))
  /\ (os_path_isfile (Wrapper.input a) = true ->
      exists f,
        Wrapper.calibration_factor a = Some f
        /\ Wrapper.main
             SPATIAL_LM_AVAILABLE height_strategy spatial_strategy
             reference_strategy os_path_isfile a
           = Wrapper.Calibrated
               (inr (mkCalibration (Some "direct") direct f None "cm/pixel")))
  /\ (os_path_isfile (PyWrapper.input b) = true ->
      os_makedirs (dirname (PyWrapper.output b)) = Ok tt ->
      exists f,
        PyWrapper.calibration_factor b = Some f
        /\ PyWrapper.main
             Json SPATIALLM_BRIDGE_AVAILABLE load_json process_lidar_data
             ImageT cv2_imread calculate_height_calibration json_loads
             os_path_isfile os_makedirs b
           = Ok (mkCalibration None direct f (Some 1.0) "cm/pixel"))
  /\ (forall args m,
         Wrapper.calibration_method args = Some m ->
         m <> direct ->
         (forall f,
             wrapper_dispatch (wrapper_with_factor args f)
             = wrapper_dispatch args)
         /\ (forall c,
                wrapper_dispatch args = inr c ->
                (m = height
                 /\ height_strategy (Wrapper.input args)
                      (Wrapper.of_option (Wrapper.person_height args)) = Ok c)
                \/ (m = spatial
                    /\ spatial_strategy
                         (Wrapper.input args) (Wrapper.depth_map args)
                         (Wrapper.point_cloud args)
                         (Wrapper.camera_intrinsics args) = Ok c)
                \/ (m = reference
                    /\ exists w h,
                        reference_strategy
                          (Wrapper.input args) (Wrapper.reference_object args)
                          w h = Ok c)))
  /\ (forall args,
         PyWrapper.calibration args <> direct ->
         (forall f,
             py_wrapper_dispatch (py_wrapper_with_factor args f)
             = py_wrapper_dispatch args)
         /\ (forall c,
                py_wrapper_dispatch args = Ok c ->
                method c = PyWrapper.calibration args
                /\ method c <> direct)).
Proof.
  intros wrapper_dispatch py_wrapper_dispatch.
  assert (A : exists f,
             Wrapper.calibration_factor a = Some f
             /\ wrapper_dispatch a
                = inr (mkCalibration (Some "direct") direct f None
                                     "cm/pixel")).
  { destruct (Wrapper.calibration_factor a) as [f|] eqn:F; [|discriminate].
    exists f. split; [reflexivity|].
    unfold wrapper_dispatch, Wrapper.main_calibration.
    assert (M : match Wrapper.calibration_method a with
                | Some m => m
                | None => Wrapper.determine_calibration_method a
                end = direct).
    { destruct Hsel as [S|S]; rewrite S; [|reflexivity].
      unfold Wrapper.determine_calibration_method. rewrite F.
      simpl in Ha. simpl. rewrite Ha. reflexivity. }
    rewrite M, F. simpl in Ha. simpl. rewrite Ha. reflexivity. }
  assert (B : exists f,
             PyWrapper.calibration_factor b = Some f
             /\ py_wrapper_dispatch b
                = Ok (mkCalibration None direct f (Some 1.0) "cm/pixel")).
  { destruct (PyWrapper.calibration_factor b) as [f|] eqn:F; [|discriminate].
    exists f. split; [reflexivity|].
    unfold py_wrapper_dispatch, PyWrapper.main_calibration.
    rewrite Hdirect, F. simpl in Hb. simpl. rewrite Hb. reflexivity. }
  split; [|split; [|split; [|split; [|split; [|split; [|split]]]]]].
  - intro args. unfold Wrapper.determine_calibration_method, precedence.
    destruct (truthy_num (Wrapper.calibration_factor args)); [reflexivity|].
    destruct (truthy_num (Wrapper.person_height args)); [reflexivity|].
    destruct (truthy_str (Wrapper.depth_map args)
              || truthy_str (Wrapper.point_cloud args)); [reflexivity|].
    destruct (truthy_str (Wrapper.reference_object args)
              || truthy_num (Wrapper.ref_width args)
                 && truthy_num (Wrapper.ref_height args)); reflexivity.
  - unfold Wrapper.determine_calibration_method. rewrite Ha. reflexivity.
  - exact A.
  - exact B.
  - intro Hfile. destruct A as (f & F & E). exists f. split; [exact F|].
    unfold Wrapper.main. rewrite Hfile. cbn [negb].
    fold wrapper_dispatch. rewrite E. reflexivity.
  - intros Hfile Hdir. destruct B as (f & F & E). exists f.
    split; [exact F|].
    unfold PyWrapper.main. rewrite Hfile, Hdir. cbn [negb bind].
    exact E.
  - intros args m S D. split.
    + intro f. apply SelectionFacts.wrapper_ignores_factor with (m := m);
        assumption.
    + intros c H. unfold wrapper_dispatch, Wrapper.main_calibration in H.
      rewrite S in H. destruct m.
      * right. right. split; [reflexivity|].
        repeat match type of H with
               | (if ?g then _ else _) = _ => destruct g
               end;
          try discriminate;
          match type of H with
          | Wrapper.lift (reference_strategy _ _ ?w ?h) = _ =>
              exists w, h;
              destruct (reference_strategy
                          (Wrapper.input args) (Wrapper.reference_object args)
                          w h); inversion H; reflexivity
          end.
      * left. split; [reflexivity|].
        destruct (truthy_num (Wrapper.person_height args)); [|discriminate].
        destruct (height_strategy _ _); inversion H; reflexivity.
      * right. left. split; [reflexivity|].
        destruct (negb SPATIAL_LM_AVAILABLE); [discriminate|].
        destruct (truthy_str (Wrapper.depth_map args)
                  || truthy_str (Wrapper.point_cloud args)); [|discriminate].
        destruct (spatial_strategy _ _ _ _); inversion H; reflexivity.
      * congruence.
  - intros args D. split.
    + intro f. apply SelectionFacts.py_wrapper_ignores_factor. exact D.
    + intros c H. apply SelectionFacts.py_wrapper_method in H.
      split; [exact H|]. rewrite H. exact D.
Qed.

(** A run of C5: [--input photo.jpg --output results/out.jpg] with a factor
    of 0.1 and a person height of 175, in a file system that holds the
    photo. *)
Lemma direct_precedence_run :
  Wrapper.determine_calibration_method auto_with_factor = direct
  /\ Wrapper.main
       true (fun _ _ => no_strategy) (fun _ _ _ _ => no_strategy)
       (fun _ _ _ _ => no_strategy) photo_exists auto_with_factor
     = Wrapper.Calibrated
         (inr (mkCalibration (Some "direct") direct 0.1 None "cm/pixel"))
  /\ PyWrapper.main
       unit false failing_load failing_bridge unit some_image no_height
       failing_load photo_exists makedirs_nonempty direct_with_height
     = Ok (mkCalibration None direct 0.1 (Some 1.0) "cm/pixel").
Proof.
  destruct (direct_precedence
              true (fun _ _ => no_strategy) (fun _ _ _ _ => no_strategy)
              (fun _ _ _ _ => no_strategy) auto_with_factor
              unit false failing_load failing_bridge unit some_image no_height
              failing_load direct_with_height photo_exists makedirs_nonempty)
    as (_ & D & _ & _ & W & P & _).
  - reflexivity.
  - left. reflexivity.
  - reflexivity.
  - reflexivity.
  - split; [exact D|]. split.
    + destruct (W eq_refl) as (f & F & E). inversion F. subst f. exact E.
    + destruct (P eq_refl eq_refl) as (f & F & E). inversion F. subst f.
      exact E.
Defined.
